(** * MarketShares: the column detector and the record ranker of
    [src/utils/fileProcessor.js]

    The development embeds [extractMarketShareData] and the JavaScript
    primitives it calls, and states the properties of the specification
    over that embedding.

    Conventions of the embedding.
    - A JavaScript string is a Rocq [string]; the text is taken to be ASCII,
      so case mapping and white space are those of the ASCII range.
    - A JavaScript number is [NaN], an infinity, or a finite decimal
      fraction [m / 10^k].  Every finite binary64 value is such a fraction,
      and the fractions are closed under every operation the source applies
      (parsing and printing decimal text, [* 100], [/ 1000], [+], [-]);
      arithmetic on them is exact: the rounding, overflow and signed zero of
      binary64 are left out.
    - A cell of the sheet is [undefined] (a hole or an index past the end of
      the row), a string or a number.  A boolean cell, which a sheet reader
      can also yield, is outside the embedding: statements that a call
      returns are about sheets of these three kinds of cell.
    - Where the last bits of a binary64 number would decide (a value within
      rounding error of a midpoint between two tenths, or of the threshold
      1000), a statement keeps a margin of 10^-9 from that point.
    - [Array.prototype.sort] is stable; it is computed by insertion.
    - An exception that escapes the call is a [Throw] result.
    - [console.log] and [console.warn] have no effect on the result and are
      dropped.

    Beyond the properties of the specification, the development embeds what
    surrounds the ranker: [getCleanFileName] of the application component,
    the analysis templates of [src/templates/analysisTemplates.js], and the
    selection of files and the data of the two charts of
    [src/components/FileUploader.js]; and it proves further properties of
    the detector, the ranker and these.
    - [x / y] is not closed on decimal fractions; the one division of the
      templates is a parameter of the functions that reach it.
    - The state of a component is the value it holds once its callback or
      its effect has run; rendering, [FileReader], the spreadsheet reader and the Chart.js
      configuration are not embedded. *)

From Stdlib Require Import ZArith NArith List String Ascii Lia Bool.
From Stdlib Require Import DecimalString DecimalN DecimalFacts Sorted Permutation.
Import ListNotations.

Local Open Scope string_scope.
Local Open Scope Z_scope.

(** ** JavaScript primitives *)
Module JS.

(** *** Strings *)

Definition code (c : ascii) : nat := nat_of_ascii c.

Definition is_upper (c : ascii) : bool :=
  (65 <=? code c)%nat && (code c <=? 90)%nat.

Definition lower_char (c : ascii) : ascii :=
  if is_upper c then ascii_of_nat (code c + 32) else c.

(** [String.prototype.toLowerCase] *)
Fixpoint toLowerCase (s : string) : string :=
  match s with
  | EmptyString => EmptyString
  | String c r => String (lower_char c) (toLowerCase r)
  end.

(** [String.prototype.includes]: [includes pat s] is [s.includes(pat)] *)
Fixpoint includes (pat s : string) : bool :=
  if prefix pat s then true
  else match s with
       | EmptyString => false
       | String _ r => includes pat r
       end.

(** White space of the ASCII range: TAB, LF, VT, FF, CR and SP. *)
Definition is_ws (c : ascii) : bool :=
  ((9 <=? code c)%nat && (code c <=? 13)%nat) || (code c =? 32)%nat.

Fixpoint trimStart (s : string) : string :=
  match s with
  | EmptyString => EmptyString
  | String c r => if is_ws c then trimStart r else s
  end.

Fixpoint trimEnd (s : string) : string :=
  match s with
  | EmptyString => EmptyString
  | String c r =>
      match trimEnd r with
      | EmptyString => if is_ws c then EmptyString else String c EmptyString
      | r' => String c r'
      end
  end.

(** [String.prototype.trim] *)
Definition trim (s : string) : string := trimEnd (trimStart s).

(** [s.replace(/[...]/g, '')] for a character class [cls] *)
Fixpoint strip (cls : ascii -> bool) (s : string) : string :=
  match s with
  | EmptyString => EmptyString
  | String c r => if cls c then strip cls r else String c (strip cls r)
  end.

(** The class [[%$,]] *)
Definition pct_dollar_comma (c : ascii) : bool :=
  (c =? "%")%char || (c =? "$")%char || (c =? ",")%char.

(** The class [[,$]] *)
Definition comma_dollar (c : ascii) : bool :=
  (c =? ",")%char || (c =? "$")%char.

Fixpoint repeat_char (c : ascii) (n : nat) : string :=
  match n with
  | O => EmptyString
  | S n' => String c (repeat_char c n')
  end.

(** *** Numbers *)

(** [Fin m k] is the number [m / 10^k]. *)
Inductive number : Type :=
| NaN
| Inf (negative : bool)
| Fin (m : Z) (k : nat).

Definition pow10 (k : nat) : Z := 10 ^ Z.of_nat k.

(** Trailing zeros of the fraction are dropped, so that a value built by
    the operations below has one representation. *)
Fixpoint normalize (m : Z) (k : nat) : Z * nat :=
  match k with
  | O => (m, O)
  | S k' => if m mod 10 =? 0 then normalize (m / 10) k' else (m, k)
  end.

Definition mkFin (m : Z) (k : nat) : number :=
  let (m', k') := normalize m k in Fin m' k'.

Definition ofZ (z : Z) : number := Fin z 0.

Definition isNaN (x : number) : bool :=
  match x with NaN => true | _ => false end.

(** [x < y] *)
Definition lt (x y : number) : bool :=
  match x, y with
  | NaN, _ | _, NaN => false
  | Inf true, Inf true => false
  | Inf true, _ => true
  | _, Inf true => false
  | Inf false, _ => false
  | Fin _ _, Inf false => true
  | Fin m1 k1, Fin m2 k2 => m1 * pow10 k2 <? m2 * pow10 k1
  end.

(** [x > y] *)
Definition gt (x y : number) : bool := lt y x.

(** [x >= y] *)
Definition ge (x y : number) : bool :=
  match x, y with
  | NaN, _ | _, NaN => false
  | _, _ => negb (lt x y)
  end.

Definition sgn (x : number) : Z :=
  match x with
  | NaN => 0
  | Inf n => if n then -1 else 1
  | Fin m _ => Z.sgn m
  end.

Definition neg (x : number) : number :=
  match x with
  | NaN => NaN
  | Inf n => Inf (negb n)
  | Fin m k => Fin (- m) k
  end.

(** [x + y] *)
Definition add (x y : number) : number :=
  match x, y with
  | NaN, _ | _, NaN => NaN
  | Inf a, Inf b => if Bool.eqb a b then Inf a else NaN
  | Inf a, Fin _ _ => Inf a
  | Fin _ _, Inf b => Inf b
  | Fin m1 k1, Fin m2 k2 => mkFin (m1 * pow10 k2 + m2 * pow10 k1) (k1 + k2)
  end.

(** [x - y] *)
Definition sub (x y : number) : number := add x (neg y).

(** [x * y] *)
Definition mul (x y : number) : number :=
  match x, y with
  | NaN, _ | _, NaN => NaN
  | Inf a, _ | _, Inf a =>
      match sgn x * sgn y with
      | 0 => NaN
      | Zpos _ => Inf false
      | Zneg _ => Inf true
      end
  | Fin m1 k1, Fin m2 k2 => mkFin (m1 * m2) (k1 + k2)
  end.

(** [x / 1000], the one division of the source *)
Definition div1000 (x : number) : number :=
  match x with
  | Fin m k => mkFin m (k + 3)
  | _ => x
  end.

(** *** Printing numbers *)

(** The decimal digits of a natural number; [digits 0] is ["0"]. *)
Definition digits (n : N) : string := NilEmpty.string_of_uint (N.to_uint n).

Fixpoint strip_trailing_zeros (s : string) : string :=
  match s with
  | EmptyString => EmptyString
  | String c r =>
      match strip_trailing_zeros r with
      | EmptyString => if (c =? "0")%char then EmptyString else String c EmptyString
      | r' => String c r'
      end
  end.

Definition lenZ (s : string) : Z := Z.of_nat (String.length s).

(** [Number::toString] of a positive finite number [m / 10^k]: [sd] holds
    the significant digits and [n] the position of the decimal point. *)
Definition toString_pos (m : Z) (k : nat) : string :=
  let all := digits (Z.to_N m) in
  let sd := strip_trailing_zeros all in
  let n := lenZ all - Z.of_nat k in
  let kk := lenZ sd in
  if (kk <=? n) && (n <=? 21) then
    sd ++ repeat_char "0" (Z.to_nat (n - kk))
  else if (0 <? n) && (n <=? 21) then
    substring 0 (Z.to_nat n) sd ++ "." ++
    substring (Z.to_nat n) (Z.to_nat (kk - n)) sd
  else if (-6 <? n) && (n <=? 0) then
    "0." ++ repeat_char "0" (Z.to_nat (- n)) ++ sd
  else
    let e := n - 1 in
    let es := (if e <? 0 then "-" else "+") ++ digits (Z.to_N (Z.abs e)) in
    if kk =? 1 then sd ++ "e" ++ es
    else substring 0 1 sd ++ "." ++
         substring 1 (Z.to_nat (kk - 1)) sd ++ "e" ++ es.

(** [Number.prototype.toString], radix 10; the digits are those of the
    exact value. *)
Definition toString (x : number) : string :=
  match x with
  | NaN => "NaN"
  | Inf n => if n then "-Infinity" else "Infinity"
  | Fin m k =>
      let (m', k') := normalize m k in
      if m' =? 0 then "0"
      else if m' <? 0 then "-" ++ toString_pos (- m') k'
      else toString_pos m' k'
  end.

(** [r] written with at least [f] digits *)
Definition padded (f : nat) (r : N) : string :=
  let d := digits r in
  repeat_char "0" (f - String.length d) ++ d.

(** [Number.prototype.toFixed]: with [n] the integer nearest to
    [|x| * 10^f] (the larger one on a tie), the digits of [n] with a point
    before the last [f] of them. *)
Definition toFixed (x : number) (f : nat) : string :=
  match x with
  | Fin m k =>
      let s := if m <? 0 then "-" else "" in
      let a := Z.abs m in
      if pow10 21 * pow10 k <=? a then s ++ toString (Fin a k)
      else
        let n := (2 * a * pow10 f + pow10 k) / (2 * pow10 k) in
        let ip := digits (Z.to_N (n / pow10 f)) in
        match f with
        | O => s ++ ip
        | _ => s ++ ip ++ "." ++ padded f (Z.to_N (n mod pow10 f))
        end
  | _ => toString x
  end.

(** *** Reading numbers *)

Definition digit_of (c : ascii) : option (Decimal.uint -> Decimal.uint) :=
  match c with
  | "0" => Some Decimal.D0 | "1" => Some Decimal.D1 | "2" => Some Decimal.D2
  | "3" => Some Decimal.D3 | "4" => Some Decimal.D4 | "5" => Some Decimal.D5
  | "6" => Some Decimal.D6 | "7" => Some Decimal.D7 | "8" => Some Decimal.D8
  | "9" => Some Decimal.D9 | _ => None
  end%char.

(** The longest run of decimal digits at the head of [s], and the rest *)
Fixpoint read_digits (s : string) : Decimal.uint * string :=
  match s with
  | EmptyString => (Decimal.Nil, EmptyString)
  | String c r =>
      match digit_of c with
      | Some d => let (u, rest) := read_digits r in (d u, rest)
      | None => (Decimal.Nil, s)
      end
  end.

Definition read_sign (s : string) : bool * string :=
  match s with
  | String "-" r => (true, r)
  | String "+" r => (false, r)
  | _ => (false, s)
  end.

(** An [ExponentPart] at the head of [s], when there is one *)
Definition read_exponent (s : string) : Z * string :=
  match s with
  | String c r =>
      if (c =? "e")%char || (c =? "E")%char then
        let (n, r1) := read_sign r in
        let (u, r2) := read_digits r1 in
        match u with
        | Decimal.Nil => (0, s)
        | _ => let e := Z.of_N (N.of_uint u) in
               ((if n then - e else e), r2)
        end
      else (0, s)
  | EmptyString => (0, s)
  end.

(** [m * 10^e], negated when [sg] *)
Definition scale (sg : bool) (m : N) (e : Z) : number :=
  let z := if sg then - Z.of_N m else Z.of_N m in
  if 0 <=? e then mkFin (z * 10 ^ e) 0 else mkFin z (Z.to_nat (- e)).

Definition is_nil (u : Decimal.uint) : bool :=
  match u with Decimal.Nil => true | _ => false end.

(** The longest [StrUnsignedDecimalLiteral] at the head of [s], and the
    rest: [Infinity], or digits with a point or a point with digits, then an
    exponent.  [sg] is the sign read before it. *)
Definition read_unsigned (sg : bool) (s : string) : option (number * string) :=
  if prefix "Infinity" s then
    Some (Inf sg, substring 8 (String.length s - 8) s)
  else
    let (ip, s2) := read_digits s in
    let (fp, s3) :=
      match s2 with
      | String c r => if (c =? ".")%char then read_digits r
                      else (Decimal.Nil, s2)
      | EmptyString => (Decimal.Nil, s2)
      end in
    if is_nil ip && is_nil fp then None
    else
      let (e, s4) := read_exponent s3 in
      let f := Decimal.nb_digits fp in
      Some (scale sg (N.of_uint ip * 10 ^ N.of_nat f + N.of_uint fp)
              (e - Z.of_nat f), s4).

(** The longest [StrDecimalLiteral] at the head of [s], and the rest *)
Definition read_decimal (s : string) : option (number * string) :=
  let (sg, s1) := read_sign s in read_unsigned sg s1.

(** [parseFloat] *)
Definition parseFloat (s : string) : number :=
  match read_decimal (trimStart s) with
  | Some (x, _) => x
  | None => NaN
  end.

(** [parseInt(s, 10)] *)
Definition parseInt10 (s : string) : number :=
  let (sg, s1) := read_sign (trimStart s) in
  let (u, _) := read_digits s1 in
  match u with
  | Decimal.Nil => NaN
  | _ => scale sg (N.of_uint u) 0
  end.

(** A digit of radix up to 16 *)
Definition hex_val (c : ascii) : option N :=
  let n := N.of_nat (code c) in
  (if (48 <=? n) && (n <=? 57) then Some (n - 48)
   else if (97 <=? n) && (n <=? 102) then Some (n - 87)
   else if (65 <=? n) && (n <=? 70) then Some (n - 55)
   else None)%N.

Fixpoint read_radix (b : N) (s : string) (acc : N) : option N :=
  match s with
  | EmptyString => Some acc
  | String c r =>
      match hex_val c with
      | Some d => if (d <? b)%N then read_radix b r (acc * b + d)%N else None
      | None => None
      end
  end.

(** A [NonDecimalIntegerLiteral]: [0x], [0o] or [0b] and digits *)
Definition read_nondecimal (s : string) : option number :=
  match s with
  | String "0" (String p (String c r)) =>
      let b := (if (p =? "x")%char || (p =? "X")%char then 16
                else if (p =? "o")%char || (p =? "O")%char then 8
                else if (p =? "b")%char || (p =? "B")%char then 2
                else 0)%N in
      match read_radix b (String c r) 0%N with
      | Some n => Some (Fin (Z.of_N n) 0)
      | None => None
      end
  | _ => None
  end.

(** [Number(s)] for a string: the whole of the trimmed text is a numeric
    literal, or the result is [NaN]; the empty text is 0. *)
Definition toNumber (s : string) : number :=
  let t := trim s in
  match t with
  | EmptyString => Fin 0 0
  | _ =>
      match read_decimal t with
      | Some (x, EmptyString) => x
      | _ => match read_nondecimal t with
             | Some x => x
             | None => NaN
             end
      end
  end.

(** *** Values *)

(** What a cell or a variable of the source holds. *)
Inductive value : Type :=
| Undefined
| Str (s : string)
| Num (x : number).

(** [ToBoolean] *)
Definition truthy (v : value) : bool :=
  match v with
  | Undefined => false
  | Str s => negb (s =? "")%string
  | Num NaN => false
  | Num (Inf _) => true
  | Num (Fin m _) => negb (m =? 0)
  end.

(** The global [isNaN], which converts its argument to a number first *)
Definition isNaN_value (v : value) : bool :=
  match v with
  | Undefined => true
  | Str s => isNaN (toNumber s)
  | Num x => isNaN x
  end.

(** [v.toString()] for a value that is not [undefined] *)
Definition value_toString (v : value) : string :=
  match v with
  | Undefined => "undefined"
  | Str s => s
  | Num x => toString x
  end.

(** [row[i]] *)
Definition get (row : list value) (i : Z) : value :=
  if i <? 0 then Undefined else nth (Z.to_nat i) row Undefined.

(** [row.length] *)
Definition len (row : list value) : Z := Z.of_nat (List.length row).

(** *** Currency text *)

Fixpoint group3 (s : string) : string :=
  match s with
  | EmptyString => EmptyString
  | String c r =>
      let n := String.length r in
      String c (if (0 <? n)%nat && (n mod 3 =? 0)%nat
                then String "," (group3 r) else group3 r)
  end.

(** [new Intl.NumberFormat('en-US', {style: 'currency', currency: 'USD',
    maximumFractionDigits: 0}).format(x)]: the amount rounded to a whole
    number, ties away from zero, with the thousands grouped.  The infinity
    sign is the one text outside ASCII. *)
Definition formatUSD (x : number) : string :=
  match x with
  | NaN => "$NaN"
  | Inf n => (if n then "-" else "") ++ "$∞"
  | Fin m k =>
      let n := (2 * Z.abs m + pow10 k) / (2 * pow10 k) in
      (if m <? 0 then "-" else "") ++ "$" ++ group3 (digits (Z.to_N n))
  end.

(** *** Exceptions *)

Inductive error : Type :=
| TypeError (message : string).

(** The outcome of a call: a value, or an exception that escapes it. *)
Inductive result (A : Type) : Type :=
| Ok (a : A)
| Throw (e : error).
Arguments Ok {A} a.
Arguments Throw {A} e.

Definition bind {A B} (r : result A) (f : A -> result B) : result B :=
  match r with
  | Ok a => f a
  | Throw e => Throw e
  end.

(** [v.toFixed(f)] as a method call on whatever [v] holds: only a number
    has the method *)
Definition method_toFixed (v : value) (f : nat) : result string :=
  match v with
  | Num x => Ok (toFixed x f)
  | Str _ => Throw (TypeError "toFixed is not a function")
  | Undefined =>
      Throw (TypeError "Cannot read properties of undefined (reading 'toFixed')")
  end.

(** [ToNumber] *)
Definition to_number (v : value) : number :=
  match v with
  | Undefined => NaN
  | Str s => toNumber s
  | Num x => x
  end.

End JS.

Import JS.

(** A sheet as [XLSX.utils.sheet_to_json(worksheet, {header: 1})] gives it:
    an array of rows, each an array of cells. *)
Definition row : Type := list value.
Definition sheet : Type := list row.

(** ** Schema detector: lines 89 to 212 of [extractMarketShareData] *)
Module Detector.

Record columns : Type := {
  brandColIndex : Z;
  marketShareColIndex : Z;
  totalSalesColIndex : Z;
  avgPriceColIndex : Z;
  domColIndex : Z;
  pricePerSqftColIndex : Z;
  closedListRatioColIndex : Z;
  totalOfficesColIndex : Z;
  contributingAgentsColIndex : Z
}.

Definition defaults : columns := {|
  brandColIndex := 1;
  marketShareColIndex := 12;
  totalSalesColIndex := 6;
  avgPriceColIndex := 10;
  domColIndex := 9;
  pricePerSqftColIndex := -1;
  closedListRatioColIndex := -1;
  totalOfficesColIndex := 19;
  contributingAgentsColIndex := 19
|}.

Definition set_brand (c : columns) (j : Z) : columns :=
  {| brandColIndex := j;
     marketShareColIndex := marketShareColIndex c;
     totalSalesColIndex := totalSalesColIndex c;
     avgPriceColIndex := avgPriceColIndex c;
     domColIndex := domColIndex c;
     pricePerSqftColIndex := pricePerSqftColIndex c;
     closedListRatioColIndex := closedListRatioColIndex c;
     totalOfficesColIndex := totalOfficesColIndex c;
     contributingAgentsColIndex := contributingAgentsColIndex c |}.

Definition set_marketShare (c : columns) (j : Z) : columns :=
  {| brandColIndex := brandColIndex c;
     marketShareColIndex := j;
     totalSalesColIndex := totalSalesColIndex c;
     avgPriceColIndex := avgPriceColIndex c;
     domColIndex := domColIndex c;
     pricePerSqftColIndex := pricePerSqftColIndex c;
     closedListRatioColIndex := closedListRatioColIndex c;
     totalOfficesColIndex := totalOfficesColIndex c;
     contributingAgentsColIndex := contributingAgentsColIndex c |}.

Definition set_totalSales (c : columns) (j : Z) : columns :=
  {| brandColIndex := brandColIndex c;
     marketShareColIndex := marketShareColIndex c;
     totalSalesColIndex := j;
     avgPriceColIndex := avgPriceColIndex c;
     domColIndex := domColIndex c;
     pricePerSqftColIndex := pricePerSqftColIndex c;
     closedListRatioColIndex := closedListRatioColIndex c;
     totalOfficesColIndex := totalOfficesColIndex c;
     contributingAgentsColIndex := contributingAgentsColIndex c |}.

Definition set_avgPrice (c : columns) (j : Z) : columns :=
  {| brandColIndex := brandColIndex c;
     marketShareColIndex := marketShareColIndex c;
     totalSalesColIndex := totalSalesColIndex c;
     avgPriceColIndex := j;
     domColIndex := domColIndex c;
     pricePerSqftColIndex := pricePerSqftColIndex c;
     closedListRatioColIndex := closedListRatioColIndex c;
     totalOfficesColIndex := totalOfficesColIndex c;
     contributingAgentsColIndex := contributingAgentsColIndex c |}.

Definition set_dom (c : columns) (j : Z) : columns :=
  {| brandColIndex := brandColIndex c;
     marketShareColIndex := marketShareColIndex c;
     totalSalesColIndex := totalSalesColIndex c;
     avgPriceColIndex := avgPriceColIndex c;
     domColIndex := j;
     pricePerSqftColIndex := pricePerSqftColIndex c;
     closedListRatioColIndex := closedListRatioColIndex c;
     totalOfficesColIndex := totalOfficesColIndex c;
     contributingAgentsColIndex := contributingAgentsColIndex c |}.

Definition set_pricePerSqft (c : columns) (j : Z) : columns :=
  {| brandColIndex := brandColIndex c;
     marketShareColIndex := marketShareColIndex c;
     totalSalesColIndex := totalSalesColIndex c;
     avgPriceColIndex := avgPriceColIndex c;
     domColIndex := domColIndex c;
     pricePerSqftColIndex := j;
     closedListRatioColIndex := closedListRatioColIndex c;
     totalOfficesColIndex := totalOfficesColIndex c;
     contributingAgentsColIndex := contributingAgentsColIndex c |}.

Definition set_closedListRatio (c : columns) (j : Z) : columns :=
  {| brandColIndex := brandColIndex c;
     marketShareColIndex := marketShareColIndex c;
     totalSalesColIndex := totalSalesColIndex c;
     avgPriceColIndex := avgPriceColIndex c;
     domColIndex := domColIndex c;
     pricePerSqftColIndex := pricePerSqftColIndex c;
     closedListRatioColIndex := j;
     totalOfficesColIndex := totalOfficesColIndex c;
     contributingAgentsColIndex := contributingAgentsColIndex c |}.

Definition set_totalOffices (c : columns) (j : Z) : columns :=
  {| brandColIndex := brandColIndex c;
     marketShareColIndex := marketShareColIndex c;
     totalSalesColIndex := totalSalesColIndex c;
     avgPriceColIndex := avgPriceColIndex c;
     domColIndex := domColIndex c;
     pricePerSqftColIndex := pricePerSqftColIndex c;
     closedListRatioColIndex := closedListRatioColIndex c;
     totalOfficesColIndex := j;
     contributingAgentsColIndex := contributingAgentsColIndex c |}.

Definition set_contributingAgents (c : columns) (j : Z) : columns :=
  {| brandColIndex := brandColIndex c;
     marketShareColIndex := marketShareColIndex c;
     totalSalesColIndex := totalSalesColIndex c;
     avgPriceColIndex := avgPriceColIndex c;
     domColIndex := domColIndex c;
     pricePerSqftColIndex := pricePerSqftColIndex c;
     closedListRatioColIndex := closedListRatioColIndex c;
     totalOfficesColIndex := totalOfficesColIndex c;
     contributingAgentsColIndex := j |}.

(** [cell && typeof cell === 'string']: the text of a non-empty string *)
Definition header_text (v : value) : option string :=
  match v with
  | Str s => if truthy v then Some (toLowerCase s) else None
  | _ => None
  end.

(** Lines 105 to 112: "Mkt %" in column I *)
Definition check_column_I (r : row) (c : columns) : columns :=
  if 8 <? len r then
    match header_text (get r 8) with
    | Some t =>
        if (t =? "mkt %")%string || (includes "market" t && includes "%" t)
        then set_marketShare c 8 else c
    | None => c
    end
  else c.

(** Lines 114 to 121: "$ Vol Per Prod Agent" in column M *)
Definition check_column_M (r : row) (c : columns) : columns :=
  if negb (marketShareColIndex c =? 8) && (12 <? len r) then
    match header_text (get r 12) with
    | Some t =>
        if includes "$ vol per prod agent" t || includes "vol per prod" t
           || includes "per agent" t
        then set_marketShare c 12 else c
    | None => c
    end
  else c.

(** The header rules of lines 129 to 192, on the lower-cased text [t] *)
Definition is_brand (t : string) : bool :=
  includes "brand" t || includes "company" t || includes "brokerage" t
  || includes "firm" t || (t =? "name")%string.

Definition is_totalSales (t : string) : bool :=
  (t =? "total #")%string || (includes "total" t && includes "#" t).

Definition is_avgPrice (t : string) : bool :=
  (t =? "avg price")%string || (includes "avg" t && includes "price" t)
  || (includes "average" t && includes "sales" t).

Definition is_dom (t : string) : bool :=
  (t =? "dom")%string || includes "days on market" t
  || (includes "days" t && includes "market" t).

Definition is_pricePerSqft (t : string) : bool :=
  (t =? "price/sqft")%string || includes "price per sq" t
  || includes "price/sq" t || includes "price per foot" t
  || (includes "price" t && includes "sqft" t).

Definition is_closedListRatio (t : string) : bool :=
  (t =? "closed/list price")%string
  || (includes "closed" t && includes "list" t)
  || (includes "sale" t && includes "list" t).

Definition is_totalOffices (t : string) : bool :=
  (t =? "# offices")%string || (t =? "total offices")%string
  || (includes "office" t && (includes "total" t || includes "#" t)).

Definition is_contributingAgents (t : string) : bool :=
  (t =? "contributing agents")%string
  || (includes "contributing" t && includes "agent" t).

(** Lines 197 to 208: the three tiers of the generic market-share rule;
    each of them assigns the same index. *)
Definition is_marketShare (t : string) : bool :=
  if (t =? "market share (#)")%string || (t =? "market share (%)")%string
  then true
  else if includes "market share" t || includes "mkt share" t then true
  else includes "share" t || includes "percentage" t || includes "%" t.

Definition when (b : bool) (f : columns -> Z -> columns) (j : Z)
    (c : columns) : columns :=
  if b then f c j else c.

(** Lines 125 to 210: the body of the inner loop at column [j] *)
Definition scan_cell (j : Z) (cell : value) (c : columns) : columns :=
  match header_text cell with
  | None => c
  | Some t =>
      let c := when (is_brand t) set_brand j c in
      let c := when (is_totalSales t) set_totalSales j c in
      let c := when (is_avgPrice t) set_avgPrice j c in
      let c := when (is_dom t) set_dom j c in
      let c := when (is_pricePerSqft t) set_pricePerSqft j c in
      let c := when (is_closedListRatio t) set_closedListRatio j c in
      let c := when (is_totalOffices t) set_totalOffices j c in
      let c := when (is_contributingAgents t) set_contributingAgents j c in
      if negb (marketShareColIndex c =? 8)
         && negb (marketShareColIndex c =? 12)
      then when (is_marketShare t) set_marketShare j c
      else c
  end.

(** [for (let j = 0; j < row.length; j++)], from column [j] on *)
Fixpoint scan_cells (j : Z) (cells : row) (c : columns) : columns :=
  match cells with
  | [] => c
  | cell :: rest => scan_cells (j + 1) rest (scan_cell j cell c)
  end.

(** Lines 102 to 211: the body of the outer loop.  A row is an array, so
    [!row] is false. *)
Definition scan_row (c : columns) (r : row) : columns :=
  scan_cells 0 r (check_column_M r (check_column_I r c)).

(** [for (let i = 0; i < Math.min(10, data.length); i++)] *)
Definition detectColumns (data : sheet) : columns :=
  fold_left scan_row (firstn 10 data) defaults.

End Detector.


(** ** Record normalizer and ranker: lines 216 to 456 *)
Module Ranker.
Import Detector.

Record brokerage : Type := {
  brand : string;
  marketShare : number
}.

(** The seven variables filled from the Sotheby's row, lines 220 to 226 *)
Record metrics : Type := {
  totalSales : number;
  avgPrice : number;
  daysOnMarket : number;
  pricePerSqft : number;
  closedListRatio : number;
  totalOffices : number;
  contributingAgents : number
}.

Definition zero : number := ofZ 0.

Definition no_metrics : metrics := {|
  totalSales := zero;
  avgPrice := zero;
  daysOnMarket := zero;
  pricePerSqft := zero;
  closedListRatio := zero;
  totalOffices := zero;
  contributingAgents := zero
|}.

(** What the row loop carries from one row to the next *)
Record state : Type := {
  brokerages : list brokerage;
  subject : metrics
}.

Definition initial : state :=
  {| brokerages := []; subject := no_metrics |}.

(** Lines 240 to 248 *)
Definition coerce (share : value) : value :=
  match share with
  | Str s => Num (parseFloat (strip pct_dollar_comma s))
  | Num x => if lt x (ofZ 1) then Num (mul x (ofZ 100)) else Num x
  | Undefined => Undefined
  end.

(** Lines 251 to 261: [toFixed] gives a string, and the variable holds it
    from then on. *)
Definition rescale (share : value) : value :=
  if negb (isNaN_value share) then
    if gt (to_number share) (ofZ 100) then
      if gt (to_number share) (ofZ 1000) then
        Str (toFixed (div1000 (to_number share)) 1)
      else share
    else share
  else share.

(** One metric of lines 267 to 299 and 315 to 330: the cell at [col] when
    it is there and a number, else the value held so far *)
Definition read_metric (parse : string -> number) (r : row) (col : Z)
    (old : number) : number :=
  match get r col with
  | Undefined => old
  | Str s => let v := parse (strip comma_dollar s) in
             if isNaN v then old else v
  | Num x => if isNaN x then old else x
  end.

(** Lines 303 to 312 *)
Definition read_ratio (r : row) (col : Z) (old : number) : number :=
  let pct (v : number) :=
    if isNaN v then old
    else if lt v (ofZ 1) then mul v (ofZ 100) else v in
  match get r col with
  | Undefined => old
  | Str s => pct (parseFloat (strip pct_dollar_comma s))
  | Num x => pct x
  end.

(** Lines 266 to 330 *)
Definition extract_metrics (c : columns) (r : row) (m : metrics) : metrics :=
  {| totalSales := read_metric parseFloat r (totalSalesColIndex c) (totalSales m);
     avgPrice := read_metric parseFloat r (avgPriceColIndex c) (avgPrice m);
     daysOnMarket := read_metric parseFloat r (domColIndex c) (daysOnMarket m);
     pricePerSqft :=
       read_metric parseFloat r (pricePerSqftColIndex c) (pricePerSqft m);
     closedListRatio :=
       read_ratio r (closedListRatioColIndex c) (closedListRatio m);
     totalOffices :=
       read_metric parseInt10 r (totalOfficesColIndex c) (totalOffices m);
     contributingAgents :=
       read_metric parseInt10 r (contributingAgentsColIndex c)
         (contributingAgents m) |}.

(** [Math.max(totalSalesColIndex, avgPriceColIndex, domColIndex)] *)
Definition metrics_width (c : columns) : Z :=
  Z.max (totalSalesColIndex c) (Z.max (avgPriceColIndex c) (domColIndex c)).

(** [brand === ''] *)
Definition is_empty_string (v : value) : bool :=
  match v with Str EmptyString => true | _ => false end.

(** Lines 264 to 333: the metrics after the row, given its brand cell *)
Definition subject_step (c : columns) (r : row) (brandCell : value)
    (m : metrics) : metrics :=
  let brandLower := toLowerCase (value_toString brandCell) in
  if includes "sotheby" brandLower && (metrics_width c <? len r)
  then extract_metrics c r m else m.

(** Lines 336 to 341 *)
Definition push_step (brandCell share : value) (bs : list brokerage)
    : result (list brokerage) :=
  if negb (isNaN_value share) then
    bind (method_toFixed share 1) (fun s =>
      Ok (bs ++ [ {| brand := trim (value_toString brandCell);
                     marketShare := parseFloat s |} ])%list)
  else Ok bs.

(** Lines 230 to 341: the body of the row loop *)
Definition process_row (c : columns) (st : state) (r : row) : result state :=
  if len r <=? Z.max (brandColIndex c) (marketShareColIndex c) then Ok st
  else
    let brandCell := get r (brandColIndex c) in
    if negb (truthy brandCell) || is_empty_string brandCell then Ok st
    else
      let share := rescale (coerce (get r (marketShareColIndex c))) in
      let m := subject_step c r brandCell (subject st) in
      bind (push_step brandCell share (brokerages st)) (fun bs =>
        Ok {| brokerages := bs; subject := m |}).

(** [for (let i = 1; i < data.length; i++)], over the rows from 1 on *)
Fixpoint process_rows (c : columns) (st : state) (rows : sheet)
    : result state :=
  match rows with
  | [] => Ok st
  | r :: rest => bind (process_row c st r) (fun st' => process_rows c st' rest)
  end.

(** The comparator [(a, b) => b.marketShare - a.marketShare] *)
Definition by_share_desc (a b : brokerage) : number :=
  sub (marketShare b) (marketShare a).

(** [Array.prototype.sort] is stable: [a] moves behind [b] only when the
    comparator is positive on [(a, b)]; a [NaN] from it counts as 0. *)
Fixpoint insert (a : brokerage) (l : list brokerage) : list brokerage :=
  match l with
  | [] => [a]
  | b :: l' =>
      if gt (by_share_desc a b) zero then b :: insert a l' else a :: l
  end.

Definition sort (l : list brokerage) : list brokerage :=
  fold_right insert [] l.

(** Lines 352 to 367 *)
Definition normalize_brand (b : brokerage) : brokerage :=
  let brandLower := toLowerCase (brand b) in
  let b1 :=
    if includes "sotheby" brandLower
    then {| brand := "Russ Lyon Sotheby's International Realty";
            marketShare := marketShare b |}
    else b in
  if includes "homesmart" brandLower || includes "home smart" brandLower
  then {| brand := "HomeSmart"; marketShare := marketShare b1 |}
  else b1.

(** Lines 348 to 370: sort, rename, sort again *)
Definition rank (bs : list brokerage) : list brokerage :=
  sort (map normalize_brand (sort bs)).

(** [Array.prototype.findIndex], counting from [i]; -1 when nothing is
    found *)
Fixpoint findIndex_from {A : Type} (p : A -> bool) (i : Z) (l : list A) : Z :=
  match l with
  | [] => -1
  | a :: l' => if p a then i else findIndex_from p (i + 1) l'
  end.

Definition findIndex {A : Type} (p : A -> bool) (l : list A) : Z :=
  findIndex_from p 0 l.

(** [index >= 0 ? dataValues[index] : 0]; the index is that of a label, so
    it lies within [dataValues]. *)
Definition share_at (index : Z) (values : list number) : number :=
  if 0 <=? index then nth (Z.to_nat index) values NaN else zero.

(** Lines 381 to 395 *)
Definition color (label : string) (index : Z) : string :=
  if includes "Sotheby's" label then "#002349"
  else
    let grayValue := digits (Z.to_N (Z.min (90 + index * 18) 210)) in
    "rgba(" ++ grayValue ++ ", " ++ grayValue ++ ", " ++ grayValue ++ ", 1)".

Fixpoint colors_from (i : Z) (names : list string) : list string :=
  match names with
  | [] => []
  | l :: rest => color l i :: colors_from (i + 1) rest
  end.

Record insights_t : Type := {
  title : string;
  description : string;
  summary : list string
}.

Record additional_metrics : Type := {
  am_totalSales : number;
  am_averagePrice : string;
  am_daysOnMarket : number;
  am_totalOffices : number;
  am_contributingAgents : number;
  am_pricePerSqft : option string;
  am_closedListRatio : option string
}.

(** The returned object; [dataValues] and [backgroundColor] are the [data]
    and [backgroundColor] of the one element of [processedData.datasets]. *)
Record output : Type := {
  labels : list string;
  dataValues : list number;
  backgroundColor : list string;
  insights : insights_t;
  additionalMetrics : additional_metrics
}.

(** Lines 398 and 399 *)
Definition sothebysShare (names : list string) (values : list number)
    : number :=
  share_at (findIndex (includes "Sotheby's") names) values.

(** Lines 402 and 403 *)
Definition homeSmartShare (names : list string) (values : list number)
    : number :=
  share_at (findIndex (fun l => (l =? "HomeSmart")%string) names) values.

(** Line 406 *)
Definition sharePointDiff (names : list string) (values : list number)
    : string :=
  toFixed (sub (sothebysShare names values) (homeSmartShare names values)) 1.

(** Line 416: [brokerages.slice(0, 3).reduce((sum, b) => sum + b.marketShare, 0)] *)
Definition top3Sum (bs : list brokerage) : number :=
  fold_left (fun sum b => add sum (marketShare b)) (firstn 3 bs) zero.

(** Lines 409 to 418 *)
Definition make_insights (bs : list brokerage) (names : list string)
    (values : list number) : insights_t :=
  let diff := sharePointDiff names values in
  let hs := homeSmartShare names values in
  {| title := "Russ Lyon Sotheby's International Realty Market Share Analysis";
     description :=
       "Analysis based on brand and market share data from your spreadsheet";
     summary :=
       [ "Russ Lyon Sotheby's International Realty has "
           ++ toFixed (sothebysShare names values) 1 ++ "% market share";
         (if gt hs zero then
            diff ++ " percentage points "
              ++ (if gt (toNumber diff) zero then "ahead of" else "behind")
              ++ " nearest competitor (HomeSmart at " ++ toFixed hs 1 ++ "%)"
          else "Leading position in the market");
         "Position in the Arizona luxury real estate market";
         "Top 3 brokerages control " ++ toFixed (top3Sum bs) 1
           ++ "% of the market" ] |}.

(** Lines 421 to 444 *)
Definition make_metrics (m : metrics) : additional_metrics :=
  {| am_totalSales := totalSales m;
     am_averagePrice := formatUSD (avgPrice m);
     am_daysOnMarket := toNumber (toFixed (daysOnMarket m) 1);
     am_totalOffices := totalOffices m;
     am_contributingAgents := contributingAgents m;
     am_pricePerSqft :=
       if gt (pricePerSqft m) zero
       then Some ("$" ++ toFixed (pricePerSqft m) 0) else None;
     am_closedListRatio :=
       if gt (closedListRatio m) zero
       then Some (toFixed (closedListRatio m) 1 ++ "%") else None |}.

(** Lines 344 to 456: what is returned from the state the row loop ends in *)
Definition finish (st : state) : output :=
  let bs := rank (brokerages st) in
  let names := map brand (firstn 10 bs) in
  let values := map marketShare (firstn 10 bs) in
  {| labels := names;
     dataValues := values;
     backgroundColor := colors_from 0 names;
     insights := make_insights bs names values;
     additionalMetrics := make_metrics (subject st) |}.

(** [extractMarketShareData] *)
Definition extractMarketShareData (data : sheet) : result output :=
  let c := detectColumns data in
  bind (process_rows c initial (tl data)) (fun st => Ok (finish st)).

End Ranker.


(** ** Definitions the properties are stated with *)

Module Stated.
Import Detector Ranker.

(** [round(x, 1)] of the specification: the nearest multiple of one tenth,
    a tie going away from zero *)
Definition round1 (x : number) : number :=
  match x with
  | Fin m k =>
      let n := (2 * Z.abs m * 10 + pow10 k) / (2 * pow10 k) in
      mkFin (if m <? 0 then - n else n) 1
  | _ => x
  end.

Definition is_digit (c : ascii) : bool :=
  match digit_of c with Some _ => true | None => false end.

Definition is_fin (x : number) : bool :=
  match x with Fin _ _ => true | _ => false end.

(** No character of [s] is white space. *)
Fixpoint no_ws (s : string) : bool :=
  match s with
  | EmptyString => true
  | String c r => negb (is_ws c) && no_ws r
  end.

Fixpoint all_digits (s : string) : bool :=
  match s with
  | EmptyString => true
  | String c r => is_digit c && all_digits r
  end.

(** The fraction of a decimal literal: nothing, or a point and digits *)
Definition fraction_part (f : string) : Prop :=
  f = "" \/ exists f', f = String "." f' /\ all_digits f' = true.

(** The exponent of a decimal literal: nothing, or [e], a sign and digits *)
Definition exponent_part (e : string) : Prop :=
  e = "" \/
  exists sg c r, e = String "e" (String sg (String c r)) /\
                 (sg = "+"%char \/ sg = "-"%char) /\
                 all_digits (String c r) = true.

(** An unsigned decimal literal: digits, a fraction and an exponent *)
Definition literal (s : string) : Prop :=
  exists c r f e, s = String c r ++ f ++ e /\ all_digits (String c r) = true /\
                  fraction_part f /\ exponent_part e.

(** The two indices the detector expects the market share at *)
Definition expected (c : columns) : Prop :=
  marketShareColIndex c = 8 \/ marketShareColIndex c = 12.

(** Column I of [r] holds no text that the rule of lines 105 to 112
    accepts. *)
Definition no_mkt_text (r : row) : Prop :=
  forall c : columns, check_column_I r c = c.

Definition is_number (b : brokerage) : Prop := isNaN (marketShare b) = false.

Definition share_ge (a b : brokerage) : Prop :=
  ge (marketShare a) (marketShare b) = true.

Definition num_ge (x y : number) : Prop := ge x y = true.

(** What a method call on a string that has no such method throws *)
Definition not_a_function : error := TypeError "toFixed is not a function".

(** The metrics reported when no Sotheby's row was read *)
Definition default_metrics : additional_metrics := {|
  am_totalSales := Fin 0 0;
  am_averagePrice := "$0";
  am_daysOnMarket := Fin 0 0;
  am_totalOffices := Fin 0 0;
  am_contributingAgents := Fin 0 0;
  am_pricePerSqft := None;
  am_closedListRatio := None
|}.

Definition sum (l : list number) : number := fold_left add l zero.

(** [round(x / y * 100, 1)] for finite [x] and [y] with [0 <= x] and
    [0 < y] *)
Definition percent_of (x y : number) : number :=
  match x, y with
  | Fin m1 k1, Fin m2 k2 =>
      let num := m1 * pow10 k2 * 1000 in
      let den := m2 * pow10 k1 in
      mkFin ((2 * num + den) / (2 * den)) 1
  | _, _ => NaN
  end.

(** The specification's [top3Concentration], over the ranked shares:
    [round(sum(top 3 shares) / sum(all shares) * 100, 1)] *)
Definition spec_top3Concentration (shares : list number) : number :=
  percent_of (sum (firstn 3 shares)) (sum shares).

(** The fourth line of the summary, for a figure [x] *)
Definition top3_line (x : number) : string :=
  "Top 3 brokerages control " ++ toFixed x 1 ++ "% of the market".

(** C3 as the specification has it: the figure in the summary is the share
    of the top three in the total of all accepted records. *)
Definition C3_as_stated : Prop :=
  forall (data : sheet) (st : state),
    process_rows (detectColumns data) initial (tl data) = Ok st ->
    brokerages st <> [] ->
    nth 3 (summary (insights (finish st))) "" =
    top3_line (spec_top3Concentration (map marketShare (rank (brokerages st)))).

(** The share next to the first of [names] that satisfies [p] *)
Fixpoint first_share (p : string -> bool) (names : list string)
    (values : list number) : option number :=
  match names, values with
  | n :: names', v :: values' =>
      if p n then Some v else first_share p names' values'
  | _, _ => None
  end.

Definition or_zero (o : option number) : number :=
  match o with Some x => x | None => zero end.

Definition is_subject (label : string) : bool := includes "Sotheby's" label.

Definition is_HomeSmart (label : string) : bool :=
  (label =? "HomeSmart")%string.

(** The specification's [gap]: the subject's share less that of the
    highest-ranked record that is not the subject, to one decimal *)
Definition spec_gap (names : list string) (values : list number)
    : option string :=
  match first_share is_subject names values,
        first_share (fun l => negb (is_subject l)) names values with
  | Some leaderShare, Some runnerUpShare =>
      Some (toFixed (sub leaderShare runnerUpShare) 1)
  | _, _ => None
  end.

(** C4 as the specification has it *)
Definition C4_as_stated : Prop :=
  forall (data : sheet) (out : output) (gap : string),
    extractMarketShareData data = Ok out ->
    spec_gap (labels out) (dataValues out) = Some gap ->
    sharePointDiff (labels out) (dataValues out) = gap.

(** The second line of the summary when the subject has share
    [subjectShare] and HomeSmart has share [hs] *)
Definition gap_line (subjectShare hs : number) : string :=
  let diff := toFixed (sub subjectShare hs) 1 in
  if gt hs zero then
    diff ++ " percentage points "
      ++ (if gt (toNumber diff) zero then "ahead of" else "behind")
      ++ " nearest competitor (HomeSmart at " ++ toFixed hs 1 ++ "%)"
  else "Leading position in the market".

(** *** Sample sheets *)

Definition blank (n : nat) : row := repeat Undefined n.

(** A row with [brandCell] in column B and [share] in column M *)
Definition row_M (brandCell share : value) : row :=
  ([Str ""; brandCell] ++ blank 10 ++ [share])%list.

(** A row with [brandCell] in column B and [share] in column I *)
Definition row_I (brandCell share : value) : row :=
  ([Str ""; brandCell] ++ blank 6 ++ [share])%list.

(** One record with the raw value 1560 in column M, under a header that
    names no market-share column *)
Definition C1_sheet : sheet :=
  [ [Str ""; Str "Brand"];
    row_M (Str "Acme Realty") (Num (Fin 1560 0)) ].

(** Two good records, a row without brand, a short row, a row whose share
    is not numeric, and a row whose share reads 1560 *)
Definition C2_sheet : sheet :=
  [ row_I (Str "Brand") (Str "Mkt %");
    row_I (Str "Sotheby's Realty") (Str "15.6%");
    row_I (Str "") (Str "3.0%");
    [Str ""; Str "Short Row"];
    row_I (Str "Compass") (Str "n/a");
    row_I (Str "Acme Realty") (Str "1,560");
    row_I (Str "HomeSmart") (Str "9.0%") ].

(** The same sheet without the row that reads 1560 *)
Definition C2_sheet_in_range : sheet :=
  [ row_I (Str "Brand") (Str "Mkt %");
    row_I (Str "Sotheby's Realty") (Str "15.6%");
    row_I (Str "") (Str "3.0%");
    [Str ""; Str "Short Row"];
    row_I (Str "Compass") (Str "n/a");
    row_I (Str "HomeSmart") (Str "9.0%") ].

Definition C3_sheet : sheet :=
  [ row_M (Str "Brand") (Str "$ Vol Per Prod Agent");
    row_M (Str "Alpha") (Num (Fin 50 0));
    row_M (Str "Beta") (Num (Fin 20 0));
    row_M (Str "Gamma") (Num (Fin 10 0));
    row_M (Str "Delta") (Num (Fin 5 0)) ].

Definition C4_sheet : sheet :=
  [ row_I (Str "Brand") (Str "Mkt %");
    row_I (Str "Sotheby's Realty") (Str "15.6%");
    row_I (Str "HomeSmart") (Str "9.0%");
    row_I (Str "Compass") (Str "12.0%") ].

(** A header that names the share column "Market Share (%)", in column C *)
Definition C5_sheet : sheet :=
  [ [Str ""; Str "Brand"; Str "Market Share (%)"];
    [Str ""; Str "Acme Realty"; Str "12.5%"] ].

(** A title row with a volume header in column M, then a header row with
    "MKT %" in column I and a volume header in column M *)
Definition C7_header : row :=
  ([Str ""; Str "Brand"] ++ blank 6 ++ [Str "MKT %"] ++ blank 3
   ++ [Str "$ Vol Per Prod Agent"])%list.

Definition C7_sheet : sheet :=
  [ row_M (Str "Report") (Str "Vol Per Prod");
    C7_header;
    row_I (Str "Acme Realty") (Str "12.5%") ].





Definition C10_columns : columns := set_marketShare defaults 8.

(** Nine cells: a Sotheby's brand, a total in column G, a share in
    column I, and nothing at the columns J and K of the metrics *)
Definition C10_row : row :=
  [ Str ""; Str "Russ Lyon Sotheby's"; Undefined; Undefined; Undefined;
    Undefined; Num (Fin 42 0); Undefined; Str "15.6%" ].

End Stated.

(** ** More of the host language, for the application, the templates and
    the charts *)
Module JSMore.

Definition is_lower (c : ascii) : bool :=
  (97 <=? code c)%nat && (code c <=? 122)%nat.

Definition upper_char (c : ascii) : ascii :=
  if is_lower c then ascii_of_nat (code c - 32) else c.

(** [String.prototype.toUpperCase], on ASCII text *)
Fixpoint toUpperCase (s : string) : string :=
  match s with
  | EmptyString => EmptyString
  | String c r => String (upper_char c) (toUpperCase r)
  end.

(** [s.endsWith(suffix)] *)
Definition endsWith (suffix s : string) : bool :=
  let n := String.length s in
  let k := String.length suffix in
  (k <=? n)%nat && (substring (n - k) k s =? suffix)%string.

(** [s.split(sep)] for a separator of one character *)
Fixpoint split (sep : ascii) (s : string) : list string :=
  match s with
  | EmptyString => [EmptyString]
  | String c r =>
      if (c =? sep)%char then EmptyString :: split sep r
      else match split sep r with
           | w :: ws => String c w :: ws
           | [] => [String c EmptyString]
           end
  end.

(** [words.join(sep)] *)
Fixpoint join (sep : string) (words : list string) : string :=
  match words with
  | [] => EmptyString
  | [w] => w
  | w :: rest => w ++ sep ++ join sep rest
  end.

(** [s.replace(/[...]/g, t)] for a character class [cls] and a character
    [t] *)
Fixpoint replace_class (cls : ascii -> bool) (t : ascii) (s : string) : string :=
  match s with
  | EmptyString => EmptyString
  | String c r => String (if cls c then t else c) (replace_class cls t r)
  end.

(** [a + b]: concatenation when one side is a string, else the sum of the
    two as numbers *)
Definition plus (a b : value) : value :=
  match a, b with
  | Str _, _ | _, Str _ => Str (value_toString a ++ value_toString b)
  | _, _ => Num (add (to_number a) (to_number b))
  end.

(** [a - b] *)
Definition minus (a b : value) : number := sub (to_number a) (to_number b).

(** [Array.prototype.sort] with a comparator, as in the ranker: stable,
    [a] moving behind [b] only when the comparator is positive on
    [(a, b)]; a [NaN] from it counts as 0. *)
Fixpoint insert_by {A : Type} (cmp : A -> A -> number) (a : A) (l : list A)
    : list A :=
  match l with
  | [] => [a]
  | b :: l' =>
      if gt (cmp a b) (ofZ 0) then b :: insert_by cmp a l' else a :: l
  end.

Definition sort_by {A : Type} (cmp : A -> A -> number) (l : list A) : list A :=
  fold_right (insert_by cmp) [] l.

(** [array[i]] in an array of numbers *)
Definition at_index (data : list number) (i : Z) : value :=
  match nth_error data (Z.to_nat i) with
  | Some x => Num x
  | None => Undefined
  end.

(** [array.map((a, index) => f(a, index))], the index counting from [i] *)
Fixpoint mapi_from {A B : Type} (f : A -> Z -> B) (i : Z) (l : list A)
    : list B :=
  match l with
  | [] => []
  | a :: l' => f a i :: mapi_from f (i + 1) l'
  end.

(** [`rgba(${r}, ${g}, ${b}, 1)`] for integers that are not negative *)
Definition rgba (r g b : Z) : string :=
  "rgba(" ++ digits (Z.to_N r) ++ ", " ++ digits (Z.to_N g) ++ ", "
    ++ digits (Z.to_N b) ++ ", 1)".

(** The data of a chart: [labels], and [data] and [backgroundColor] of its
    one dataset, whose [borderColor] is the same array and whose
    [borderWidth] is 1 *)
Record chart : Type := {
  chart_labels : list string;
  chart_data : list value;
  chart_backgroundColor : list string
}.

End JSMore.

(** ** The export name of a file: [getCleanFileName] of the application
    component *)
Module Names.
Import JSMore.

(** [filename.replace(/\.(xlsx|xls|csv)$/i, "")]: the pattern ends at the
    end of the text, so it can only start five or four characters before
    it. *)
Definition strip_extension (filename : string) : string :=
  let t := toLowerCase filename in
  let n := String.length filename in
  if endsWith ".xlsx" t then substring 0 (n - 5) filename
  else if endsWith ".xls" t || endsWith ".csv" t
       then substring 0 (n - 4) filename
       else filename.

(** The class [[_-]] *)
Definition underscore_hyphen (c : ascii) : bool :=
  (c =? "_")%char || (c =? "-")%char.

(** [word.charAt(0).toUpperCase() + word.slice(1).toLowerCase()] *)
Definition title_word (word : string) : string :=
  toUpperCase (substring 0 1 word)
  ++ toLowerCase (substring 1 (String.length word - 1) word).

Definition getCleanFileName (filename : string) : string :=
  if (filename =? "")%string then ""
  else
    let cleanName := strip_extension filename in
    let cleanName := replace_class underscore_hyphen " " cleanName in
    let cleanName := join " " (map title_word (split " " cleanName)) in
    let cleanName :=
      if (30 <? String.length cleanName)%nat
      then substring 0 30 cleanName ++ "..."
      else cleanName in
    trim cleanName.

End Names.

(** ** The analysis templates: [templates/analysisTemplates.js] *)
Module Templates.
Import JSMore.

Inductive template_type : Type :=
| MARKET_SHARE
| OTHER_INSIGHTS
| COMBINED_VIEW.

(** An element [{label, value}] of the arrays the templates work on *)
Record item : Type := {
  item_label : string;
  item_value : value
}.

(** Lines 26 to 52 *)
Definition template_color (templateType : template_type) (label : string)
    (index : Z) : string :=
  if includes "Sotheby's" label then "#002349"
  else
    match templateType with
    | OTHER_INSIGHTS =>
        if index <? 3
        then
          let insightsHighValue := Z.min (90 + index * 18) 210 in
          rgba insightsHighValue insightsHighValue (insightsHighValue + 20)
        else
          let insightsValue := Z.min (90 + index * 18) 210 in
          rgba insightsValue insightsValue insightsValue
    | _ =>
        let grayValue := Z.min (90 + index * 18) 210 in
        rgba grayValue grayValue grayValue
    end.

(** Lines 25 to 53 *)
Definition generateTemplateColors (labels : list string)
    (templateType : template_type) : list string :=
  mapi_from (template_color templateType) 0 labels.

Record template_text : Type := {
  text_title : string;
  text_description : string;
  text_chartTitle : string
}.

(** Lines 60 to 84 *)
Definition getTemplateText (templateType : template_type) : template_text :=
  match templateType with
  | OTHER_INSIGHTS =>
      {| text_title := "Other Market Insights";
         text_description := "Additional analysis and key metrics";
         text_chartTitle := "Market Analysis Insights" |}
  | COMBINED_VIEW =>
      {| text_title := "Complete Market Analysis";
         text_description := "Comprehensive view of market share and key metrics";
         text_chartTitle := "Top 10 Real Estate Brokerages by Market Share" |}
  | MARKET_SHARE =>
      {| text_title := "Market Share Analysis";
         text_description := "Comparative analysis of market position";
         text_chartTitle := "Top 10 Real Estate Brokerages by Market Share" |}
  end.

(** The comparator [(a, b) => b.value - a.value] *)
Definition by_value_desc (a b : item) : number :=
  minus (item_value b) (item_value a).

Definition is_sothebys (i : item) : bool := includes "Sotheby's" (item_label i).

(** Line 166 *)
Definition sothebysItem (data : list item) : option item :=
  find is_sothebys data.

(** Line 167 *)
Definition sothebysValue (data : list item) : value :=
  match sothebysItem data with
  | Some i => item_value i
  | None => Num (ofZ 0)
  end.

(** Lines 170 and 171 *)
Definition topCompetitor (data : list item) : option item :=
  hd_error (sort_by by_value_desc (filter (fun i => negb (is_sothebys i)) data)).

(** [items.reduce((sum, item) => sum + item.value, 0)] *)
Definition total (items : list item) : value :=
  fold_left (fun sum i => plus sum (item_value i)) items (Num (ofZ 0)).

(** Lines 175 and 176 *)
Definition valueGap (data : list item) : value :=
  match sothebysItem data, topCompetitor data with
  | Some _, Some c =>
      Str (toFixed (minus (sothebysValue data) (item_value c)) 1)
  | _, _ => Num (ofZ 0)
  end.

(** Lines 195 to 223: the lines that follow the three computed ones *)
Definition template_insights (templateType : template_type) : list string :=
  match templateType with
  | OTHER_INSIGHTS =>
      [ "Luxury market positioning with a focus on higher-value properties";
        "Efficient sales process with optimized days on market";
        "Higher-than-average price per square foot indicates premium property portfolio";
        "Strong sale-to-list price ratio demonstrates effective pricing strategy";
        "Demonstrated commitment to quality over quantity in transactions" ]
  | COMBINED_VIEW =>
      [ "Leads market in client satisfaction and premium service delivery";
        "Expert agents specializing in luxury and high-end real estate";
        "Consistently achieving optimal results for clients across all metrics";
        "Strategic presence in key high-value neighborhoods and communities" ]
  | MARKET_SHARE =>
      [ "Established dominant position in the competitive luxury real estate market";
        "Significant lead over nearest competitors in market share percentage";
        "Trusted brand with decades of expertise in premium properties" ]
  end.

(** Lines 242 to 245 *)
Definition normalizedData (labels : list string) (values : list number)
    : list item :=
  mapi_from (fun label i => {| item_label := label;
                               item_value := at_index values i |})
            0 labels.

(** Line 248 *)
Definition sortedData (labels : list string) (values : list number)
    : list item :=
  sort_by by_value_desc (normalizedData labels values).

(** Lines 251 and 260 to 268 *)
Definition processedData (labels : list string) (values : list number)
    (templateType : template_type) : chart :=
  let sorted := sortedData labels values in
  let colors := generateTemplateColors (map item_label sorted) templateType in
  {| chart_labels := map item_label sorted;
     chart_data := map item_value sorted;
     chart_backgroundColor := colors |}.

Record template_insights_t : Type := {
  t_title : string;
  t_description : string;
  t_summary : list string;
  t_chartTitle : string
}.

(** What [applyTemplate] returns, less [templateOptions], the Chart.js
    configuration of the template *)
Record template : Type := {
  t_processedData : chart;
  t_insights : template_insights_t;
  t_templateType : template_type
}.

Section Division.

(** [x / y] as the host computes it.  A quotient need not be a decimal
    fraction, so the division is left open; it is used once, for the
    figure of the third line of the summary. *)
Variable divide : number -> number -> number.

(** Lines 179 to 183 *)
Definition top3Percentage (data : list item) : string :=
  let top3Values := total (firstn 3 (sort_by by_value_desc data)) in
  toFixed (mul (divide (to_number top3Values) (to_number (total data)))
               (ofZ 100)) 1.

(** Lines 186 to 192 *)
Definition baseInsights (data : list item) : result (list string) :=
  bind (method_toFixed (sothebysValue data) 1) (fun share =>
  bind (match sothebysItem data, topCompetitor data with
        | Some _, Some c =>
            bind (method_toFixed (item_value c) 1) (fun competitorShare =>
              Ok (value_toString (valueGap data) ++ " percentage points "
                  ++ (if gt (to_number (valueGap data)) (ofZ 0)
                      then "ahead of" else "behind")
                  ++ " nearest competitor (" ++ item_label c ++ " at "
                  ++ competitorShare ++ "%)"))
        | _, _ => Ok "Competitive position in the real estate market"
        end) (fun position =>
  Ok [ "Russ Lyon Sotheby's International Realty has " ++ share
         ++ "% market share";
       position;
       "Top 3 brokerages control " ++ top3Percentage data
         ++ "% of the market" ])).

(** Lines 164 to 224 *)
Definition generateTemplateInsights (data : list item)
    (templateType : template_type) : result (list string) :=
  bind (baseInsights data) (fun base =>
    Ok (base ++ template_insights templateType)%list).

(** Lines 232 to 282, for a [data] that has its labels and its dataset *)
Definition applyTemplate (labels : list string) (values : list number)
    (templateType : template_type) : result template :=
  let templateText := getTemplateText templateType in
  bind (generateTemplateInsights (sortedData labels values) templateType)
    (fun insightSummary =>
      Ok {| t_processedData := processedData labels values templateType;
            t_insights :=
              {| t_title := text_title templateText;
                 t_description := text_description templateText;
                 t_summary := insightSummary;
                 t_chartTitle := text_chartTitle templateText |};
            t_templateType := templateType |}).

End Division.

End Templates.

(** ** The data of the two charts: the [Visualization] component of
    [components/FileUploader.js] *)
Module Charts.
Import JSMore.

(** An element [{label, value, color}] of [sortedData] *)
Record entry : Type := {
  entry_label : string;
  entry_value : value;
  entry_color : string
}.

(** Lines 316 to 320 *)
Definition combined (labels : list string) (values : list number)
    : list entry :=
  mapi_from (fun label i =>
    {| entry_label := label;
       entry_value := at_index values i;
       entry_color := if includes "Sotheby's" label then "#002349"
                      else rgba (71 + i * 20) (71 + i * 20) (71 + i * 20) |})
    0 labels.

(** The comparator [(a, b) => b.value - a.value] *)
Definition by_value_desc (a b : entry) : number :=
  minus (entry_value b) (entry_value a).

(** Lines 313 to 325: the state [sortedData] once the effect has run on a
    [data] that has its labels and its dataset *)
Definition sortedData (labels : list string) (values : list number)
    : list entry :=
  sort_by by_value_desc (combined labels values).

(** Lines 464 to 483 *)
Definition pie_color (label : string) (index : Z) : string :=
  if includes "Sotheby's" label then "#002349"
  else if (label =? "All Others")%string then "rgba(80, 80, 80, 1)"
  else
    let grayValue := Z.min (90 + index * 25) 210 in
    rgba grayValue grayValue grayValue.

(** Lines 450 to 454 *)
Definition othersValue (sorted : list entry) : value :=
  if (5 <? List.length sorted)%nat
  then fold_left (fun sum e => plus sum (entry_value e)) (skipn 5 sorted)
                 (Num (ofZ 0))
  else Num (ofZ 0).

(** Lines 440 to 495; [displayData] is what the chart falls back to *)
Definition preparePieChartData (displayData : chart) (sorted : list entry)
    : result chart :=
  match sorted with
  | [] => Ok displayData
  | _ =>
      let top5 := firstn 5 sorted in
      let labels := map entry_label top5 in
      let data := map entry_value top5 in
      bind (if gt (to_number (othersValue sorted)) (ofZ 0)
            then bind (method_toFixed (othersValue sorted) 1) (fun text =>
                   Ok ((labels ++ ["All Others"])%list,
                       (data ++ [Num (parseFloat text)])%list))
            else Ok (labels, data))
        (fun '(labels, data) =>
           Ok {| chart_labels := labels;
                 chart_data := data;
                 chart_backgroundColor := mapi_from pie_color 0 labels |})
  end.

(** Lines 500 to 513 *)
Definition bar_color (e : entry) (index : Z) : string :=
  if includes "Sotheby's" (entry_label e) then "#002349"
  else
    let grayValue := Z.min (90 + index * 18) 210 in
    rgba grayValue grayValue grayValue.

(** Lines 498 to 525 *)
Definition prepareBarChartData (sorted : list entry) : chart :=
  {| chart_labels := map entry_label sorted;
     chart_data := map entry_value sorted;
     chart_backgroundColor := mapi_from bar_color 0 sorted |}.

End Charts.

(** ** The selection of files: [onDrop] of the [FileUploader] component of
    [components/FileUploader.js] *)
Module Upload.
Import JSMore.

(** What the component reads of a [File]: its name, and its size in
    bytes *)
Record file : Type := {
  name : string;
  size : Z
}.

(** The state of the component: [files], [uploadError] ([None] for
    [null]) and [fileProgress] *)
Record selection : Type := {
  files : list file;
  uploadError : option string;
  fileProgress : Z
}.

(** The initial state, line 13 to 15 *)
Definition empty : selection :=
  {| files := []; uploadError := None; fileProgress := 0 |}.

(** Lines 26 to 29 *)
Definition isValidType (f : file) : bool :=
  let fileName := toLowerCase (name f) in
  endsWith ".csv" fileName || endsWith ".xls" fileName
  || endsWith ".xlsx" fileName.

(** Lines 24 to 43: the error that the filter sets when it rejects the
    file *)
Definition rejection (f : file) : option string :=
  if negb (isValidType f) then Some "Only CSV and Excel files are accepted."
  else if 10 * 1024 * 1024 <? size f then Some "File size exceeds 10MB limit."
  else None.

Definition valid (f : file) : bool :=
  match rejection f with
  | None => true
  | Some _ => false
  end.

(** Lines 18 to 52.  The state after the callback holds, for each of its
    three parts, the value it was last set to. *)
Definition onDrop (st : selection) (acceptedFiles : list file) : selection :=
  let error :=
    fold_left (fun e f => match rejection f with Some m => Some m | None => e end)
              acceptedFiles None in
  let validFiles := filter valid acceptedFiles in
  if (0 <? List.length validFiles)%nat
  then {| files := validFiles; uploadError := None; fileProgress := 100 |}
  else {| files := files st; uploadError := error; fileProgress := 0 |}.

End Upload.

(** ** The notions in which the further properties are stated *)

Module Notions.
Import Detector Ranker Stated JSMore.

(** *** The schema detector *)

(** The test of lines 106 to 108 on row [r] *)
Definition mkt_text (r : row) : bool :=
  (8 <? len r) &&
  match header_text (get r 8) with
  | Some t => (t =? "mkt %")%string || (includes "market" t && includes "%" t)
  | None => false
  end.

(** The eight columns that only the header rules of lines 129 to 192 set *)
Inductive field : Type :=
| Brand | TotalSales | AvgPrice | DaysOnMarket | PricePerSqft
| ClosedListRatio | TotalOffices | ContributingAgents.

Definition index_of (f : field) (c : columns) : Z :=
  match f with
  | Brand => brandColIndex c
  | TotalSales => totalSalesColIndex c
  | AvgPrice => avgPriceColIndex c
  | DaysOnMarket => domColIndex c
  | PricePerSqft => pricePerSqftColIndex c
  | ClosedListRatio => closedListRatioColIndex c
  | TotalOffices => totalOfficesColIndex c
  | ContributingAgents => contributingAgentsColIndex c
  end.

Definition rule_of (f : field) : string -> bool :=
  match f with
  | Brand => is_brand
  | TotalSales => is_totalSales
  | AvgPrice => is_avgPrice
  | DaysOnMarket => is_dom
  | PricePerSqft => is_pricePerSqft
  | ClosedListRatio => is_closedListRatio
  | TotalOffices => is_totalOffices
  | ContributingAgents => is_contributingAgents
  end.

(** The cell is a non-empty text that the rule of [f] accepts. *)
Definition is_header (f : field) (v : value) : bool :=
  match header_text v with
  | Some t => rule_of f t
  | None => false
  end.

Definition no_header (f : field) (cells : row) : bool :=
  forallb (fun v => negb (is_header f v)) cells.

(** *** The ranker *)

(** The row reaches line 256 with a share above 1000. *)
Definition aborts (c : columns) (r : row) : bool :=
  (Z.max (brandColIndex c) (marketShareColIndex c) <? len r)
  && truthy (get r (brandColIndex c))
  && gt (to_number (coerce (get r (marketShareColIndex c)))) (ofZ 1000).

(** The same with a share that reads above 1000 by more than 10^-9, so
    that its binary64 value is above 1000 too *)
Definition clearly_aborts (c : columns) (r : row) : bool :=
  (Z.max (brandColIndex c) (marketShareColIndex c) <? len r)
  && truthy (get r (brandColIndex c))
  && gt (to_number (coerce (get r (marketShareColIndex c))))
        (Fin 1000000000001 9).

Definition sothebys_label : string := "Russ Lyon Sotheby's International Realty".

(** The brand cell of [r] names Sotheby's, as line 265 tests it. *)
Definition sothebys_row (c : columns) (r : row) : bool :=
  includes "sotheby" (toLowerCase (value_toString (get r (brandColIndex c)))).

(** A share as the ranker can return it: a number, and not above 1000 *)
Definition in_range (x : number) : Prop :=
  isNaN x = false /\ gt x (ofZ 1000) = false.


(** *** Text *)

(** [String.prototype.split] on " ", then the title case of each word,
    then [join] on " ", as one pass over the text: [start] tells whether
    the character opens a word. *)
Fixpoint titlecase (start : bool) (s : string) : string :=
  match s with
  | EmptyString => EmptyString
  | String c r =>
      String (if start then upper_char c else lower_char c)
             (titlecase (c =? " ")%char r)
  end.

(** The first word, in lower case when the text does not open a word *)
Definition first_word (start : bool) (w : string) : string :=
  if start then Names.title_word w else toLowerCase w.

(** How the character [b] may follow [a] in a clean name: after a space
    no lower-case letter, after anything else no upper-case letter *)
Definition follows (a b : ascii) : bool :=
  if (a =? " ")%char then negb (is_lower b) else negb (is_upper b).

Fixpoint well_cased (s : string) : bool :=
  match s with
  | String a (String b _ as r) => follows a b && well_cased r
  | _ => true
  end.

(** [well_cased] with the character before the text known *)
Fixpoint cased (start : bool) (s : string) : bool :=
  match s with
  | EmptyString => true
  | String c r =>
      (if start then negb (is_lower c) else negb (is_upper c))
      && cased (c =? " ")%char r
  end.

Fixpoint all_chars (p : ascii -> bool) (s : string) : bool :=
  match s with
  | EmptyString => true
  | String c r => p c && all_chars p r
  end.

(** Neither an underscore nor a hyphen *)
Definition plain (c : ascii) : bool := negb (Names.underscore_hyphen c).

Fixpoint last_char (s : string) : option ascii :=
  match s with
  | EmptyString => None
  | String c r => match last_char r with None => Some c | o => o end
  end.

(** One of the three extensions, in any letter case *)
Definition is_extension (e : string) : bool :=
  (toLowerCase e =? ".xlsx")%string || (toLowerCase e =? ".xls")%string
  || (toLowerCase e =? ".csv")%string.

(** *** Arrays sorted by value *)

Definition key {A : Type} (val : A -> value) (a : A) : number :=
  to_number (val a).

(** The comparator [(a, b) => b.value - a.value] *)
Definition desc {A : Type} (val : A -> value) (a b : A) : number :=
  minus (val b) (val a).

(** [a] may stand before [b] in an array sorted with [desc]. *)
Definition no_lt {A : Type} (val : A -> value) (a b : A) : Prop :=
  lt (key val a) (key val b) = false.

Definition numeric {A : Type} (val : A -> value) (a : A) : Prop :=
  isNaN (key val a) = false.

Definition is_num (v : value) : Prop := exists x, v = Num x.

(** The value is a number or nothing, never a text. *)
Definition not_text (v : value) : Prop :=
  match v with Str _ => False | _ => True end.

(** *** Templates and charts *)

(** A record of the ranker as the templates read it *)
Definition item_of (b : brokerage) : Templates.item :=
  {| Templates.item_label := brand b;
     Templates.item_value := Num (marketShare b) |}.

(** What [valueGap] holds when the specification's gap is [g] *)
Definition gap_value (g : option string) : value :=
  match g with
  | Some text => Str text
  | None => Num (ofZ 0)
  end.

Definition undefined_toFixed : error :=
  TypeError "Cannot read properties of undefined (reading 'toFixed')".


(** A division for the examples: the quotient of two finite numbers to
    twenty decimals, a tie going away from zero *)
Definition quotient20 (x y : number) : number :=
  match x, y with
  | Fin m1 k1, Fin m2 k2 =>
      if m2 =? 0 then
        (if m1 =? 0 then NaN else Inf (m1 <? 0))
      else
        let num := Z.abs m1 * pow10 k2 * pow10 20 in
        let den := Z.abs m2 * pow10 k1 in
        let q := (2 * num + den) / (2 * den) in
        mkFin (if Bool.eqb (m1 <? 0) (m2 <? 0) then q else - q) 20
  | Fin _ _, Inf _ => Fin 0 0
  | Inf a, Fin m2 _ => Inf (xorb a (m2 <? 0))
  | _, _ => NaN
  end.

(** *** Sample data *)

Definition sample_items : list Templates.item :=
  [ {| Templates.item_label := "Compass"; Templates.item_value := Num (Fin 12 0) |};
    {| Templates.item_label := "Sotheby's Realty";
       Templates.item_value := Num (Fin 156 1) |};
    {| Templates.item_label := "HomeSmart"; Templates.item_value := Num (Fin 9 0) |} ].

Definition sample_header : row :=
  [Str "Rank"; Str "Office Name"; Str "Brand"; Str "Total $ Volume"].


(** The subject at 10 behind a competitor at 30, and no HomeSmart *)
Definition trailing_sheet : sheet :=
  [ row_I (Str "Brand") (Str "Mkt %");
    row_I (Str "Sotheby's Realty") (Str "10%");
    row_I (Str "Compass") (Str "30%") ].

Definition sample_records : list brokerage :=
  [ {| brand := "homesmart elite"; marketShare := Fin 9 0 |};
    {| brand := "Sotheby's Realty"; marketShare := Fin 156 1 |};
    {| brand := "Compass"; marketShare := Fin 12 0 |} ].

End Notions.

(** ** Facts about the primitives *)

Module JSFacts.
Import Stated.

(** *** Order and arithmetic *)

Lemma pow10_pos (k : nat) : 0 < pow10 k.
Proof. unfold pow10. apply Z.pow_pos_nonneg; lia. Qed.

Lemma pow10_S (k : nat) : pow10 (S k) = 10 * pow10 k.
Proof. unfold pow10. rewrite Nat2Z.inj_succ, Z.pow_succ_r by lia. reflexivity. Qed.

Lemma pow10_add (a b : nat) : pow10 (a + b) = pow10 a * pow10 b.
Proof. unfold pow10. rewrite Nat2Z.inj_add, Z.pow_add_r by lia. reflexivity. Qed.

Lemma normalize_value (k : nat) : forall m m' k',
  normalize m k = (m', k') -> m' * pow10 k = m * pow10 k'.
Proof.
  induction k as [|k IH]; intros m m' k' H; simpl in H.
  - inversion H; subst. reflexivity.
  - destruct (m mod 10 =? 0) eqn:E.
    + apply IH in H. apply Z.eqb_eq in E.
      pose proof (Z.div_mod m 10 ltac:(lia)) as Hm. rewrite E in Hm.
      rewrite pow10_S. rewrite Hm at 1. 
      replace (m' * (10 * pow10 k)) with (10 * (m' * pow10 k)) by ring.
      rewrite H. ring.
    + inversion H; subst. reflexivity.
Qed.

Lemma mkFin_spec (m : Z) (k : nat) :
  exists m' k', mkFin m k = Fin m' k' /\ m' * pow10 k = m * pow10 k'.
Proof.
  unfold mkFin. destruct (normalize m k) as [m' k'] eqn:E.
  exists m', k'. split; [reflexivity | now apply normalize_value].
Qed.

Lemma scaled_lt (a b p : Z) : 0 < p -> (a * p <? b * p) = (a <? b).
Proof.
  intros Hp. destruct (a <? b) eqn:E.
  - apply Z.ltb_lt in E. apply Z.ltb_lt. now apply Z.mul_lt_mono_pos_r.
  - apply Z.ltb_ge in E. apply Z.ltb_ge. now apply Z.mul_le_mono_nonneg_r; [lia|].
Qed.

Lemma lt_mkFin_l (m : Z) (k : nat) (y : number) :
  lt (mkFin m k) y = lt (Fin m k) y.
Proof.
  destruct (mkFin_spec m k) as (m' & k' & -> & Hv).
  destruct y as [|[]|m2 k2]; try reflexivity. simpl.
  rewrite <- (scaled_lt (m' * pow10 k2) (m2 * pow10 k') (pow10 k)) by apply pow10_pos.
  rewrite <- (scaled_lt (m * pow10 k2) (m2 * pow10 k) (pow10 k')) by apply pow10_pos.
  f_equal; [|ring].
  replace (m' * pow10 k2 * pow10 k) with (m' * pow10 k * pow10 k2) by ring.
  rewrite Hv. ring.
Qed.

Lemma lt_mkFin_r (x : number) (m : Z) (k : nat) :
  lt x (mkFin m k) = lt x (Fin m k).
Proof.
  destruct (mkFin_spec m k) as (m' & k' & -> & Hv).
  destruct x as [|[]|m1 k1]; try reflexivity. simpl.
  rewrite <- (scaled_lt (m1 * pow10 k') (m' * pow10 k1) (pow10 k)) by apply pow10_pos.
  rewrite <- (scaled_lt (m1 * pow10 k) (m * pow10 k1) (pow10 k')) by apply pow10_pos.
  f_equal; [ring|].
  replace (m' * pow10 k1 * pow10 k) with (m' * pow10 k * pow10 k1) by ring.
  rewrite Hv. ring.
Qed.

Lemma gt_sub_zero (x y : number) : gt (sub y x) (ofZ 0) = lt x y.
Proof.
  unfold gt, sub.
  destruct x as [|[]|m1 k1], y as [|[]|m2 k2]; try reflexivity.
  cbn [neg add]. rewrite lt_mkFin_r. cbn [lt ofZ].
  rewrite pow10_add. change (pow10 0) with 1.
  destruct (m1 * pow10 k2 <? m2 * pow10 k1) eqn:E.
  - apply Z.ltb_lt in E. apply Z.ltb_lt.
    pose proof (pow10_pos k1); pose proof (pow10_pos k2). nia.
  - apply Z.ltb_ge in E. apply Z.ltb_ge.
    pose proof (pow10_pos k1); pose proof (pow10_pos k2). nia.
Qed.

Lemma lt_asym (x y : number) : lt x y = true -> lt y x = false.
Proof.
  destruct x as [|[]|m1 k1], y as [|[]|m2 k2]; simpl; try congruence.
  intros H. apply Z.ltb_lt in H. apply Z.ltb_ge. lia.
Qed.

Lemma ge_of_lt (x y : number) : lt x y = true -> ge y x = true.
Proof.
  intros H. pose proof (lt_asym _ _ H) as H'.
  unfold ge. rewrite H'.
  destruct x as [|[]|m1 k1], y as [|[]|m2 k2]; simpl in *; congruence.
Qed.

Lemma ge_of_not_lt (x y : number) :
  isNaN x = false -> isNaN y = false -> lt x y = false -> ge x y = true.
Proof.
  unfold ge. destruct x, y; simpl; try congruence; intros _ _ ->; reflexivity.
Qed.

(** *** Printing and reading back *)

Lemma read_digits_app (u : Decimal.uint) (rest : string) :
  read_digits rest = (Decimal.Nil, rest) ->
  read_digits (NilEmpty.string_of_uint u ++ rest) = (u, rest).
Proof.
  intros Hrest. induction u; simpl; try (rewrite IHu; reflexivity).
  exact Hrest.
Qed.

Lemma to_uint_nonnil (n : N) : is_nil (N.to_uint n) = false.
Proof.
  rewrite <- (Unsigned.of_to n) at 1. rewrite Unsigned.to_of.
  pose proof (unorm_nonnil (N.to_uint n)) as H.
  destruct (Decimal.unorm (N.to_uint n)); try reflexivity. congruence.
Qed.

Lemma string_of_uint_head (u : Decimal.uint) :
  is_nil u = false ->
  exists c r, NilEmpty.string_of_uint u = String c r /\ is_digit c = true.
Proof.
  destruct u; simpl; intros H; try discriminate; eexists; eexists; split; reflexivity.
Qed.

Lemma digits_head (n : N) :
  exists c r, digits n = String c r /\ is_digit c = true.
Proof. apply string_of_uint_head, to_uint_nonnil. Qed.

Lemma digits_small (b : N) : (b < 10)%N ->
  exists c, digits b = String c "" /\ is_digit c = true /\ N.to_uint b = 
    (match digit_of c with Some d => d Decimal.Nil | None => Decimal.Nil end).
Proof.
  intros H.
  assert (b = 0 \/ b = 1 \/ b = 2 \/ b = 3 \/ b = 4 \/ b = 5 \/ b = 6 \/
          b = 7 \/ b = 8 \/ b = 9)%N as Hc by lia.
  repeat (destruct Hc as [-> | Hc]); try subst b; eexists; repeat split.
Qed.

Lemma digit_head_facts (c : ascii) (r : string) :
  is_digit c = true ->
  is_ws c = false /\ read_sign (String c r) = (false, String c r) /\
  prefix "Infinity" (String c r) = false.
Proof.
  destruct c as [[] [] [] [] [] [] [] []]; simpl; intros H;
    try discriminate H; repeat split.
Qed.

Lemma read_digits_digits (n : N) (rest : string) :
  read_digits rest = (Decimal.Nil, rest) ->
  read_digits (digits n ++ rest) = (N.to_uint n, rest).
Proof. intros H. unfold digits. now apply read_digits_app. Qed.

Lemma append_nil_r (s : string) : s ++ "" = s.
Proof. induction s; simpl; congruence. Qed.

Lemma read_unsigned_fixed1 (sg : bool) (a b : N) :
  (b < 10)%N ->
  read_unsigned sg (digits a ++ "." ++ digits b) =
  Some (scale sg (a * 10 + b) (-1), "").
Proof.
  intros Hb. unfold read_unsigned.
  destruct (digits_head a) as (c0 & r0 & Hd & Hc0).
  assert (Hinf : prefix "Infinity" (digits a ++ "." ++ digits b) = false).
  { rewrite Hd. apply (digit_head_facts c0 _ Hc0). }
  rewrite Hinf. rewrite read_digits_digits by reflexivity.
  cbn [append]. change ("." =? ".")%char with true. cbv iota.
  rewrite <- (append_nil_r (digits b)).
  rewrite read_digits_digits by reflexivity.
  rewrite to_uint_nonnil. cbn [andb read_exponent].
  assert (Hnb : Decimal.nb_digits (N.to_uint b) = 1%nat).
  { destruct (digits_small b Hb) as (c & _ & Hc & ->).
    destruct c as [[] [] [] [] [] [] [] []]; simpl in Hc; try discriminate Hc; reflexivity. }
  rewrite Hnb, !Unsigned.of_to. reflexivity.
Qed.

Lemma parse_toFixed1 (m : Z) (k : nat) :
  (pow10 21 * pow10 k <=? Z.abs m) = false ->
  parseFloat (toFixed (Fin m k) 1) = round1 (Fin m k).
Proof.
  intros Hsmall. unfold toFixed, round1. rewrite Hsmall.
  change (pow10 1) with 10.
  set (n := (2 * Z.abs m * 10 + pow10 k) / (2 * pow10 k)).
  assert (Hn : 0 <= n).
  { apply Z.div_pos; pose proof (pow10_pos k); lia. }
  clearbody n.
  assert (Hb : (Z.to_N (n mod 10) < 10)%N).
  { pose proof (Z.mod_pos_bound n 10). lia. }
  assert (Hpad : padded 1 (Z.to_N (n mod 10)) = digits (Z.to_N (n mod 10))).
  { unfold padded. destruct (digits_small _ Hb) as (c & -> & _). reflexivity. }
  rewrite Hpad.
  assert (Hval : (Z.to_N (n / 10) * 10 + Z.to_N (n mod 10))%N = Z.to_N n).
  { pose proof (Z.div_mod n 10). pose proof (Z.mod_pos_bound n 10).
    assert (0 <= n / 10) by (apply Z.div_pos; lia). lia. }
  unfold parseFloat.
  destruct (m <? 0).
  - cbn [append trimStart]. change (is_ws "-") with false. cbv iota.
    unfold read_decimal. cbn [read_sign].
    rewrite (read_unsigned_fixed1 true _ _ Hb), Hval.
    unfold scale. rewrite Z2N.id by lia. reflexivity.
  - cbn [append].
    destruct (digits_head (Z.to_N (n / 10))) as (c0 & r0 & Hd & Hc0).
    pose proof (fun r => digit_head_facts c0 r Hc0) as HF.
    unfold read_decimal. rewrite Hd. cbn [append trimStart].
    rewrite (proj1 (HF EmptyString)), (proj1 (proj2 (HF _))).
    change (String c0 (r0 ++ String "." (digits (Z.to_N (n mod 10)))))
      with (String c0 r0 ++ "." ++ digits (Z.to_N (n mod 10))).
    rewrite <- Hd, (read_unsigned_fixed1 false _ _ Hb), Hval.
    unfold scale. rewrite Z2N.id by lia. reflexivity.
Qed.

Lemma mkFin_fin (m : Z) (k : nat) : is_fin (mkFin m k) = true.
Proof. destruct (mkFin_spec m k) as (m' & k' & -> & _). reflexivity. Qed.

Lemma scale_fin (sg : bool) (m : N) (e : Z) : is_fin (scale sg m e) = true.
Proof. unfold scale. destruct (0 <=? e); apply mkFin_fin. Qed.

(** A text that starts with a digit reads as a finite number. *)
Lemma read_unsigned_digit_head (sg : bool) (c : ascii) (r : string) :
  is_digit c = true ->
  exists x rest, read_unsigned sg (String c r) = Some (x, rest) /\ is_fin x = true.
Proof.
  intros Hc. unfold read_unsigned.
  rewrite (proj2 (proj2 (digit_head_facts c r Hc))).
  assert (Hip : exists u s2, read_digits (String c r) = (u, s2) /\ is_nil u = false).
  { cbn [read_digits]. unfold is_digit in Hc.
    destruct (digit_of c) as [d|] eqn:E; [|discriminate].
    destruct (read_digits r) as [u rest]. exists (d u), rest. split; [reflexivity|].
    clear - E. destruct c as [[] [] [] [] [] [] [] []]; simpl in E; try discriminate E;
      inversion E; reflexivity. }
  destruct Hip as (u & s2 & -> & Hu). rewrite Hu. cbn [andb].
  match goal with |- context [let (fp, s3) := ?e in _] => destruct e as [fp s3] end.
  destruct (read_exponent s3) as [e s4].
  eexists; eexists; split; [reflexivity | apply scale_fin].
Qed.

Lemma parseFloat_digit_head (c : ascii) (r : string) :
  is_digit c = true -> is_fin (parseFloat (String c r)) = true.
Proof.
  intros Hc. unfold parseFloat, read_decimal. cbn [trimStart].
  destruct (digit_head_facts c r Hc) as (-> & -> & _).
  destruct (read_unsigned_digit_head false c r Hc) as (x & rest & -> & Hx). exact Hx.
Qed.

Lemma parseFloat_minus_digit_head (c : ascii) (r : string) :
  is_digit c = true -> is_fin (parseFloat (String "-" (String c r))) = true.
Proof.
  intros Hc. unfold parseFloat, read_decimal. cbn [trimStart].
  change (is_ws "-") with false. cbv iota. cbn [read_sign].
  destruct (read_unsigned_digit_head true c r Hc) as (x & rest & -> & Hx). exact Hx.
Qed.

Lemma strip_trailing_zeros_head (c : ascii) (r : string) :
  strip_trailing_zeros (String c r) <> "" ->
  exists r', strip_trailing_zeros (String c r) = String c r'.
Proof.
  cbn [strip_trailing_zeros]. destruct (strip_trailing_zeros r).
  - destruct (c =? "0")%char; [congruence | eexists; reflexivity].
  - eexists; reflexivity.
Qed.

Lemma strip_trailing_zeros_value (u : Decimal.uint) :
  strip_trailing_zeros (NilEmpty.string_of_uint u) = "" -> N.of_uint u = 0%N.
Proof.
  induction u; cbn [NilEmpty.string_of_uint strip_trailing_zeros]; intros H;
    try (destruct (strip_trailing_zeros (NilEmpty.string_of_uint u)); discriminate H).
  - reflexivity.
  - destruct (strip_trailing_zeros (NilEmpty.string_of_uint u)) eqn:E; [|discriminate].
    change (N.of_uint (Decimal.D0 u)) with (N.of_uint u). auto.
Qed.

Lemma significant_head (n : N) :
  (0 < n)%N ->
  exists c r, strip_trailing_zeros (digits n) = String c r /\ is_digit c = true.
Proof.
  intros Hn. destruct (digits_head n) as (c & r & Hd & Hc).
  assert (Hne : strip_trailing_zeros (digits n) <> "").
  { intros E. apply strip_trailing_zeros_value in E. rewrite Unsigned.of_to in E. lia. }
  rewrite Hd in *. destruct (strip_trailing_zeros_head c r Hne) as (r' & ->).
  eauto.
Qed.

Lemma toString_pos_head (m : Z) (k : nat) :
  0 < m ->
  exists c r, toString_pos m k = String c r /\ is_digit c = true.
Proof.
  intros Hm. unfold toString_pos.
  destruct (significant_head (Z.to_N m) ltac:(lia)) as (c & r & -> & Hc).
  set (n := lenZ (digits (Z.to_N m)) - Z.of_nat k). clearbody n.
  set (kk := lenZ (String c r)). clearbody kk.
  destruct ((kk <=? n) && (n <=? 21)); [cbn [append]; eauto|].
  destruct ((0 <? n) && (n <=? 21)) eqn:E.
  { apply andb_prop in E. destruct E as [E _]. apply Z.ltb_lt in E.
    destruct (Z.to_nat n) as [|p] eqn:En; [lia|]. cbn [substring append]. eauto. }
  destruct ((-6 <? n) && (n <=? 0)); [cbn [append]; eexists; eexists; split; reflexivity|].
  destruct (kk =? 1); cbn [substring append]; eauto.
Qed.

Lemma normalize_sign (m : Z) (k : nat) (m' : Z) (k' : nat) :
  normalize m k = (m', k') -> 0 < m -> 0 < m'.
Proof.
  intros H Hm. apply normalize_value in H.
  pose proof (pow10_pos k). pose proof (pow10_pos k'). nia.
Qed.

Lemma toString_head (m : Z) (k : nat) :
  0 < m ->
  exists c r, toString (Fin m k) = String c r /\ is_digit c = true.
Proof.
  intros Hm. unfold toString. destruct (normalize m k) as [m' k'] eqn:E.
  pose proof (normalize_sign _ _ _ _ E Hm) as Hm'.
  destruct (m' =? 0) eqn:E0; [apply Z.eqb_eq in E0; lia|].
  destruct (m' <? 0) eqn:E1; [apply Z.ltb_lt in E1; lia|].
  now apply toString_pos_head.
Qed.

Lemma round1_fin (m : Z) (k : nat) : is_fin (round1 (Fin m k)) = true.
Proof. apply mkFin_fin. Qed.

(** [parseFloat(x.toFixed(1))] is never [NaN] for a number [x] that is not *)
Lemma parse_toFixed1_not_NaN (x : number) :
  isNaN x = false -> isNaN (parseFloat (toFixed x 1)) = false.
Proof.
  destruct x as [|[]|m k]; try discriminate; try reflexivity. intros _.
  destruct (pow10 21 * pow10 k <=? Z.abs m) eqn:E.
  - unfold toFixed. rewrite E. apply Z.leb_le in E.
    assert (Ha : 0 < Z.abs m).
    { pose proof (pow10_pos 21). pose proof (pow10_pos k). nia. }
    destruct (toString_head (Z.abs m) k Ha) as (c & r & -> & Hc).
    assert (Hf : is_fin (parseFloat ((if m <? 0 then "-" else "") ++ String c r)) = true).
    { destruct (m <? 0); cbn [append];
        [now apply parseFloat_minus_digit_head | now apply parseFloat_digit_head]. }
    destruct (parseFloat _); try discriminate Hf; reflexivity.
  - rewrite (parse_toFixed1 m k E).
    pose proof (round1_fin m k) as Hf.
    destruct (round1 _); try discriminate Hf; reflexivity.
Qed.

Lemma pow10_21 : pow10 21 = 10 ^ 21.
Proof. reflexivity. Qed.


Lemma trimEnd_clean (s : string) : no_ws s = true -> trimEnd s = s.
Proof.
  induction s as [|c r IH]; [reflexivity|]. cbn [no_ws trimEnd].
  intros H. apply andb_prop in H. destruct H as [Hc Hr].
  rewrite (IH Hr). apply negb_true_iff in Hc. rewrite Hc.
  destruct r; reflexivity.
Qed.

Lemma trim_clean (s : string) : no_ws s = true -> trim s = s.
Proof.
  intros H. unfold trim.
  assert (E : trimStart s = s).
  { destruct s as [|c r]; [reflexivity|]. cbn [no_ws] in H.
    apply andb_prop in H. destruct H as [Hc _]. apply negb_true_iff in Hc.
    cbn [trimStart]. now rewrite Hc. }
  rewrite E. now apply trimEnd_clean.
Qed.

Lemma no_ws_app (s t : string) : no_ws (s ++ t) = no_ws s && no_ws t.
Proof.
  induction s as [|c r IH]; [reflexivity|]. cbn [append no_ws]. rewrite IH.
  now rewrite andb_assoc.
Qed.

Lemma no_ws_digits (n : N) : no_ws (digits n) = true.
Proof.
  unfold digits. induction (N.to_uint n); cbn [NilEmpty.string_of_uint no_ws];
    try rewrite IHu; reflexivity.
Qed.

Lemma toNumber_fixed1 (sg : bool) (a b : N) :
  (b < 10)%N ->
  toNumber ((if sg then "-" else "") ++ digits a ++ "." ++ digits b) =
  scale sg (a * 10 + b) (-1).
Proof.
  intros Hb. unfold toNumber.
  rewrite trim_clean.
  2:{ rewrite !no_ws_app, !no_ws_digits. destruct sg; reflexivity. }
  destruct (digits_head a) as (c0 & r0 & Hd & Hc0).
  destruct sg.
  - change ("-" ++ digits a ++ "." ++ digits b)
      with (String "-" (digits a ++ "." ++ digits b)).
    unfold read_decimal. cbn [read_sign].
    now rewrite (read_unsigned_fixed1 true a b Hb).
  - change ("" ++ digits a ++ "." ++ digits b) with (digits a ++ "." ++ digits b).
    assert (E : read_sign (digits a ++ "." ++ digits b)
                = (false, digits a ++ "." ++ digits b)).
    { rewrite Hd. apply (digit_head_facts c0 _ Hc0). }
    unfold read_decimal. rewrite E, (read_unsigned_fixed1 false a b Hb).
    rewrite Hd. reflexivity.
Qed.

(** The text [toFixed] gives for a number of moderate size is numeric. *)
Lemma toNumber_toFixed1 (m : Z) (k : nat) :
  (pow10 21 * pow10 k <=? Z.abs m) = false ->
  isNaN (toNumber (toFixed (Fin m k) 1)) = false.
Proof.
  intros Hsmall. unfold toFixed. rewrite Hsmall. change (pow10 1) with 10.
  set (n := (2 * Z.abs m * 10 + pow10 k) / (2 * pow10 k)). clearbody n.
  assert (Hb : (Z.to_N (n mod 10) < 10)%N).
  { pose proof (Z.mod_pos_bound n 10). lia. }
  assert (Hpad : padded 1 (Z.to_N (n mod 10)) = digits (Z.to_N (n mod 10))).
  { unfold padded. destruct (digits_small _ Hb) as (c & -> & _). reflexivity. }
  rewrite Hpad, (toNumber_fixed1 (m <? 0) _ _ Hb).
  pose proof (scale_fin (m <? 0) (Z.to_N (n / 10) * 10 + Z.to_N (n mod 10)) (-1)) as Hf.
  destruct (scale _ _ _); try discriminate Hf; reflexivity.
Qed.

Lemma all_digits_app (s t : string) :
  all_digits (s ++ t) = all_digits s && all_digits t.
Proof.
  induction s as [|c r IH]; [reflexivity|]. cbn [append all_digits].
  now rewrite IH, andb_assoc.
Qed.

Lemma all_digits_uint (u : Decimal.uint) :
  all_digits (NilEmpty.string_of_uint u) = true.
Proof. induction u; cbn [NilEmpty.string_of_uint all_digits]; auto. Qed.

Lemma all_digits_digits (n : N) : all_digits (digits n) = true.
Proof. apply all_digits_uint. Qed.

Lemma all_digits_zeros (n : nat) : all_digits (repeat_char "0" n) = true.
Proof. induction n; cbn [repeat_char all_digits]; auto. Qed.

Lemma all_digits_strip (s : string) :
  all_digits s = true -> all_digits (strip_trailing_zeros s) = true.
Proof.
  induction s as [|c r IH]; [reflexivity|]. cbn [all_digits strip_trailing_zeros].
  intros H. apply andb_prop in H. destruct H as [Hc Hr]. specialize (IH Hr).
  destruct (strip_trailing_zeros r).
  - destruct (c =? "0")%char; [reflexivity|]. cbn [all_digits]. now rewrite Hc.
  - cbn [all_digits] in *. now rewrite Hc, IH.
Qed.

Lemma all_digits_substring (s : string) : forall i j,
  all_digits s = true -> all_digits (substring i j s) = true.
Proof.
  induction s as [|c r IH]; intros i j H.
  - destruct i, j; reflexivity.
  - cbn [all_digits] in H. apply andb_prop in H. destruct H as [Hc Hr].
    destruct i as [|i]; cbn [substring].
    + destruct j as [|j]; [reflexivity|]. cbn [all_digits]. now rewrite Hc, IH.
    + now apply IH.
Qed.

Lemma all_digits_no_ws (s : string) : all_digits s = true -> no_ws s = true.
Proof.
  induction s as [|c r IH]; [reflexivity|]. cbn [all_digits no_ws].
  intros H. apply andb_prop in H. destruct H as [Hc Hr].
  rewrite (proj1 (digit_head_facts c r Hc)). now rewrite IH.
Qed.

Lemma read_digits_run (s rest : string) :
  all_digits s = true -> read_digits rest = (Decimal.Nil, rest) ->
  exists u, read_digits (s ++ rest) = (u, rest) /\
            is_nil u = match s with EmptyString => true | _ => false end.
Proof.
  intros Hs Hrest. induction s as [|c r IH].
  - exists Decimal.Nil. auto.
  - cbn [all_digits] in Hs. apply andb_prop in Hs. destruct Hs as [Hc Hr].
    destruct (IH Hr) as (u & Hu & _). cbn [append read_digits]. rewrite Hu.
    unfold is_digit in Hc. destruct (digit_of c) as [d|] eqn:E; [|discriminate].
    exists (d u). split; [reflexivity|].
    clear - E. destruct c as [[] [] [] [] [] [] [] []]; simpl in E; try discriminate E;
      inversion E; reflexivity.
Qed.

Lemma exponent_part_head (e : string) :
  exponent_part e -> read_digits e = (Decimal.Nil, e) /\
  match e with String c _ => (c =? ".")%char = false | _ => True end /\
  no_ws e = true /\ exists z, read_exponent e = (z, "").
Proof.
  intros [-> | (sg & c & r & -> & Hsg & Hd)].
  - repeat split. exists 0. reflexivity.
  - split; [reflexivity|]. split; [reflexivity|]. split.
    + pose proof (all_digits_no_ws _ Hd) as Hn.
      change (no_ws (String "e" (String sg (String c r))))
        with (negb (is_ws "e") && (negb (is_ws sg) && no_ws (String c r))).
      rewrite Hn. destruct Hsg as [-> | ->]; reflexivity.
    + cbn [read_exponent]. change (("e" =? "e")%char || ("e" =? "E")%char) with true.
      cbv iota.
      destruct (read_digits_run (String c r) "" Hd eq_refl) as (u & Hu & Hnil).
      rewrite append_nil_r in Hu.
      assert (Hs : read_sign (String sg (String c r)) = (sg =? "-", String c r)%char).
      { destruct Hsg as [-> | ->]; reflexivity. }
      rewrite Hs, Hu. destruct u; try discriminate Hnil; eexists; reflexivity.
Qed.

(** A literal is read to its end, as a finite number. *)
Lemma read_unsigned_literal (sg : bool) (s : string) :
  literal s -> exists x, read_unsigned sg s = Some (x, "") /\ is_fin x = true.
Proof.
  intros (c & r & f & e & -> & Hd & Hf & He).
  destruct (exponent_part_head e He) as (He1 & He2 & _ & z & Hz).
  assert (Hc : is_digit c = true).
  { cbn [all_digits] in Hd. now apply andb_prop in Hd. }
  unfold read_unsigned.
  assert (Hinf : prefix "Infinity" (String c r ++ f ++ e) = false)
    by apply (digit_head_facts c _ Hc).
  rewrite Hinf.
  assert (Hfe : read_digits (f ++ e) = (Decimal.Nil, f ++ e)).
  { destruct Hf as [-> | (f' & -> & _)]; [exact He1 | reflexivity]. }
  destruct (read_digits_run (String c r) (f ++ e) Hd Hfe) as (u & -> & Hu).
  rewrite Hu. cbn [andb].
  destruct Hf as [-> | (f' & -> & Hf')].
  - cbn [append]. destruct e as [|c' e'].
    + eexists. split; [reflexivity | apply scale_fin].
    + rewrite He2, Hz. eexists. split; [reflexivity | apply scale_fin].
  - cbn [append]. change ("." =? ".")%char with true. cbv iota.
    destruct (read_digits_run f' e Hf' He1) as (uf & -> & _).
    rewrite Hz. eexists. split; [reflexivity | apply scale_fin].
Qed.

Lemma literal_no_ws (s : string) : literal s -> no_ws s = true.
Proof.
  intros (c & r & f & e & -> & Hd & Hf & He).
  rewrite !no_ws_app, (all_digits_no_ws _ Hd).
  rewrite (proj1 (proj2 (proj2 (exponent_part_head e He)))).
  destruct Hf as [-> | (f' & -> & Hf')]; [reflexivity|].
  cbn [no_ws]. now rewrite (all_digits_no_ws _ Hf').
Qed.

Lemma toNumber_literal (sg : bool) (s : string) :
  literal s -> is_fin (toNumber ((if sg then "-" else "") ++ s)) = true.
Proof.
  intros Hl. pose proof (literal_no_ws s Hl) as Hws.
  destruct (read_unsigned_literal sg s Hl) as (x & Hx & Hfin).
  destruct Hl as (c & r & f & e & Hs & Hd & _).
  assert (Hc : is_digit c = true).
  { cbn [all_digits] in Hd. now apply andb_prop in Hd. }
  unfold toNumber. rewrite trim_clean.
  2:{ rewrite no_ws_app, Hws. destruct sg; reflexivity. }
  destruct sg.
  - change ("-" ++ s) with (String "-" s). unfold read_decimal. cbn [read_sign].
    now rewrite Hx.
  - change ("" ++ s) with s. rewrite Hs in *. cbn [append] in *.
    unfold read_decimal. rewrite (proj1 (proj2 (digit_head_facts c _ Hc))).
    now rewrite Hx.
Qed.

Lemma literal_intro (d f e : string) :
  d <> "" -> all_digits d = true -> fraction_part f -> exponent_part e ->
  literal (d ++ f ++ e).
Proof.
  intros Hne Hd Hf He. destruct d as [|c r]; [congruence|].
  exists c, r, f, e. auto.
Qed.

Lemma exponent_text (e : Z) :
  exponent_part ("e" ++ (if e <? 0 then "-" else "+") ++ digits (Z.to_N (Z.abs e))).
Proof.
  right. destruct (digits_head (Z.to_N (Z.abs e))) as (c & r & Hd & _).
  exists (if (e <? 0)%Z then "-"%char else "+"%char), c, r. split.
  - rewrite <- Hd. destruct (e <? 0); reflexivity.
  - split; [destruct (e <? 0); auto|]. rewrite <- Hd. apply all_digits_digits.
Qed.

Lemma toString_pos_literal (m : Z) (k : nat) : 0 < m -> literal (toString_pos m k).
Proof.
  intros Hm. unfold toString_pos.
  assert (Hall : all_digits (strip_trailing_zeros (digits (Z.to_N m))) = true)
    by apply all_digits_strip, all_digits_digits.
  destruct (significant_head (Z.to_N m) ltac:(lia)) as (c & r & Hsd & Hc).
  rewrite Hsd in *.
  set (n := lenZ (digits (Z.to_N m)) - Z.of_nat k). clearbody n.
  set (kk := lenZ (String c r)). clearbody kk.
  destruct ((kk <=? n) && (n <=? 21)).
  { rewrite <- (append_nil_r (_ ++ repeat_char _ _)).
    change (literal ((String c r ++ repeat_char "0" (Z.to_nat (n - kk))) ++ "" ++ "")).
    apply literal_intro; [discriminate | | now left | now left].
    now rewrite all_digits_app, Hall, all_digits_zeros. }
  destruct ((0 <? n) && (n <=? 21)) eqn:E.
  { apply andb_prop in E. destruct E as [E _]. apply Z.ltb_lt in E.
    rewrite <- (append_nil_r (substring (Z.to_nat n) _ _)).
    change (literal (substring 0 (Z.to_nat n) (String c r)
                     ++ String "." (substring (Z.to_nat n) (Z.to_nat (kk - n)) (String c r))
                     ++ "")).
    apply literal_intro.
    - destruct (Z.to_nat n) eqn:En; [lia | discriminate].
    - now apply all_digits_substring.
    - right. eexists. split; [reflexivity|]. now apply all_digits_substring.
    - now left. }
  destruct ((-6 <? n) && (n <=? 0)).
  { rewrite <- (append_nil_r (repeat_char _ _ ++ _)).
    change (literal ("0" ++ String "." (repeat_char "0" (Z.to_nat (- n)) ++ String c r) ++ "")).
    apply literal_intro; [discriminate | reflexivity | | now left].
    right. eexists. split; [reflexivity|].
    now rewrite all_digits_app, all_digits_zeros, Hall. }
  set (e := n - 1).
  destruct (kk =? 1).
  - change (literal (String c r ++ "" ++ ("e" ++ (if e <? 0 then "-" else "+")
                                            ++ digits (Z.to_N (Z.abs e))))).
    apply literal_intro; [discriminate | exact Hall | now left | apply exponent_text].
  - change (literal (substring 0 1 (String c r)
                     ++ String "." (substring 1 (Z.to_nat (kk - 1)) (String c r))
                     ++ ("e" ++ (if e <? 0 then "-" else "+")
                           ++ digits (Z.to_N (Z.abs e))))).
    apply literal_intro; [discriminate | now apply all_digits_substring | | apply exponent_text].
    right. eexists. split; [reflexivity|]. now apply all_digits_substring.
Qed.

Lemma toNumber_toFixed1_not_NaN (x : number) :
  isNaN x = false -> isNaN (toNumber (toFixed x 1)) = false.
Proof.
  destruct x as [|[]|m k]; try discriminate; try reflexivity. intros _.
  destruct (pow10 21 * pow10 k <=? Z.abs m) eqn:E.
  - unfold toFixed. rewrite E. apply Z.leb_le in E.
    assert (Ha : 0 < Z.abs m).
    { pose proof (pow10_pos 21). pose proof (pow10_pos k). nia. }
    unfold toString. destruct (normalize (Z.abs m) k) as [m' k'] eqn:En.
    pose proof (normalize_sign _ _ _ _ En Ha) as Hm'.
    destruct (m' =? 0) eqn:E0; [apply Z.eqb_eq in E0; lia|].
    destruct (m' <? 0) eqn:E1; [apply Z.ltb_lt in E1; lia|].
    pose proof (toNumber_literal (m <? 0) _ (toString_pos_literal m' k' Hm')) as Hf.
    destruct (toNumber _); try discriminate Hf; reflexivity.
  - now apply toNumber_toFixed1.
Qed.

End JSFacts.

(** ** Facts about the schema detector *)

Module DetectorFacts.
Import Detector Stated JSFacts.

Lemma when_marketShare (b : bool) (f : columns -> Z -> columns) (j : Z) (c : columns) :
  (forall c' j', marketShareColIndex (f c' j') = marketShareColIndex c') ->
  marketShareColIndex (when b f j c) = marketShareColIndex c.
Proof. intros Hf. unfold when. destruct b; auto. Qed.

Lemma scan_cell_marketShare (j : Z) (cell : value) (c : columns) :
  expected c ->
  marketShareColIndex (scan_cell j cell c) = marketShareColIndex c.
Proof.
  intros Hc. unfold scan_cell. destruct (header_text cell) as [t|]; [|reflexivity].
  set (c8 := when (is_contributingAgents t) _ _ _).
  assert (H8 : marketShareColIndex c8 = marketShareColIndex c).
  { subst c8. repeat (rewrite when_marketShare; [|reflexivity]). reflexivity. }
  clearbody c8. rewrite H8.
  destruct Hc as [Hc | Hc]; rewrite Hc; cbn [Z.eqb Pos.eqb negb andb]; congruence.
Qed.

Lemma scan_cells_marketShare (cells : row) : forall (j : Z) (c : columns),
  expected c ->
  marketShareColIndex (scan_cells j cells c) = marketShareColIndex c.
Proof.
  induction cells as [|cell rest IH]; intros j c Hc; cbn [scan_cells]; [reflexivity|].
  pose proof (scan_cell_marketShare j cell c Hc) as H.
  rewrite IH; [exact H|]. unfold expected. rewrite H. exact Hc.
Qed.

Lemma check_column_I_cases (r : row) (c : columns) :
  marketShareColIndex (check_column_I r c) = 8 \/
  marketShareColIndex (check_column_I r c) = marketShareColIndex c.
Proof.
  unfold check_column_I. destruct (8 <? len r); [|now right].
  destruct (header_text (get r 8)) as [t|]; [|now right].
  destruct (_ || _); [now left | now right].
Qed.

Lemma check_column_M_cases (r : row) (c : columns) :
  marketShareColIndex (check_column_M r c) = 12 \/
  marketShareColIndex (check_column_M r c) = marketShareColIndex c.
Proof.
  unfold check_column_M. destruct (_ && _); [|now right].
  destruct (header_text (get r 12)) as [t|]; [|now right].
  destruct (_ || _); [now left | now right].
Qed.

Lemma check_column_M_locked (r : row) (c : columns) :
  marketShareColIndex c = 8 -> check_column_M r c = c.
Proof. intros H. unfold check_column_M. rewrite H. reflexivity. Qed.

Lemma scan_row_expected (c : columns) (r : row) :
  expected c -> expected (scan_row c r).
Proof.
  intros Hc. unfold scan_row.
  assert (H : expected (check_column_M r (check_column_I r c))).
  { unfold expected in *.
    destruct (check_column_M_cases r (check_column_I r c)) as [-> | ->]; [now right|].
    destruct (check_column_I_cases r c) as [-> | ->]; [now left | exact Hc]. }
  unfold expected. rewrite scan_cells_marketShare by exact H. exact H.
Qed.

Lemma scan_row_locked (c : columns) (r : row) :
  marketShareColIndex c = 8 -> marketShareColIndex (scan_row c r) = 8.
Proof.
  intros Hc. unfold scan_row.
  assert (H : marketShareColIndex (check_column_I r c) = 8).
  { destruct (check_column_I_cases r c) as [-> | ->]; auto. }
  rewrite check_column_M_locked by exact H.
  rewrite scan_cells_marketShare; [exact H | now left].
Qed.

Lemma scan_rows_expected (rows : sheet) : forall c,
  expected c -> expected (fold_left scan_row rows c).
Proof.
  induction rows as [|r rows IH]; intros c Hc; cbn [fold_left]; [exact Hc|].
  apply IH, scan_row_expected, Hc.
Qed.

Lemma scan_rows_locked (rows : sheet) : forall c,
  marketShareColIndex c = 8 ->
  marketShareColIndex (fold_left scan_row rows c) = 8.
Proof.
  induction rows as [|r rows IH]; intros c Hc; cbn [fold_left]; [exact Hc|].
  apply IH, scan_row_locked, Hc.
Qed.

Lemma detectColumns_expected (data : sheet) : expected (detectColumns data).
Proof. apply scan_rows_expected. now right. Qed.

(** A row with "Mkt %" in column I locks the index to 8. *)
Lemma scan_row_mkt (c : columns) (r : row) (s : string) :
  get r 8 = Str s -> toLowerCase s = "mkt %" ->
  marketShareColIndex (scan_row c r) = 8.
Proof.
  intros Hget Hs. unfold scan_row.
  assert (H : marketShareColIndex (check_column_I r c) = 8).
  { unfold check_column_I.
    assert (Hlen : (8 <? len r) = true).
    { apply Z.ltb_lt. unfold get, len in *. cbn [Z.ltb Z.compare] in Hget.
      destruct (Nat.lt_ge_cases (Z.to_nat 8) (List.length r)) as [Hl|Hl]; [lia|].
      rewrite nth_overflow in Hget by exact Hl. discriminate. }
    rewrite Hlen, Hget. unfold header_text.
    assert (Ht : truthy (Str s) = true).
    { destruct s; [discriminate Hs | reflexivity]. }
    rewrite Ht, Hs. reflexivity. }
  rewrite check_column_M_locked by exact H.
  rewrite scan_cells_marketShare; [exact H | now left].
Qed.

Lemma scan_rows_mkt (rows : sheet) : forall (c : columns) (i : nat) (r : row) (s : string),
  nth_error rows i = Some r -> get r 8 = Str s -> toLowerCase s = "mkt %" ->
  marketShareColIndex (fold_left scan_row rows c) = 8.
Proof.
  induction rows as [|r0 rows IH]; intros c i r s Hi Hget Hs.
  - destruct i; discriminate.
  - cbn [fold_left]. destruct i as [|i]; cbn [nth_error] in Hi.
    + inversion Hi; subst r0. apply scan_rows_locked. eapply scan_row_mkt; eauto.
    + eapply IH; eauto.
Qed.

(** Without a "Mkt %" text in column I the index ends at 12, whatever the
    generic rule would accept in the header. *)
Lemma scan_rows_default (rows : sheet) : forall c,
  Forall no_mkt_text rows -> marketShareColIndex c = 12 ->
  marketShareColIndex (fold_left scan_row rows c) = 12.
Proof.
  induction rows as [|r rows IH]; intros c Hrows Hc; cbn [fold_left]; [exact Hc|].
  inversion Hrows as [|? ? Hr Hrows']; subst. apply IH; [exact Hrows'|].
  unfold scan_row. rewrite (Hr c).
  assert (H : marketShareColIndex (check_column_M r c) = 12).
  { destruct (check_column_M_cases r c) as [-> | ->]; auto. }
  rewrite scan_cells_marketShare; [exact H | now right].
Qed.

Lemma detectColumns_default (data : sheet) :
  Forall no_mkt_text (firstn 10 data) ->
  marketShareColIndex (detectColumns data) = 12.
Proof. intros H. now apply scan_rows_default. Qed.

(** C5 (a defect of the code): the generic market-share rule is guarded by
    [marketShareColIndex !== 8 && marketShareColIndex !== 12], and the
    index starts at 12, so the rule is never applied.  On a sheet whose
    header reads "Market Share (%)" in column C, a text the generic rule
    accepts, the index stays at the default 12 and is not set to 2; on
    every sheet the index ends at 8 or at 12. *)
Theorem C5_generic_rule_never_applies :
  is_marketShare (toLowerCase "Market Share (%)") = true /\
  marketShareColIndex (detectColumns C5_sheet) = 12 /\
  forall data : sheet, expected (detectColumns data).
Proof.
  split; [reflexivity|]. split; [reflexivity|]. exact detectColumns_expected.
Qed.

(** C7: when one of the first ten rows has, in column I (index 8), a text
    that is "mkt %" up to case, the detector ends with the market-share
    index at 8, whatever any scanned row holds in column M (index 12). *)
Theorem C7_mkt_pct_selects_column_I
    (data : sheet) (i : nat) (r : row) (s : string) :
  (i < 10)%nat ->
  nth_error data i = Some r ->
  get r 8 = Str s ->
  toLowerCase s = "mkt %" ->
  marketShareColIndex (detectColumns data) = 8.
Proof.
  intros Hi Hr Hget Hs. unfold detectColumns.
  apply (scan_rows_mkt _ _ i r s); auto.
  rewrite nth_error_firstn. destruct (Nat.ltb_spec i 10); [exact Hr | lia].
Qed.

Lemma C7_mkt_pct_selects_column_I_witness :
  get C7_header 12 = Str "$ Vol Per Prod Agent" /\
  marketShareColIndex (detectColumns C7_sheet) = 8.
Proof.
  split; [reflexivity|].
  apply (C7_mkt_pct_selects_column_I C7_sheet 1 C7_header "MKT %");
    [lia | reflexivity | reflexivity | reflexivity].
Defined.

End DetectorFacts.

(** ** Facts about the ranker *)

Module RankerFacts.
Import Detector Ranker Stated JSFacts.

(** *** The row loop *)

Lemma push_step_inv (brandCell share : value) (bs bs' : list brokerage) :
  push_step brandCell share bs = Ok bs' ->
  (isNaN_value share = true /\ bs' = bs) \/
  (exists x, share = Num x /\ isNaN x = false /\
     bs' = (bs ++ [ {| brand := trim (value_toString brandCell);
                       marketShare := parseFloat (toFixed x 1) |} ])%list).
Proof.
  unfold push_step. destruct (isNaN_value share) eqn:E; cbn [negb].
  - intros H. inversion H. now left.
  - destruct share as [|s|x]; cbn [method_toFixed bind]; intros H; try discriminate H.
    inversion H. right. exists x. auto.
Qed.

Lemma process_row_inv (c : columns) (st st' : state) (r : row) :
  process_row c st r = Ok st' ->
  st' = st \/
  (Z.max (brandColIndex c) (marketShareColIndex c) < len r /\
   truthy (get r (brandColIndex c)) = true /\
   subject st' = subject_step c r (get r (brandColIndex c)) (subject st) /\
   push_step (get r (brandColIndex c))
     (rescale (coerce (get r (marketShareColIndex c)))) (brokerages st)
   = Ok (brokerages st')).
Proof.
  unfold process_row.
  destruct (len r <=? Z.max _ _) eqn:El; [intros H; inversion H; now left|].
  destruct (negb (truthy _) || _) eqn:Eb; [intros H; inversion H; now left|].
  destruct (push_step _ _ _) as [bs|e] eqn:Ep; cbn [bind]; intros H; [|discriminate].
  inversion H. cbn [subject brokerages]. right.
  apply Z.leb_gt in El. apply orb_false_elim in Eb. destruct Eb as [Eb _].
  apply negb_false_iff in Eb. auto.
Qed.

Lemma process_row_numbers (c : columns) (st st' : state) (r : row) :
  process_row c st r = Ok st' ->
  Forall is_number (brokerages st) -> Forall is_number (brokerages st').
Proof.
  intros H Hst. apply process_row_inv in H.
  destruct H as [-> | (_ & _ & _ & Hp)]; [exact Hst|].
  apply push_step_inv in Hp. destruct Hp as [(_ & ->) | (x & _ & Hx & ->)]; [exact Hst|].
  apply Forall_app. split; [exact Hst|]. constructor; [|constructor].
  unfold is_number. cbn [marketShare]. now apply parse_toFixed1_not_NaN.
Qed.

Lemma process_rows_numbers (c : columns) (rows : sheet) : forall st st',
  process_rows c st rows = Ok st' ->
  Forall is_number (brokerages st) -> Forall is_number (brokerages st').
Proof.
  induction rows as [|r rows IH]; intros st st' H Hst; cbn [process_rows] in H.
  - inversion H; subst. exact Hst.
  - destruct (process_row c st r) as [st1|e] eqn:E; cbn [bind] in H; [|discriminate].
    eapply IH; eauto using process_row_numbers.
Qed.

(** *** Sorting *)

Lemma insert_cases (a b : brokerage) (l : list brokerage) :
  insert a (b :: l) =
  if lt (marketShare a) (marketShare b) then b :: insert a l else a :: b :: l.
Proof. cbn [insert]. unfold by_share_desc, zero. rewrite gt_sub_zero. reflexivity. Qed.

Lemma insert_numbers (a : brokerage) (l : list brokerage) :
  is_number a -> Forall is_number l -> Forall is_number (insert a l).
Proof.
  intros Ha Hl. induction Hl as [|b l Hb Hl IH]; [repeat constructor; exact Ha|].
  rewrite insert_cases. destruct (lt _ _); repeat constructor; auto.
Qed.

Lemma sort_numbers (l : list brokerage) :
  Forall is_number l -> Forall is_number (sort l).
Proof.
  induction 1 as [|a l Ha Hl IH]; cbn [sort fold_right]; [constructor|].
  now apply insert_numbers.
Qed.

Lemma insert_HdRel (a b : brokerage) (l : list brokerage) :
  HdRel share_ge b l -> share_ge b a -> HdRel share_ge b (insert a l).
Proof.
  intros Hl Hba. destruct l as [|c l]; [repeat constructor; exact Hba|].
  rewrite insert_cases. inversion Hl; subst.
  destruct (lt _ _); constructor; assumption.
Qed.

Lemma insert_sorted (a : brokerage) (l : list brokerage) :
  is_number a -> Forall is_number l ->
  Sorted share_ge l -> Sorted share_ge (insert a l).
Proof.
  intros Ha Hn Hs. induction Hs as [|b l Hs IH Hd]; [repeat constructor|].
  inversion Hn as [|? ? Hb Hn']; subst.
  rewrite insert_cases. destruct (lt (marketShare a) (marketShare b)) eqn:E.
  - constructor; [now apply IH|].
    apply insert_HdRel; [exact Hd|]. now apply ge_of_lt.
  - constructor; [now constructor|]. constructor.
    now apply ge_of_not_lt.
Qed.

Lemma sort_sorted (l : list brokerage) :
  Forall is_number l -> Sorted share_ge (sort l).
Proof.
  induction 1 as [|a l Ha Hl IH]; cbn [sort fold_right]; [constructor|].
  apply insert_sorted; auto. now apply sort_numbers.
Qed.

Lemma insert_length (a : brokerage) (l : list brokerage) :
  List.length (insert a l) = S (List.length l).
Proof.
  induction l as [|b l IH]; [reflexivity|].
  rewrite insert_cases. destruct (lt _ _); cbn [List.length]; congruence.
Qed.

Lemma sort_length (l : list brokerage) : List.length (sort l) = List.length l.
Proof.
  induction l as [|a l IH]; [reflexivity|].
  cbn [sort fold_right]. rewrite insert_length. cbn [List.length]. f_equal. exact IH.
Qed.

Lemma normalize_brand_share (b : brokerage) :
  marketShare (normalize_brand b) = marketShare b.
Proof.
  unfold normalize_brand.
  destruct (includes "sotheby" _), (_ || _); reflexivity.
Qed.

Lemma rank_sorted (bs : list brokerage) :
  Forall is_number bs -> Sorted share_ge (rank bs).
Proof.
  intros H. unfold rank. apply sort_sorted.
  apply Forall_map. apply sort_numbers in H.
  eapply Forall_impl; [|exact H].
  intros b Hb. unfold is_number. now rewrite normalize_brand_share.
Qed.

Lemma firstn_HdRel {A} (R : A -> A -> Prop) (a : A) (l : list A) (n : nat) :
  HdRel R a l -> HdRel R a (firstn n l).
Proof. intros H. destruct H, n; cbn [firstn]; constructor; assumption. Qed.

Lemma firstn_sorted {A} (R : A -> A -> Prop) (l : list A) : forall n,
  Sorted R l -> Sorted R (firstn n l).
Proof.
  induction l as [|a l IH]; intros n H; [destruct n; constructor|].
  destruct n; cbn [firstn]; [constructor|].
  inversion H; subst. constructor; [now apply IH | now apply firstn_HdRel].
Qed.

Lemma map_share_sorted (l : list brokerage) :
  Sorted share_ge l -> Sorted num_ge (map marketShare l).
Proof.
  induction 1 as [|a l Hs IH Hd]; cbn [map]; constructor; [exact IH|].
  destruct Hd; cbn [map]; constructor; assumption.
Qed.

(** What [rescale] leaves a number: itself, and then it was not above 1000 *)
Lemma rescale_number (y x : number) :
  rescale (Num y) = Num x ->
  x = y /\ (isNaN y = true \/ gt y (ofZ 100) = false \/ gt y (ofZ 1000) = false).
Proof.
  unfold rescale. cbn [isNaN_value to_number].
  destruct (isNaN y) eqn:En; cbn [negb].
  - intros H. inversion H. auto.
  - destruct (gt y (ofZ 100)) eqn:E1; [|intros H; inversion H; auto].
    destruct (gt y (ofZ 1000)) eqn:E2; [discriminate|].
    intros H; inversion H; auto.
Qed.




Lemma top3Sum_values (bs : list brokerage) :
  top3Sum bs = sum (firstn 3 (map marketShare (firstn 10 bs))).
Proof.
  unfold top3Sum, sum. rewrite <- firstn_map, firstn_firstn. cbn [Nat.min].
  rewrite firstn_map. generalize zero. induction (firstn 3 bs) as [|b l IH]; intros z.
  - reflexivity.
  - cbn [map fold_left]. apply IH.
Qed.

Lemma share_at_first (p : string -> bool) (names : list string) :
  forall (values : list number) (i : Z),
  List.length names = List.length values -> 0 <= i ->
  (if 0 <=? findIndex_from p i names
   then nth (Z.to_nat (findIndex_from p i names - i)) values NaN else zero)
  = or_zero (first_share p names values).
Proof.
  induction names as [|n names IH]; intros values i Hlen Hi.
  - reflexivity.
  - destruct values as [|v values]; [discriminate|]. cbn [findIndex_from first_share].
    destruct (p n).
    + rewrite Z.sub_diag. destruct (0 <=? i) eqn:E; [reflexivity | apply Z.leb_gt in E; lia].
    + cbn [List.length] in Hlen. injection Hlen as Hlen.
      rewrite <- (IH values (i + 1)) by (auto; lia).
      destruct (0 <=? findIndex_from p (i + 1) names) eqn:E; [|reflexivity].
      assert (Hge : i + 1 <= findIndex_from p (i + 1) names).
      { clear - E. revert i E. induction names as [|n' names IH]; intros i E.
        - discriminate.
        - cbn [findIndex_from] in *. destruct (p n'); [lia|].
          specialize (IH (i + 1) E). lia. }
      replace (Z.to_nat (findIndex_from p (i + 1) names - i))
        with (S (Z.to_nat (findIndex_from p (i + 1) names - (i + 1)))) by lia.
      reflexivity.
Qed.

Lemma share_at_findIndex (p : string -> bool) (names : list string) (values : list number) :
  List.length names = List.length values ->
  share_at (findIndex p names) values = or_zero (first_share p names values).
Proof.
  intros H. unfold share_at, findIndex.
  rewrite <- (share_at_first p names values 0 H ltac:(lia)). now rewrite Z.sub_0_r.
Qed.

Lemma rescale_above_1000 (x : number) :
  gt x (ofZ 1000) = true ->
  exists s, rescale (Num x) = Str s /\ isNaN (toNumber s) = false.
Proof.
  intros Hgt.
  assert (Hn : isNaN x = false) by (destruct x; [discriminate Hgt | reflexivity..]).
  assert (H100 : gt x (ofZ 100) = true).
  { destruct x as [|[]|m k]; try discriminate Hgt; [reflexivity|].
    unfold gt, ofZ in *. cbn [lt] in *. change (pow10 0) with 1 in *.
    apply Z.ltb_lt in Hgt. apply Z.ltb_lt. pose proof (pow10_pos k). lia. }
  unfold rescale. cbn [isNaN_value to_number]. rewrite Hn, H100, Hgt. cbn [negb].
  eexists. split; [reflexivity|]. apply toNumber_toFixed1_not_NaN.
  destruct x as [|[]|m k]; try discriminate Hn; try reflexivity.
  cbn [div1000]. pose proof (mkFin_fin m (k + 3)) as Hf.
  destruct (mkFin m (k + 3)); try discriminate Hf; reflexivity.
Qed.

Lemma process_row_throws (c : columns) (st : state) (r : row) (x : number) :
  Z.max (brandColIndex c) (marketShareColIndex c) < len r ->
  truthy (get r (brandColIndex c)) = true ->
  coerce (get r (marketShareColIndex c)) = Num x ->
  gt x (ofZ 1000) = true ->
  process_row c st r = Throw not_a_function.
Proof.
  intros Hlen Hb Hc Hgt. unfold process_row.
  apply Z.leb_gt in Hlen. rewrite Hlen, Hb. cbn [negb orb].
  assert (He : is_empty_string (get r (brandColIndex c)) = false).
  { destruct (get r (brandColIndex c)) as [|[|]|]; try reflexivity. discriminate Hb. }
  rewrite He, Hc.
  destruct (rescale_above_1000 x Hgt) as (s & -> & Hs).
  unfold push_step. cbn [isNaN_value]. rewrite Hs. reflexivity.
Qed.

(** The one exception a row can raise *)
Lemma process_row_error (c : columns) (st : state) (r : row) (e : error) :
  process_row c st r = Throw e -> e = not_a_function.
Proof.
  unfold process_row.
  destruct (len r <=? _); [discriminate|].
  destruct (negb _ || _); [discriminate|].
  unfold push_step.
  destruct (isNaN_value _) eqn:E; cbn [negb bind]; [discriminate|].
  destruct (rescale _) as [|s|x]; cbn [method_toFixed bind]; try discriminate.
  intros H. inversion H. reflexivity.
Qed.

Lemma process_rows_throws (c : columns) (r : row) (rows : sheet) :
  (forall st, process_row c st r = Throw not_a_function) ->
  forall (i : nat) (st : state),
    nth_error rows i = Some r -> process_rows c st rows = Throw not_a_function.
Proof.
  intros Hr. induction rows as [|r0 rows IH]; intros i st Hi.
  - destruct i; discriminate.
  - cbn [process_rows]. destruct i as [|i]; cbn [nth_error] in Hi.
    + inversion Hi; subst r0. rewrite Hr. reflexivity.
    + destruct (process_row c st r0) as [st1|e1] eqn:E; cbn [bind]; eauto.
      now rewrite (process_row_error _ _ _ _ E).
Qed.

(** Rows that are skipped: a row too short for the brand and share
    columns, or without a brand, leaves the state as it was; a row whose
    share is absent or is a text that does not read as a number adds no
    record. *)
Lemma process_row_skips (c : columns) (st : state) (r : row) :
  len r <= Z.max (brandColIndex c) (marketShareColIndex c) \/
  truthy (get r (brandColIndex c)) = false ->
  process_row c st r = Ok st.
Proof.
  intros [H | H]; unfold process_row.
  - apply Z.leb_le in H. now rewrite H.
  - destruct (len r <=? _); [reflexivity|]. now rewrite H.
Qed.

Lemma process_row_not_numeric (c : columns) (st : state) (r : row) :
  isNaN (to_number (coerce (get r (marketShareColIndex c)))) = true ->
  exists st', process_row c st r = Ok st' /\ brokerages st' = brokerages st.
Proof.
  intros Hn. unfold process_row.
  destruct (len r <=? _); [eauto|].
  destruct (negb _ || _); [eauto|].
  assert (Hr : isNaN_value (rescale (coerce (get r (marketShareColIndex c))))
               = true).
  { destruct (get r (marketShareColIndex c)) as [|s|x]; [reflexivity| |].
    - cbn [coerce to_number] in *. unfold rescale. cbn [isNaN_value].
      rewrite Hn. exact Hn.
    - cbn [coerce] in *. destruct (lt x (ofZ 1)); cbn [to_number] in Hn;
        unfold rescale; cbn [isNaN_value]; rewrite Hn; exact Hn. }
  unfold push_step. rewrite Hr. cbn [negb bind]. eauto.
Qed.

(** A row whose share, once coerced, is not above 1000 is processed
    without an exception. *)
Lemma process_row_returns (c : columns) (st : state) (r : row) :
  gt (to_number (coerce (get r (marketShareColIndex c)))) (ofZ 1000) = false ->
  exists st', process_row c st r = Ok st'.
Proof.
  intros Hle. unfold process_row.
  destruct (len r <=? _); [eauto|].
  destruct (negb _ || _); [eauto|].
  assert (Hr : rescale (coerce (get r (marketShareColIndex c)))
               = coerce (get r (marketShareColIndex c))).
  { unfold rescale. rewrite Hle.
    destruct (negb _); [destruct (gt _ (ofZ 100))|]; reflexivity. }
  rewrite Hr. unfold push_step.
  destruct (get r (marketShareColIndex c)) as [|s|x]; cbn [coerce].
  - cbn [isNaN_value negb bind]. eauto.
  - destruct (negb _); cbn [method_toFixed bind]; eauto.
  - destruct (lt x (ofZ 1)); destruct (negb _); cbn [method_toFixed bind]; eauto.
Qed.

Lemma process_rows_return (c : columns) (rows : sheet) :
  Forall (fun r =>
            gt (to_number (coerce (get r (marketShareColIndex c)))) (ofZ 1000)
            = false) rows ->
  forall st, exists st', process_rows c st rows = Ok st'.
Proof.
  induction 1 as [|r rows Hr _ IH]; intros st; cbn [process_rows]; [eauto|].
  destruct (process_row_returns c st r Hr) as (st1 & ->). cbn [bind]. apply IH.
Qed.

(** The call returns on every sheet none of whose data rows has a share
    above 1000 ... *)
Lemma extractMarketShareData_returns (data : sheet) :
  Forall (fun r =>
            gt (to_number
                  (coerce (get r (marketShareColIndex (detectColumns data)))))
               (ofZ 1000) = false) (tl data) ->
  exists out, extractMarketShareData data = Ok out.
Proof.
  intros H. unfold extractMarketShareData.
  destruct (process_rows_return _ _ H initial) as (st & ->). cbn [bind]. eauto.
Qed.

(** ... and when it does not return, it is with the one exception. *)
Lemma process_rows_error (c : columns) (rows : sheet) : forall st e,
  process_rows c st rows = Throw e -> e = not_a_function.
Proof.
  induction rows as [|r rows IH]; intros st e; cbn [process_rows]; [discriminate|].
  destruct (process_row c st r) as [st1|e1] eqn:E; cbn [bind].
  - apply IH.
  - intros H. inversion H; subst. now apply process_row_error in E.
Qed.

Lemma extractMarketShareData_outcome (data : sheet) :
  (exists out, extractMarketShareData data = Ok out) \/
  extractMarketShareData data = Throw not_a_function.
Proof.
  unfold extractMarketShareData.
  destruct (process_rows _ _ _) as [st|e] eqn:E; cbn [bind]; [eauto|].
  right. now rewrite (process_rows_error _ _ _ _ E).
Qed.

(** *** The claims *)

(** C1 (a defect of the code): a data row that reaches the coercion with a
    share above 1000 does not complete the call.  The share is divided by
    1000 and written with one decimal, but [toFixed] leaves a string in the
    variable; the string passes [isNaN], and line 339 calls [toFixed] on
    it, which throws.  No record is retained and the call ends with the
    exception. *)
Theorem C1_share_above_1000_throws
    (data : sheet) (i : nat) (r : row) (x : number) :
  nth_error (tl data) i = Some r ->
  Z.max (brandColIndex (detectColumns data))
        (marketShareColIndex (detectColumns data)) < len r ->
  truthy (get r (brandColIndex (detectColumns data))) = true ->
  coerce (get r (marketShareColIndex (detectColumns data))) = Num x ->
  gt x (ofZ 1000) = true ->
  extractMarketShareData data = Throw not_a_function.
Proof.
  intros Hi Hlen Hb Hc Hgt. unfold extractMarketShareData.
  rewrite (process_rows_throws (detectColumns data) r (tl data)
             (fun st => process_row_throws _ st r x Hlen Hb Hc Hgt) i initial Hi).
  reflexivity.
Qed.

Lemma C1_share_above_1000_throws_witness :
  rescale (Num (Fin 1560 0)) = Str "1.6" /\
  extractMarketShareData C1_sheet = Throw not_a_function.
Proof.
  split; [reflexivity|].
  apply (C1_share_above_1000_throws C1_sheet 0
           (row_M (Str "Acme Realty") (Num (Fin 1560 0))) (Fin 1560 0));
    reflexivity.
Defined.

(** C2 (a defect of the code): on a sheet where rows without brand, short
    rows and rows with a share that is not numeric are skipped as the claim
    says, one row whose share reads 1560 ends the whole call with an
    exception; without that row the same sheet is ranked. *)
Theorem C2_out_of_range_row_aborts :
  extractMarketShareData C2_sheet = Throw not_a_function /\
  exists out : output,
    extractMarketShareData C2_sheet_in_range = Ok out /\
    labels out = ["Russ Lyon Sotheby's International Realty"; "HomeSmart"] /\
    dataValues out = [Fin 156 1; Fin 9 0].
Proof.
  split; [vm_compute; reflexivity|].
  eexists. split; [vm_compute; reflexivity|]. split; reflexivity.
Qed.

(** C3 as stated fails: with accepted shares 50, 20, 10 and 5 the summary
    reads 80.0, the sum of the top three, where the claim has 94.1. *)
Lemma C3_counterexample : ~ C3_as_stated.
Proof.
  intros H.
  specialize (H C3_sheet
    {| brokerages := [ {| brand := "Alpha"; marketShare := Fin 50 0 |};
                       {| brand := "Beta"; marketShare := Fin 20 0 |};
                       {| brand := "Gamma"; marketShare := Fin 10 0 |};
                       {| brand := "Delta"; marketShare := Fin 5 0 |} ];
       subject := no_metrics |}).
  vm_compute in H. specialize (H eq_refl ltac:(discriminate)). discriminate H.
Qed.

(** C3 (a defect of the code): whenever the call returns, the figure in the
    fourth line of the ranker's summary is the sum of the first three
    values of the ranked output, written with one decimal; the division by
    the sum of all shares, which the claim has and which the template of
    the same repository performs on the same values, is missing. *)
Theorem C3_top3_is_plain_sum (data : sheet) (out : output) :
  extractMarketShareData data = Ok out ->
  nth 3 (summary (insights out)) "" = top3_line (sum (firstn 3 (dataValues out))).
Proof.
  unfold extractMarketShareData.
  destruct (process_rows _ _ _) as [st|e]; cbn [bind]; intros H; [|discriminate].
  inversion H; subst out. cbn [finish insights make_insights summary nth dataValues].
  unfold top3_line. now rewrite top3Sum_values.
Qed.

(** On the shares 50, 20, 10 and 5 the ranker prints 80.0, the claim has
    94.1, and so has the third line of the template, with the quotient
    taken to twenty decimals. *)
Lemma C3_top3_is_plain_sum_witness :
  exists out : output,
    extractMarketShareData C3_sheet = Ok out /\
    nth 3 (summary (insights out)) "" =
    "Top 3 brokerages control 80.0% of the market" /\
    top3_line (spec_top3Concentration (dataValues out)) =
    "Top 3 brokerages control 94.1% of the market" /\
    exists t : Templates.template,
      Templates.applyTemplate Notions.quotient20 (labels out) (dataValues out)
        Templates.MARKET_SHARE = Ok t /\
      nth 2 (Templates.t_summary (Templates.t_insights t)) "" =
      "Top 3 brokerages control 94.1% of the market".
Proof.
  eexists. split; [vm_compute; reflexivity|]. split.
  - rewrite (C3_top3_is_plain_sum C3_sheet _ ltac:(vm_compute; reflexivity)).
    reflexivity.
  - split; [vm_compute; reflexivity|].
    eexists. split; vm_compute; reflexivity.
Defined.

(** C4 as stated fails: with Sotheby's at 15.6, Compass at 12.0 and
    HomeSmart at 9.0 the gap of the code is 6.6, taken against HomeSmart,
    where the claim has 3.6, taken against Compass. *)
Lemma C4_counterexample : ~ C4_as_stated.
Proof.
  intros H.
  destruct (extractMarketShareData C4_sheet) as [out|e] eqn:E; [|vm_compute in E; discriminate E].
  specialize (H C4_sheet out "3.6" E).
  vm_compute in E. inversion E; subst out. vm_compute in H.
  specialize (H eq_refl). discriminate H.
Qed.

(** C4 (a defect of the code): whenever the call returns, the second line of
    the ranker's summary is built from the share of the first label that
    contains "Sotheby's" and the share of the first label that is
    "HomeSmart", each 0 when there is no such label among the ranked ten.
    The runner-up is taken to be HomeSmart, whatever is ranked highest
    after the subject; the template of the same repository takes the
    highest-ranked other record, as the claim has it. *)
Theorem C4_gap_is_against_HomeSmart (data : sheet) (out : output) :
  extractMarketShareData data = Ok out ->
  nth 1 (summary (insights out)) "" =
  gap_line (or_zero (first_share is_subject (labels out) (dataValues out)))
           (or_zero (first_share is_HomeSmart (labels out) (dataValues out))).
Proof.
  unfold extractMarketShareData.
  destruct (process_rows _ _ _) as [st|e]; cbn [bind]; intros H; [|discriminate].
  inversion H; subst out. cbn [finish insights make_insights summary nth dataValues labels].
  unfold gap_line, sharePointDiff, sothebysShare, homeSmartShare.
  rewrite !share_at_findIndex by now rewrite !length_map.
  reflexivity.
Qed.

(** With Sotheby's at 15.6, Compass at 12.0 and HomeSmart at 9.0 the ranker
    prints 6.6 against HomeSmart, where the claim and the template have
    3.6; with Sotheby's at 10 behind Compass at 30 it prints a leading
    position, where the claim has -20.0. *)
Lemma C4_gap_is_against_HomeSmart_witness :
  (exists out : output,
     extractMarketShareData C4_sheet = Ok out /\
     labels out =
       ["Russ Lyon Sotheby's International Realty"; "Compass"; "HomeSmart"] /\
     nth 1 (summary (insights out)) "" =
     "6.6 percentage points ahead of nearest competitor (HomeSmart at 9.0%)" /\
     spec_gap (labels out) (dataValues out) = Some "3.6" /\
     Templates.valueGap (Templates.sortedData (labels out) (dataValues out))
     = Str "3.6") /\
  (exists out : output,
     extractMarketShareData Notions.trailing_sheet = Ok out /\
     labels out = ["Compass"; "Russ Lyon Sotheby's International Realty"] /\
     nth 1 (summary (insights out)) "" = "Leading position in the market" /\
     spec_gap (labels out) (dataValues out) = Some "-20.0").
Proof.
  split.
  - eexists. split; [vm_compute; reflexivity|]. split; [reflexivity|]. split.
    + rewrite (C4_gap_is_against_HomeSmart C4_sheet _
                 ltac:(vm_compute; reflexivity)).
      reflexivity.
    + split; vm_compute; reflexivity.
  - eexists. split; [vm_compute; reflexivity|]. split; [reflexivity|]. split.
    + rewrite (C4_gap_is_against_HomeSmart Notions.trailing_sheet _
                 ltac:(vm_compute; reflexivity)).
      reflexivity.
    + vm_compute; reflexivity.
Defined.

(** C6: when the call returns, the labels and the values of the ranked
    output have the same length, at most 10, and each value is greater than
    or equal to the next. *)
Theorem C6_ranked_output_shape (data : sheet) (out : output) :
  extractMarketShareData data = Ok out ->
  List.length (labels out) = List.length (dataValues out) /\
  (List.length (labels out) <= 10)%nat /\
  Sorted num_ge (dataValues out).
Proof.
  unfold extractMarketShareData.
  destruct (process_rows _ _ _) as [st|e] eqn:E; cbn [bind]; intros H; [|discriminate].
  inversion H; subst out. cbn [finish labels dataValues].
  rewrite !length_map. repeat split.
  - apply firstn_le_length.
  - apply map_share_sorted, firstn_sorted, rank_sorted.
    eapply process_rows_numbers; [exact E | constructor].
Qed.

Lemma C6_ranked_output_shape_witness :
  exists out : output,
    extractMarketShareData C4_sheet = Ok out /\
    dataValues out = [Fin 156 1; Fin 12 0; Fin 9 0] /\
    List.length (labels out) = List.length (dataValues out) /\
    (List.length (labels out) <= 10)%nat /\
    Sorted num_ge (dataValues out).
Proof.
  eexists. split; [vm_compute; reflexivity|]. split; [reflexivity|].
  apply (C6_ranked_output_shape C4_sheet). vm_compute; reflexivity.
Defined.





(** C9: on a sheet with nothing after the header row (and on the empty
    sheet) the call returns, with no labels, no values, every metric at
    its default zero and the two optional fields left out. *)
Theorem C9_no_data_rows :
  forall data : sheet,
    tl data = [] ->
    exists out : output,
      extractMarketShareData data = Ok out /\
      labels out = [] /\ dataValues out = [] /\
      additionalMetrics out = default_metrics.
Proof.
  intros data Hdata. unfold extractMarketShareData.
  rewrite Hdata. simpl process_rows. cbn [bind].
  eexists. split; [reflexivity|].
  repeat split.
Qed.

Lemma C9_no_data_rows_witness :
  exists out : output,
    extractMarketShareData [[Str ""; Str "Brand"]] = Ok out /\
    labels out = [] /\ dataValues out = [] /\
    additionalMetrics out = default_metrics.
Proof.
  apply (C9_no_data_rows [[Str ""; Str "Brand"]]). reflexivity.
Defined.

(** C10: a row no longer than [max(totalSalesColIndex, avgPriceColIndex,
    domColIndex)] leaves all seven metrics as they were, whatever its brand
    and whatever it holds at the mapped columns; when it is long enough for
    the ranking and its share is a number, it still adds its record. *)
Theorem C10_short_subject_row (c : columns) (st : state) (r : row) :
  len r <= metrics_width c ->
  (forall st', process_row c st r = Ok st' -> subject st' = subject st) /\
  (forall x,
     Z.max (brandColIndex c) (marketShareColIndex c) < len r ->
     truthy (get r (brandColIndex c)) = true ->
     rescale (coerce (get r (marketShareColIndex c))) = Num x ->
     isNaN x = false ->
     process_row c st r =
     Ok {| brokerages :=
             (brokerages st ++
              [ {| brand := trim (value_toString (get r (brandColIndex c)));
                   marketShare := parseFloat (toFixed x 1) |} ])%list;
           subject := subject st |}).
Proof.
  intros Hshort.
  assert (Hstep : forall b m, subject_step c r b m = m).
  { intros b m. unfold subject_step.
    assert (E : (metrics_width c <? len r) = false) by (apply Z.ltb_ge; lia).
    rewrite E, andb_false_r. reflexivity. }
  split.
  - intros st' H. apply process_row_inv in H.
    destruct H as [-> | (_ & _ & H & _)]; [reflexivity|]. now rewrite H, Hstep.
  - intros x Hlen Hb Hx Hn. unfold process_row.
    apply Z.leb_gt in Hlen. rewrite Hlen, Hb. cbn [negb orb].
    assert (He : is_empty_string (get r (brandColIndex c)) = false).
    { destruct (get r (brandColIndex c)) as [|[|]|]; try reflexivity. discriminate Hb. }
    rewrite He, Hx, Hstep. unfold push_step. cbn [isNaN_value]. rewrite Hn. reflexivity.
Qed.

Lemma C10_short_subject_row_witness :
  includes "sotheby"
    (toLowerCase (value_toString (get C10_row (brandColIndex C10_columns))))
  = true /\
  get C10_row (totalSalesColIndex C10_columns) = Num (Fin 42 0) /\
  process_row C10_columns initial C10_row =
  Ok {| brokerages := [ {| brand := "Russ Lyon Sotheby's"; marketShare := Fin 156 1 |} ];
        subject := no_metrics |}.
Proof.
  split; [reflexivity|]. split; [reflexivity|].
  apply (proj2 (C10_short_subject_row C10_columns initial C10_row ltac:(vm_compute; discriminate))
           (Fin 156 1)); reflexivity.
Defined.

End RankerFacts.

(** ** Further facts about the schema detector *)

Module DetectorMore.
Import Detector Stated Notions JSFacts DetectorFacts.

Lemma mkt_text_true (c : columns) (r : row) :
  mkt_text r = true -> marketShareColIndex (scan_row c r) = 8.
Proof.
  intros H. unfold mkt_text in H. apply andb_prop in H. destruct H as [Hl Ht].
  unfold scan_row.
  assert (E : marketShareColIndex (check_column_I r c) = 8).
  { unfold check_column_I. rewrite Hl.
    destruct (header_text (get r 8)) as [t|]; [|discriminate]. now rewrite Ht. }
  rewrite check_column_M_locked by exact E.
  rewrite scan_cells_marketShare; [exact E | now left].
Qed.

Lemma mkt_text_false (r : row) : mkt_text r = false -> no_mkt_text r.
Proof.
  intros H c. unfold mkt_text in H. unfold check_column_I.
  destruct (8 <? len r); [|reflexivity]. cbn [andb] in H.
  destruct (header_text (get r 8)) as [t|]; [|reflexivity]. now rewrite H.
Qed.

(** X1: the share column that the detector settles on is column I (index 8)
    when one of the first ten rows has, in its ninth cell, a text that
    reads "mkt %" or contains "market" and "%"; in every other case it is
    column M (index 12), whatever the headers say. *)
Theorem X1_share_column_choice (data : sheet) :
  marketShareColIndex (detectColumns data)
  = if existsb mkt_text (firstn 10 data) then 8 else 12.
Proof.
  unfold detectColumns.
  assert (Hd : marketShareColIndex defaults = 12) by reflexivity.
  revert Hd. generalize defaults. generalize (firstn 10 data). clear data.
  intros rows. induction rows as [|r rows IH]; intros c Hc;
    cbn [fold_left existsb]; [exact Hc|].
  destruct (mkt_text r) eqn:E; cbn [orb].
  - apply scan_rows_locked. now apply mkt_text_true.
  - apply IH. apply (scan_rows_default [r] c); [|exact Hc].
    constructor; [now apply mkt_text_false | constructor].
Qed.


Lemma scan_cell_field (f : field) (j : Z) (v : value) (c : columns) :
  index_of f (scan_cell j v c) = if is_header f v then j else index_of f c.
Proof.
  unfold is_header, scan_cell. destruct (header_text v) as [t|]; [|reflexivity].
  set (c8 := when (is_contributingAgents t) _ _ _).
  assert (E : index_of f c8 = if rule_of f t then j else index_of f c).
  { subst c8. unfold when.
    destruct f; cbn [rule_of index_of];
      destruct (is_brand t), (is_totalSales t), (is_avgPrice t), (is_dom t),
        (is_pricePerSqft t), (is_closedListRatio t), (is_totalOffices t),
        (is_contributingAgents t); reflexivity. }
  clearbody c8. rewrite <- E.
  destruct (_ && _); [|reflexivity].
  unfold when. destruct (is_marketShare t); [|reflexivity].
  destruct f; reflexivity.
Qed.

Lemma check_columns_field (f : field) (r : row) (c : columns) :
  index_of f (check_column_M r (check_column_I r c)) = index_of f c.
Proof.
  assert (HM : forall c', index_of f (check_column_M r c') = index_of f c').
  { intros c'. unfold check_column_M. destruct (_ && _); [|reflexivity].
    destruct (header_text _); [|reflexivity].
    destruct (_ || _); [|reflexivity]. destruct f; reflexivity. }
  rewrite HM. unfold check_column_I. destruct (8 <? len r); [|reflexivity].
  destruct (header_text _); [|reflexivity].
  destruct (_ || _); [|reflexivity]. destruct f; reflexivity.
Qed.

Lemma scan_cells_no_header (f : field) (cells : row) : forall j c,
  no_header f cells = true -> index_of f (scan_cells j cells c) = index_of f c.
Proof.
  induction cells as [|v cells IH]; intros j c H; [reflexivity|].
  cbn [no_header forallb scan_cells] in *. apply andb_prop in H. destruct H as [Hv H].
  rewrite (IH (j + 1) _ H), scan_cell_field.
  apply negb_true_iff in Hv. now rewrite Hv.
Qed.

Lemma scan_cells_last (f : field) (cells1 : row) : forall j v cells2 c,
  is_header f v = true -> no_header f cells2 = true ->
  index_of f (scan_cells j (cells1 ++ v :: cells2)%list c)
  = j + Z.of_nat (List.length cells1).
Proof.
  induction cells1 as [|u cells1 IH]; intros j v cells2 c Hv H2.
  - cbn [app scan_cells List.length]. rewrite (scan_cells_no_header f _ _ _ H2).
    rewrite scan_cell_field, Hv. cbn. lia.
  - cbn [app scan_cells]. rewrite (IH (j + 1) v cells2 _ Hv H2).
    cbn [List.length]. lia.
Qed.

Lemma scan_row_no_header (f : field) (c : columns) (r : row) :
  no_header f r = true -> index_of f (scan_row c r) = index_of f c.
Proof.
  intros H. unfold scan_row.
  now rewrite (scan_cells_no_header f r 0 _ H), check_columns_field.
Qed.

Lemma scan_rows_no_header (f : field) (rows : sheet) : forall c,
  forallb (no_header f) rows = true ->
  index_of f (fold_left scan_row rows c) = index_of f c.
Proof.
  induction rows as [|r rows IH]; intros c H; [reflexivity|].
  cbn [forallb fold_left] in *. apply andb_prop in H. destruct H as [Hr H].
  now rewrite (IH _ H), scan_row_no_header.
Qed.

(** X2: a column that no header cell of the first ten rows names keeps its
    default index. *)
Theorem X2_field_default (f : field) (data : sheet) :
  forallb (no_header f) (firstn 10 data) = true ->
  index_of f (detectColumns data) = index_of f defaults.
Proof. intros H. now apply scan_rows_no_header. Qed.

(** X3: when header cells of the first ten rows name a column, the last of
    them in reading order decides: the index of the column is the position
    of that cell in its row. *)
Theorem X3_last_header_wins
    (f : field) (data pre post : sheet) (cells1 cells2 : row) (v : value) :
  firstn 10 data = (pre ++ (cells1 ++ v :: cells2) :: post)%list ->
  is_header f v = true ->
  no_header f cells2 = true ->
  forallb (no_header f) post = true ->
  index_of f (detectColumns data) = Z.of_nat (List.length cells1).
Proof.
  intros Hd Hv H2 Hpost. unfold detectColumns. rewrite Hd.
  rewrite fold_left_app. cbn [fold_left].
  rewrite (scan_rows_no_header f post _ Hpost). unfold scan_row.
  now rewrite (scan_cells_last f cells1 0 v cells2 _ Hv H2).
Qed.

Lemma X2_field_default_witness :
  forallb (no_header TotalOffices) (firstn 10 C4_sheet) = true /\
  index_of TotalOffices (detectColumns C4_sheet) = index_of TotalOffices defaults.
Proof.
  split; [vm_compute; reflexivity|].
  apply (X2_field_default TotalOffices C4_sheet). vm_compute; reflexivity.
Defined.

Lemma X3_last_header_wins_witness :
  index_of Brand (detectColumns [sample_header]) = 2.
Proof.
  apply (X3_last_header_wins Brand [sample_header] [] []
           [Str "Rank"; Str "Office Name"] [Str "Total $ Volume"] (Str "Brand"));
    reflexivity.
Defined.

End DetectorMore.

(** ** Further facts about the ranker *)

Module RankerMore.
Import Detector Ranker Stated Notions JSFacts DetectorFacts RankerFacts.

Lemma coerce_number (v : value) :
  coerce v = Undefined \/ exists x, coerce v = Num x.
Proof.
  destruct v as [|s|x]; cbn [coerce]; eauto. destruct (lt x (ofZ 1)); eauto.
Qed.

Lemma aborts_throws (c : columns) (st : state) (r : row) :
  aborts c r = true -> process_row c st r = Throw not_a_function.
Proof.
  unfold aborts. intros H. apply andb_prop in H. destruct H as [H Hgt].
  apply andb_prop in H. destruct H as [Hlen Hb]. apply Z.ltb_lt in Hlen.
  destruct (coerce_number (get r (marketShareColIndex c))) as [E | (x & E)].
  - rewrite E in Hgt. discriminate Hgt.
  - rewrite E in Hgt. cbn [to_number] in Hgt.
    now apply (process_row_throws c st r x).
Qed.

Lemma not_aborts_returns (c : columns) (st : state) (r : row) :
  aborts c r = false -> exists st', process_row c st r = Ok st'.
Proof.
  unfold aborts. intros H.
  destruct (gt (to_number (coerce (get r (marketShareColIndex c)))) (ofZ 1000)) eqn:Eg.
  - rewrite andb_true_r in H. apply andb_false_elim in H. destruct H as [H | H].
    + exists st. apply process_row_skips. left. apply Z.ltb_ge in H. lia.
    + exists st. apply process_row_skips. now right.
  - now apply process_row_returns.
Qed.

Lemma process_rows_outcome (c : columns) (rows : sheet) : forall st,
  if existsb (aborts c) rows
  then process_rows c st rows = Throw not_a_function
  else exists st', process_rows c st rows = Ok st'.
Proof.
  induction rows as [|r rows IH]; intros st; cbn [existsb process_rows]; [eauto|].
  destruct (aborts c r) eqn:E; cbn [orb].
  - now rewrite aborts_throws.
  - destruct (not_aborts_returns c st r E) as (st1 & ->). cbn [bind]. apply IH.
Qed.

Lemma clearly_aborts_aborts (c : columns) (r : row) :
  clearly_aborts c r = true -> aborts c r = true.
Proof.
  unfold clearly_aborts, aborts. intros H. apply andb_prop in H.
  destruct H as [-> Hgt]. cbn [andb].
  destruct (to_number (coerce (get r (marketShareColIndex c)))) as [|[]|m k];
    try discriminate Hgt; try reflexivity.
  unfold gt, ofZ in *. cbn [lt] in *. change (pow10 0) with 1 in *.
  change (pow10 9) with 1000000000 in Hgt.
  apply Z.ltb_lt in Hgt. apply Z.ltb_lt. pose proof (pow10_pos k). lia.
Qed.

(** X4: on a sheet whose cells are texts, numbers or holes, the call throws
    when some data row has enough cells, a brand, and a share that reads
    above 1000 by more than 10^-9; and it returns when no such row has a
    share that reads above 1000. *)
Theorem X4_throws_or_returns (data : sheet) :
  (existsb (clearly_aborts (detectColumns data)) (tl data) = true ->
   extractMarketShareData data = Throw not_a_function) /\
  (existsb (aborts (detectColumns data)) (tl data) = false ->
   exists out, extractMarketShareData data = Ok out).
Proof.
  unfold extractMarketShareData.
  pose proof (process_rows_outcome (detectColumns data) (tl data) initial) as H.
  split; intros E.
  - assert (Ea : existsb (aborts (detectColumns data)) (tl data) = true).
    { apply existsb_exists in E. destruct E as (r & Hr & Hc).
      apply existsb_exists. exists r. split; [exact Hr|].
      now apply clearly_aborts_aborts. }
    rewrite Ea in H. now rewrite H.
  - rewrite E in H. destruct H as (st & ->). cbn [bind]. eauto.
Qed.

Lemma X4_throws_or_returns_witness :
  extractMarketShareData C1_sheet = Throw not_a_function /\
  exists out, extractMarketShareData C4_sheet = Ok out.
Proof.
  split.
  - apply (proj1 (X4_throws_or_returns C1_sheet)). vm_compute; reflexivity.
  - apply (proj2 (X4_throws_or_returns C4_sheet)). vm_compute; reflexivity.
Defined.

(** *** Ranking *)
Lemma insert_perm (a : brokerage) (l : list brokerage) :
  Permutation (insert a l) (a :: l).
Proof.
  induction l as [|b l IH]; [reflexivity|].
  rewrite insert_cases. destruct (lt _ _); [|reflexivity].
  rewrite IH. apply perm_swap.
Qed.

Lemma sort_perm (l : list brokerage) : Permutation (sort l) l.
Proof.
  induction l as [|a l IH]; [reflexivity|].
  cbn [sort fold_right]. rewrite insert_perm. now constructor.
Qed.

Lemma rank_perm (bs : list brokerage) :
  Permutation (rank bs) (map normalize_brand bs).
Proof.
  unfold rank. rewrite sort_perm. apply Permutation_map, sort_perm.
Qed.

(** X5: ranking neither drops nor invents a record: the ranked array is a
    rearrangement of the accepted records with their brands normalised. *)
Theorem X5_rank_permutes (bs : list brokerage) :
  Permutation (rank bs) (map normalize_brand bs) /\
  List.length (rank bs) = List.length bs.
Proof.
  split; [apply rank_perm|].
  rewrite (Permutation_length (rank_perm bs)). apply length_map.
Qed.

Lemma sort_fixed (l : list brokerage) :
  Forall is_number l -> Sorted share_ge l -> sort l = l.
Proof.
  intros Hn Hs. induction Hs as [|a l Hs IH Hd]; [reflexivity|].
  inversion Hn as [|? ? Ha Hl]; subst.
  cbn [sort fold_right]. fold (sort l). rewrite (IH Hl).
  destruct Hd as [|b l Hab]; [reflexivity|].
  rewrite insert_cases. unfold share_ge, ge in Hab.
  inversion Hl as [|? ? Hb _]; subst. unfold is_number in Ha, Hb.
  destruct (marketShare a), (marketShare b); try discriminate;
    apply negb_true_iff in Hab; rewrite Hab; reflexivity.
Qed.

Lemma normalize_brand_cases (b : brokerage) :
  normalize_brand b = b \/
  normalize_brand b
  = {| brand := "Russ Lyon Sotheby's International Realty";
       marketShare := marketShare b |} \/
  normalize_brand b = {| brand := "HomeSmart"; marketShare := marketShare b |}.
Proof.
  unfold normalize_brand.
  destruct (includes "sotheby" _), (_ || _); cbn [marketShare]; auto.
Qed.

Lemma normalize_brand_twice (b : brokerage) :
  normalize_brand (normalize_brand b) = normalize_brand b.
Proof.
  destruct (normalize_brand_cases b) as [E | [E | E]].
  - now rewrite !E.
  - rewrite E. reflexivity.
  - rewrite E. reflexivity.
Qed.

Lemma rank_numbers (bs : list brokerage) :
  Forall is_number bs -> Forall is_number (rank bs).
Proof.
  intros H. unfold rank. apply sort_numbers, Forall_map.
  apply sort_numbers in H. eapply Forall_impl; [|exact H].
  intros b Hb. unfold is_number. now rewrite normalize_brand_share.
Qed.

(** X6: ranking records whose shares are numbers a second time changes
    nothing. *)
Theorem X6_rank_idempotent (bs : list brokerage) :
  Forall is_number bs -> rank (rank bs) = rank bs.
Proof.
  intros H. pose proof (rank_numbers bs H) as Hn.
  pose proof (rank_sorted bs H) as Hs.
  unfold rank at 1. rewrite (sort_fixed _ Hn Hs).
  assert (E : map normalize_brand (rank bs) = rank bs).
  { rewrite <- (map_id (rank bs)) at 2. apply map_ext_in. intros b Hb.
    apply (Permutation_in _ (rank_perm bs)) in Hb.
    apply in_map_iff in Hb. destruct Hb as (b0 & <- & _).
    apply normalize_brand_twice. }
  rewrite E. now apply sort_fixed.
Qed.

(** *** Text *)
Lemma prefix_lower (p s : string) :
  prefix p s = true -> prefix (toLowerCase p) (toLowerCase s) = true.
Proof.
  revert s. induction p as [|a p IH]; intros s H; [now destruct s|].
  destruct s as [|b s]; [discriminate|]. cbn [prefix toLowerCase] in *.
  destruct (ascii_dec a b) as [->|]; [|discriminate].
  destruct (ascii_dec (lower_char b) (lower_char b)); [now apply IH | congruence].
Qed.

Lemma includes_lower (p s : string) :
  includes p s = true -> includes (toLowerCase p) (toLowerCase s) = true.
Proof.
  induction s as [|b s IH]; cbn [includes toLowerCase].
  - destruct (prefix p "") eqn:E; [|discriminate]. intros _.
    apply prefix_lower in E. cbn [toLowerCase] in E. now rewrite E.
  - destruct (prefix p (String b s)) eqn:E.
    + intros _. apply prefix_lower in E. cbn [toLowerCase] in E. now rewrite E.
    + intros H. rewrite (IH H). destruct (prefix (toLowerCase p) _); reflexivity.
Qed.

Lemma prefix_app (p q s : string) :
  prefix (p ++ q) s = true -> prefix p s = true.
Proof.
  revert s. induction p as [|a p IH]; intros s H; [now destruct s|].
  destruct s as [|b s]; [discriminate|]. cbn [append prefix] in *.
  destruct (ascii_dec a b); [now apply IH | discriminate].
Qed.

Lemma includes_app (p q s : string) :
  includes (p ++ q) s = true -> includes p s = true.
Proof.
  induction s as [|b s IH]; cbn [includes].
  - destruct (prefix (p ++ q) "") eqn:E; [|discriminate]. intros _.
    now rewrite (prefix_app _ _ _ E).
  - destruct (prefix (p ++ q) (String b s)) eqn:E.
    + intros _. now rewrite (prefix_app _ _ _ E).
    + intros H. rewrite (IH H). destruct (prefix p _); reflexivity.
Qed.

(** A text that contains "Sotheby's" contains "sotheby" once lower-cased. *)
Lemma sothebys_lower (s : string) :
  includes "Sotheby's" s = true -> includes "sotheby" (toLowerCase s) = true.
Proof.
  intros H. apply includes_lower in H.
  now apply (includes_app "sotheby" "'s").
Qed.

Lemma normalize_brand_sothebys (b : brokerage) :
  includes "sotheby" (toLowerCase (brand (normalize_brand b))) = true ->
  brand (normalize_brand b) = sothebys_label.
Proof.
  unfold normalize_brand.
  destruct (includes "sotheby" (toLowerCase (brand b))) eqn:E1;
    destruct (_ || _) eqn:E2; cbn [brand]; try reflexivity; try discriminate.
  congruence.
Qed.

Lemma normalize_brand_homesmart (b : brokerage) :
  includes "homesmart" (toLowerCase (brand (normalize_brand b))) = true ->
  brand (normalize_brand b) = "HomeSmart".
Proof.
  unfold normalize_brand.
  destruct (includes "sotheby" (toLowerCase (brand b))) eqn:E1;
    destruct (includes "homesmart" (toLowerCase (brand b))
              || includes "home smart" (toLowerCase (brand b))) eqn:E2;
    cbn [brand]; try reflexivity; try discriminate.
  intros H. apply orb_false_elim in E2. destruct E2 as [E2 _]. congruence.
Qed.

Lemma In_firstn {A : Type} (n : nat) (l : list A) (x : A) :
  In x (firstn n l) -> In x l.
Proof.
  intros H. rewrite <- (firstn_skipn n l). apply in_or_app. now left.
Qed.

Lemma label_source (st : state) (l : string) :
  In l (labels (finish st)) ->
  exists b, l = brand (normalize_brand b).
Proof.
  cbn [finish labels]. intros H. apply in_map_iff in H.
  destruct H as (b & <- & Hb). apply In_firstn in Hb.
  apply (Permutation_in _ (rank_perm (brokerages st))) in Hb.
  apply in_map_iff in Hb. destruct Hb as (b0 & <- & _). eauto.
Qed.

(** X7: in a returned output a label that contains "Sotheby's" is the
    canonical Sotheby's name, and a label that contains "homesmart" in any
    letter case is "HomeSmart". *)
Theorem X7_canonical_labels (data : sheet) (out : output) (l : string) :
  extractMarketShareData data = Ok out ->
  In l (labels out) ->
  (includes "Sotheby's" l = true -> l = sothebys_label) /\
  (includes "homesmart" (toLowerCase l) = true -> l = "HomeSmart").
Proof.
  unfold extractMarketShareData.
  destruct (process_rows _ _ _) as [st|e]; cbn [bind]; intros H; [|discriminate].
  inversion H; subst out. intros Hl.
  destruct (label_source st l Hl) as (b & ->). split.
  - intros Hs. now apply normalize_brand_sothebys, sothebys_lower.
  - apply normalize_brand_homesmart.
Qed.

(** *** Metrics *)
Lemma process_row_other_brand (c : columns) (st st' : state) (r : row) :
  sothebys_row c r = false ->
  process_row c st r = Ok st' -> subject st' = subject st.
Proof.
  intros Hb H. apply process_row_inv in H.
  destruct H as [-> | (_ & _ & H & _)]; [reflexivity|].
  rewrite H. unfold subject_step. unfold sothebys_row in Hb. now rewrite Hb.
Qed.

Lemma process_rows_other_brands (c : columns) (rows : sheet) : forall st st',
  existsb (sothebys_row c) rows = false ->
  process_rows c st rows = Ok st' -> subject st' = subject st.
Proof.
  induction rows as [|r rows IH]; intros st st' Hb H; cbn [process_rows existsb] in *.
  - now inversion H.
  - apply orb_false_elim in Hb. destruct Hb as [Hr Hb].
    destruct (process_row c st r) as [st1|e] eqn:E; cbn [bind] in H; [|discriminate].
    rewrite (IH _ _ Hb H). now apply (process_row_other_brand c st st1 r).
Qed.

(** X9: on a sheet none of whose data rows has a brand cell that names
    Sotheby's, the additional metrics of the output are the defaults. *)
Theorem X9_metrics_need_a_sothebys_row (data : sheet) (out : output) :
  existsb (sothebys_row (detectColumns data)) (tl data) = false ->
  extractMarketShareData data = Ok out ->
  additionalMetrics out = default_metrics.
Proof.
  intros Hb. unfold extractMarketShareData.
  destruct (process_rows _ _ _) as [st|e] eqn:E; cbn [bind]; intros H; [|discriminate].
  inversion H; subst out. cbn [finish additionalMetrics].
  now rewrite (process_rows_other_brands _ _ _ _ Hb E).
Qed.

(** *** Colours *)
Lemma color_blue (l : string) (i : Z) :
  (color l i =? "#002349")%string = includes "Sotheby's" l.
Proof.
  unfold color. destruct (includes "Sotheby's" l); reflexivity.
Qed.

Lemma colors_from_nth (names : list string) : forall (i : Z) (n : nat),
  nth_error (colors_from i names) n
  = option_map (fun l => color l (i + Z.of_nat n)) (nth_error names n).
Proof.
  induction names as [|l names IH]; intros i n.
  - now destruct n.
  - destruct n as [|n]; cbn [colors_from nth_error option_map].
    + now rewrite Z.add_0_r.
    + rewrite IH. destruct (nth_error names n); cbn [option_map]; [|reflexivity].
      do 2 f_equal. lia.
Qed.

(** X10: the colours run parallel to the labels, and a bar is Sotheby's
    blue exactly when its label is the canonical Sotheby's name. *)
Theorem X10_only_sothebys_is_blue (data : sheet) (out : output) (n : nat) (l : string) :
  extractMarketShareData data = Ok out ->
  nth_error (labels out) n = Some l ->
  exists col, nth_error (backgroundColor out) n = Some col /\
              (col = "#002349" <-> l = sothebys_label).
Proof.
  intros H Hl.
  assert (Hin : In l (labels out)) by (eapply nth_error_In; eauto).
  assert (Hcanon : includes "Sotheby's" l = true -> l = sothebys_label).
  { intros Hs.
    revert H Hin. unfold extractMarketShareData.
    destruct (process_rows _ _ _) as [st|e]; cbn [bind]; intros H; [|discriminate].
    inversion H; subst out. intros Hin.
    destruct (label_source st l Hin) as (b & ->).
    now apply normalize_brand_sothebys, sothebys_lower. }
  revert H Hl. unfold extractMarketShareData.
  destruct (process_rows _ _ _) as [st|e]; cbn [bind]; intros H; [|discriminate].
  inversion H; subst out. cbn [finish labels backgroundColor] in *. intros Hl.
  rewrite colors_from_nth, Hl. cbn [option_map]. eexists. split; [reflexivity|].
  pose proof (color_blue l (0 + Z.of_nat n)) as Hc. split.
  - intros E. rewrite E in Hc. cbn in Hc. symmetry in Hc. auto.
  - intros E. apply String.eqb_eq. rewrite Hc. subst l. reflexivity.
Qed.

Lemma read_unsigned_scaled (sg : bool) (c : ascii) (r : string) :
  is_digit c = true ->
  exists n e rest, read_unsigned sg (String c r) = Some (scale sg n e, rest).
Proof.
  intros Hc. unfold read_unsigned.
  rewrite (proj2 (proj2 (digit_head_facts c r Hc))).
  destruct (read_digits (String c r)) as [ip s2] eqn:Eip.
  assert (Hip : is_nil ip = false).
  { cbn [read_digits] in Eip. unfold is_digit in Hc.
    destruct (digit_of c) as [d|] eqn:E; [|discriminate].
    destruct (read_digits r) as [u rest]. inversion Eip; subst.
    clear - E. destruct c as [[] [] [] [] [] [] [] []]; simpl in E; try discriminate E;
      inversion E; reflexivity. }
  rewrite Hip. cbn [andb].
  match goal with |- context [let (fp, s3) := ?e in _] => destruct e as [fp s3] end.
  destruct (read_exponent s3) as [e s4]. eauto.
Qed.

Lemma scale_negative (n : N) (e : Z) : gt (scale true n e) (ofZ 1000) = false.
Proof.
  unfold gt, scale, ofZ. destruct (0 <=? e) eqn:E; rewrite lt_mkFin_r; cbn [lt];
    change (pow10 0) with 1; apply Z.ltb_ge.
  - apply Z.leb_le in E. assert (0 <= 10 ^ e) by (apply Z.pow_nonneg; lia). nia.
  - pose proof (pow10_pos (Z.to_nat (- e))). nia.
Qed.

Lemma rounded_in_range (x : number) :
  in_range x -> in_range (parseFloat (toFixed x 1)).
Proof.
  intros [Hn Hgt]. split; [now apply parse_toFixed1_not_NaN|].
  destruct x as [|[]|m k]; try discriminate; [reflexivity|].
  unfold gt, ofZ in Hgt. cbn [lt] in Hgt. change (pow10 0) with 1 in Hgt.
  apply Z.ltb_ge in Hgt. pose proof (pow10_pos k) as Hk.
  destruct (pow10 21 * pow10 k <=? Z.abs m) eqn:E.
  - unfold toFixed. rewrite E. apply Z.leb_le in E. rewrite pow10_21 in E.
    assert (Hm : m < 0) by nia.
    assert (Hs : (m <? 0) = true) by now apply Z.ltb_lt.
    rewrite Hs. destruct (toString_head (Z.abs m) k ltac:(lia)) as (c & r & -> & Hc).
    change ("-" ++ String c r) with (String "-" (String c r)).
    unfold parseFloat, read_decimal. cbn [trimStart].
    change (is_ws "-") with false. cbv iota. cbn [read_sign].
    destruct (read_unsigned_scaled true c r Hc) as (n & e & rest & ->).
    apply scale_negative.
  - rewrite (parse_toFixed1 m k E). unfold round1, gt, ofZ.
    rewrite lt_mkFin_r. cbn [lt]. change (pow10 0) with 1. change (pow10 1) with 10.
    apply Z.ltb_ge.
    set (n := (2 * Z.abs m * 10 + pow10 k) / (2 * pow10 k)).
    assert (Hn0 : 0 <= n) by (apply Z.div_pos; lia).
    destruct (m <? 0) eqn:Es; [lia|]. apply Z.ltb_ge in Es.
    assert (n < 10001); [|lia].
    apply Z.div_lt_upper_bound; lia.
Qed.

Lemma gt_100_1000 (y : number) :
  gt y (ofZ 100) = false -> gt y (ofZ 1000) = false.
Proof.
  destruct y as [|[]|m k]; try reflexivity; try discriminate.
  unfold gt, ofZ. cbn [lt]. change (pow10 0) with 1. intros H.
  apply Z.ltb_ge in H. apply Z.ltb_ge. pose proof (pow10_pos k). lia.
Qed.

Lemma process_row_in_range (c : columns) (st st' : state) (r : row) :
  process_row c st r = Ok st' ->
  Forall (fun b => in_range (marketShare b)) (brokerages st) ->
  Forall (fun b => in_range (marketShare b)) (brokerages st').
Proof.
  intros H Hst. apply process_row_inv in H.
  destruct H as [-> | (_ & _ & _ & Hp)]; [exact Hst|].
  apply push_step_inv in Hp. destruct Hp as [(_ & ->) | (x & Hx & Hn & ->)]; [exact Hst|].
  apply Forall_app. split; [exact Hst|]. constructor; [|constructor].
  cbn [marketShare]. apply rounded_in_range. split; [exact Hn|].
  destruct (coerce_number (get r (marketShareColIndex c))) as [E | (y & E)];
    rewrite E in Hx.
  - discriminate Hx.
  - apply rescale_number in Hx. destruct Hx as [-> [Hx | [Hx | Hx]]];
      [congruence | now apply gt_100_1000 | exact Hx].
Qed.

Lemma process_rows_in_range (c : columns) (rows : sheet) : forall st st',
  process_rows c st rows = Ok st' ->
  Forall (fun b => in_range (marketShare b)) (brokerages st) ->
  Forall (fun b => in_range (marketShare b)) (brokerages st').
Proof.
  induction rows as [|r rows IH]; intros st st' H Hst; cbn [process_rows] in H.
  - inversion H; subst. exact Hst.
  - destruct (process_row c st r) as [st1|e] eqn:E; cbn [bind] in H; [|discriminate].
    eapply IH; eauto using process_row_in_range.
Qed.

(** X8: every value of a returned output is a number, never [NaN], and is
    not above 1000. *)
Theorem X8_values_in_range (data : sheet) (out : output) (v : number) :
  extractMarketShareData data = Ok out ->
  In v (dataValues out) -> in_range v.
Proof.
  unfold extractMarketShareData.
  destruct (process_rows _ _ _) as [st|e] eqn:E; cbn [bind]; intros H; [|discriminate].
  inversion H; subst out. cbn [finish dataValues]. intros Hv.
  apply in_map_iff in Hv. destruct Hv as (b & <- & Hb). apply In_firstn in Hb.
  apply (Permutation_in _ (rank_perm (brokerages st))) in Hb.
  apply in_map_iff in Hb. destruct Hb as (b0 & <- & Hb0).
  rewrite normalize_brand_share.
  pose proof (process_rows_in_range _ _ _ _ E (Forall_nil _)) as Hall.
  rewrite Forall_forall in Hall. now apply Hall.
Qed.

Lemma X6_rank_idempotent_witness :
  rank (rank sample_records) = rank sample_records.
Proof. apply (X6_rank_idempotent sample_records). repeat constructor. Defined.

Lemma X7_canonical_labels_witness :
  exists out : output,
    extractMarketShareData C4_sheet = Ok out /\
    In "HomeSmart" (labels out) /\
    (includes "Sotheby's" "HomeSmart" = true -> "HomeSmart" = sothebys_label) /\
    (includes "homesmart" (toLowerCase "HomeSmart") = true ->
     "HomeSmart" = "HomeSmart").
Proof.
  eexists. split; [vm_compute; reflexivity|].
  split; [right; right; left; reflexivity|].
  eapply (X7_canonical_labels C4_sheet);
    [vm_compute; reflexivity | right; right; left; reflexivity].
Defined.

Lemma X8_values_in_range_witness :
  exists out : output,
    extractMarketShareData C4_sheet = Ok out /\
    In (Fin 12 0) (dataValues out) /\ in_range (Fin 12 0).
Proof.
  eexists. split; [vm_compute; reflexivity|].
  split; [right; left; reflexivity|].
  eapply (X8_values_in_range C4_sheet);
    [vm_compute; reflexivity | right; left; reflexivity].
Defined.

Lemma X9_metrics_need_a_sothebys_row_witness :
  exists out : output,
    extractMarketShareData C3_sheet = Ok out /\
    additionalMetrics out = default_metrics.
Proof.
  eexists. split; [vm_compute; reflexivity|].
  apply (X9_metrics_need_a_sothebys_row C3_sheet); vm_compute; reflexivity.
Defined.

Lemma X10_only_sothebys_is_blue_witness :
  exists out : output,
    extractMarketShareData C4_sheet = Ok out /\
    nth_error (labels out) 0 = Some sothebys_label /\
    exists col, nth_error (backgroundColor out) 0 = Some col /\
                (col = "#002349" <-> sothebys_label = sothebys_label).
Proof.
  eexists. split; [vm_compute; reflexivity|]. split; [reflexivity|].
  apply (X10_only_sothebys_is_blue C4_sheet); vm_compute; reflexivity.
Defined.

End RankerMore.

(** ** Facts about the export name *)

Module NamesFacts.
Import Stated Notions JSFacts JSMore Names.

Lemma length_substring_le (s : string) : forall n m,
  (String.length (substring n m s) <= m)%nat.
Proof.
  induction s as [|c r IH]; intros n m.
  - destruct n, m; cbn; lia.
  - destruct n as [|n]; [destruct m as [|m]|]; cbn [substring String.length].
    + lia.
    + specialize (IH 0%nat m). lia.
    + apply IH.
Qed.

Lemma length_trimStart (s : string) :
  (String.length (trimStart s) <= String.length s)%nat.
Proof.
  induction s as [|c r IH]; [cbn; lia|]. cbn [trimStart].
  destruct (is_ws c); cbn [String.length] in *; lia.
Qed.

Lemma length_trimEnd (s : string) :
  (String.length (trimEnd s) <= String.length s)%nat.
Proof.
  induction s as [|c r IH]; [cbn; lia|]. cbn [trimEnd].
  destruct (trimEnd r) as [|c' r'].
  - destruct (is_ws c); cbn [String.length] in *; lia.
  - cbn [String.length] in *. lia.
Qed.

Lemma length_trim (s : string) :
  (String.length (trim s) <= String.length s)%nat.
Proof.
  unfold trim. pose proof (length_trimEnd (trimStart s)).
  pose proof (length_trimStart s). lia.
Qed.

Lemma string_length_app (s t : string) :
  String.length (s ++ t) = (String.length s + String.length t)%nat.
Proof. induction s as [|c r IH]; cbn [append String.length]; [reflexivity | now rewrite IH]. Qed.

Lemma substring_all (s : string) : substring 0 (String.length s) s = s.
Proof. induction s as [|c r IH]; cbn [substring String.length]; [reflexivity | now rewrite IH]. Qed.

(** *** Title case *)
Lemma join_cons (c : ascii) (w : string) (ws : list string) :
  join " " (String c w :: ws) = String c (join " " (w :: ws)).
Proof. destruct ws; reflexivity. Qed.

Lemma split_nonempty (sep : ascii) (s : string) : split sep s <> [].
Proof.
  destruct s as [|c r]; cbn [split]; [discriminate|].
  destruct (c =? sep)%char; [discriminate|]. destruct (split sep r); discriminate.
Qed.

Lemma title_word_cons (c : ascii) (w : string) :
  title_word (String c w) = String (upper_char c) (toLowerCase w).
Proof.
  unfold title_word. cbn [String.length]. rewrite Nat.sub_succ, Nat.sub_0_r.
  cbn [substring]. rewrite substring_all. destruct w; reflexivity.
Qed.


Lemma titlecase_split (s : string) : forall start,
  titlecase start s =
  match split " " s with
  | w :: ws => join " " (first_word start w :: map title_word ws)
  | [] => ""
  end.
Proof.
  induction s as [|c r IH]; intros start.
  - destruct start; reflexivity.
  - cbn [titlecase split]. destruct (c =? " ")%char eqn:E.
    + apply Ascii.eqb_eq in E. subst c. rewrite (IH true).
      destruct (split " " r) as [|w ws] eqn:Es; [now apply split_nonempty in Es|].
      cbn [first_word]. destruct start; reflexivity.
    + rewrite (IH false).
      destruct (split " " r) as [|w ws] eqn:Es; [now apply split_nonempty in Es|].
      destruct start; cbn [first_word].
      * now rewrite title_word_cons, join_cons.
      * cbn [toLowerCase]. now rewrite join_cons.
Qed.

Lemma title_case_pass (s : string) :
  join " " (map title_word (split " " s)) = titlecase true s.
Proof.
  rewrite titlecase_split.
  destruct (split " " s) as [|w ws] eqn:Es; [now apply split_nonempty in Es|].
  reflexivity.
Qed.

(** [getCleanFileName] with the title case as one pass *)
Lemma getCleanFileName_pass (f : string) :
  getCleanFileName f =
  if (f =? "")%string then ""
  else
    let t := titlecase true (replace_class underscore_hyphen " " (strip_extension f)) in
    trim (if (30 <? String.length t)%nat then substring 0 30 t ++ "..." else t).
Proof. unfold getCleanFileName. now rewrite title_case_pass. Qed.

(** X11: a clean file name has at most 33 characters. *)
Theorem X11_clean_name_length (f : string) :
  (String.length (getCleanFileName f) <= 33)%nat.
Proof.
  rewrite getCleanFileName_pass. destruct (f =? "")%string; [cbn; lia|].
  cbv zeta. set (t := titlecase _ _).
  etransitivity; [apply length_trim|].
  destruct (30 <? String.length t)%nat eqn:E.
  - rewrite string_length_app. pose proof (length_substring_le t 0 30). cbn [String.length]. lia.
  - apply Nat.ltb_ge in E. lia.
Qed.

(** *** Characters *)
Lemma all_chars_app (p : ascii -> bool) (s t : string) :
  all_chars p (s ++ t) = all_chars p s && all_chars p t.
Proof.
  induction s as [|c r IH]; [reflexivity|]. cbn [append all_chars].
  now rewrite IH, andb_assoc.
Qed.

Lemma all_chars_substring (p : ascii -> bool) (s : string) : forall n m,
  all_chars p s = true -> all_chars p (substring n m s) = true.
Proof.
  induction s as [|c r IH]; intros n m H.
  - destruct n, m; reflexivity.
  - cbn [all_chars] in H. apply andb_prop in H. destruct H as [Hc Hr].
    destruct n as [|n]; [destruct m as [|m]|]; cbn [substring all_chars].
    + reflexivity.
    + now rewrite Hc, IH.
    + now apply IH.
Qed.

Lemma all_chars_trimStart (p : ascii -> bool) (s : string) :
  all_chars p s = true -> all_chars p (trimStart s) = true.
Proof.
  induction s as [|c r IH]; [reflexivity|]. cbn [trimStart]. intros H.
  destruct (is_ws c); [|exact H]. cbn [all_chars] in H.
  apply andb_prop in H. now apply IH.
Qed.

Lemma all_chars_trimEnd (p : ascii -> bool) (s : string) :
  all_chars p s = true -> all_chars p (trimEnd s) = true.
Proof.
  induction s as [|c r IH]; [reflexivity|]. cbn [trimEnd all_chars]. intros H.
  apply andb_prop in H. destruct H as [Hc Hr]. specialize (IH Hr).
  destruct (trimEnd r) as [|c' r'].
  - destruct (is_ws c); cbn [all_chars]; [reflexivity | now rewrite Hc].
  - cbn [all_chars] in *. now rewrite Hc, IH.
Qed.

Lemma all_chars_trim (p : ascii -> bool) (s : string) :
  all_chars p s = true -> all_chars p (trim s) = true.
Proof. intros H. now apply all_chars_trimEnd, all_chars_trimStart. Qed.


Lemma plain_upper (c : ascii) : plain c = true -> plain (upper_char c) = true.
Proof. destruct c as [[] [] [] [] [] [] [] []]; vm_compute; congruence. Qed.

Lemma plain_lower (c : ascii) : plain c = true -> plain (lower_char c) = true.
Proof. destruct c as [[] [] [] [] [] [] [] []]; vm_compute; congruence. Qed.

Lemma plain_titlecase (s : string) : forall start,
  all_chars plain s = true -> all_chars plain (titlecase start s) = true.
Proof.
  induction s as [|c r IH]; intros start H; [reflexivity|].
  cbn [titlecase all_chars] in *. apply andb_prop in H. destruct H as [Hc Hr].
  rewrite (IH _ Hr), andb_true_r.
  destruct start; [now apply plain_upper | now apply plain_lower].
Qed.

Lemma plain_replace (s : string) :
  all_chars plain (replace_class underscore_hyphen " " s) = true.
Proof.
  induction s as [|c r IH]; [reflexivity|]. cbn [replace_class all_chars].
  rewrite IH, andb_true_r. unfold plain.
  destruct (underscore_hyphen c) eqn:E; [reflexivity | now rewrite E].
Qed.

Lemma clean_name_plain (f : string) : all_chars plain (getCleanFileName f) = true.
Proof.
  rewrite getCleanFileName_pass. destruct (f =? "")%string; [reflexivity|].
  cbv zeta. apply all_chars_trim.
  assert (H : all_chars plain
                (titlecase true (replace_class underscore_hyphen " " (strip_extension f)))
              = true) by apply plain_titlecase, plain_replace.
  destruct (30 <? _)%nat; [|exact H].
  rewrite all_chars_app. now rewrite all_chars_substring.
Qed.

Lemma prefix_head (c a : ascii) (s : string) :
  prefix (String c "") (String a s) = (c =? a)%char.
Proof.
  cbn [prefix]. destruct (ascii_dec c a) as [->|N].
  - rewrite Ascii.eqb_refl. now destruct s.
  - symmetry. now apply Ascii.eqb_neq.
Qed.

Lemma includes_char (c : ascii) (s : string) :
  all_chars (fun a => negb (c =? a)%char) s = true ->
  includes (String c "") s = false.
Proof.
  induction s as [|a r IH]; [reflexivity|]. cbn [all_chars includes]. intros H.
  apply andb_prop in H. destruct H as [Ha Hr]. rewrite prefix_head.
  apply negb_true_iff in Ha. rewrite Ha. now apply IH.
Qed.

Lemma all_chars_impl (p q : ascii -> bool) (s : string) :
  (forall c, p c = true -> q c = true) ->
  all_chars p s = true -> all_chars q s = true.
Proof.
  intros Hpq. induction s as [|c r IH]; [reflexivity|]. cbn [all_chars]. intros H.
  apply andb_prop in H. destruct H as [Hc Hr]. now rewrite (Hpq c Hc), IH.
Qed.

(** X12: a clean file name contains neither an underscore nor a hyphen. *)
Theorem X12_clean_name_separators (f : string) :
  includes "_" (getCleanFileName f) = false /\
  includes "-" (getCleanFileName f) = false.
Proof.
  pose proof (clean_name_plain f) as H. split; apply includes_char;
    (eapply all_chars_impl; [|exact H]); intros c; unfold plain, underscore_hyphen;
    rewrite negb_orb; intros Hc; apply andb_prop in Hc; destruct Hc as [H1 H2];
    rewrite Ascii.eqb_sym; assumption.
Qed.


Lemma upper_char_not_lower (c : ascii) : is_lower (upper_char c) = false.
Proof. destruct c as [[] [] [] [] [] [] [] []]; reflexivity. Qed.

Lemma lower_char_not_upper (c : ascii) : is_upper (lower_char c) = false.
Proof. destruct c as [[] [] [] [] [] [] [] []]; reflexivity. Qed.

Lemma upper_char_space (c : ascii) : (upper_char c =? " ")%char = (c =? " ")%char.
Proof. destruct c as [[] [] [] [] [] [] [] []]; reflexivity. Qed.

Lemma lower_char_space (c : ascii) : (lower_char c =? " ")%char = (c =? " ")%char.
Proof. destruct c as [[] [] [] [] [] [] [] []]; reflexivity. Qed.

Lemma titlecase_cased (s : string) : forall start,
  cased start (titlecase start s) = true.
Proof.
  induction s as [|c r IH]; intros start; [reflexivity|].
  cbn [titlecase cased]. destruct start.
  - now rewrite upper_char_not_lower, upper_char_space, IH.
  - now rewrite lower_char_not_upper, lower_char_space, IH.
Qed.

Lemma cased_well_cased (s : string) : forall start,
  cased start s = true -> well_cased s = true.
Proof.
  induction s as [|a r IH]; intros start H; [reflexivity|].
  destruct r as [|b r]; [reflexivity|].
  cbn [cased] in H. apply andb_prop in H. destruct H as [_ H].
  change (well_cased (String a (String b r)))
    with (follows a b && well_cased (String b r)).
  rewrite (IH _ H), andb_true_r.
  cbn [cased] in H. apply andb_prop in H. destruct H as [H _]. exact H.
Qed.

Lemma well_cased_cons (a b : ascii) (r : string) :
  well_cased (String a (String b r)) = follows a b && well_cased (String b r).
Proof. reflexivity. Qed.

Lemma well_cased_tail (a : ascii) (r : string) :
  well_cased (String a r) = true -> well_cased r = true.
Proof.
  destruct r as [|b r]; [reflexivity|]. rewrite well_cased_cons.
  intros H. now apply andb_prop in H.
Qed.

Lemma well_cased_prefix (s : string) : forall m,
  well_cased s = true -> well_cased (substring 0 m s) = true.
Proof.
  induction s as [|a r IH]; intros m H; [now destruct m|].
  destruct m as [|m]; [reflexivity|]. cbn [substring].
  pose proof (IH m (well_cased_tail _ _ H)) as Hr.
  destruct r as [|b r]; [now destruct m|].
  destruct m as [|m]; [reflexivity|]. cbn [substring] in *.
  rewrite well_cased_cons in *. apply andb_prop in H. destruct H as [Hab _].
  now rewrite Hab, Hr.
Qed.

Lemma well_cased_dots (s : string) :
  well_cased s = true -> well_cased (s ++ "...") = true.
Proof.
  induction s as [|a r IH]; [reflexivity|]. intros H.
  pose proof (IH (well_cased_tail _ _ H)) as Hr.
  destruct r as [|b r].
  - cbn [append]. rewrite well_cased_cons. unfold follows.
    destruct (a =? " ")%char; reflexivity.
  - cbn [append] in *. rewrite well_cased_cons in *.
    apply andb_prop in H. destruct H as [Hab _]. now rewrite Hab, Hr.
Qed.

Lemma well_cased_trimStart (s : string) :
  well_cased s = true -> well_cased (trimStart s) = true.
Proof.
  induction s as [|a r IH]; [reflexivity|]. intros H. cbn [trimStart].
  destruct (is_ws a); [|exact H]. now apply IH, (well_cased_tail a).
Qed.

Lemma well_cased_trimEnd (s : string) :
  well_cased s = true -> well_cased (trimEnd s) = true.
Proof.
  induction s as [|a r IH]; [reflexivity|]. intros H.
  pose proof (IH (well_cased_tail _ _ H)) as Hr. cbn [trimEnd].
  destruct (trimEnd r) as [|b' r'] eqn:E.
  - destruct (is_ws a); reflexivity.
  - rewrite well_cased_cons, Hr, andb_true_r.
    destruct r as [|b r]; [discriminate E|].
    rewrite well_cased_cons in H. apply andb_prop in H. destruct H as [Hab _].
    cbn [trimEnd] in E. destruct (trimEnd r); [destruct (is_ws b)|];
      inversion E; subst; exact Hab.
Qed.

(** X13: in a clean file name no lower-case letter follows a space, and no
    upper-case letter follows a character that is not a space. *)
Theorem X13_clean_name_casing (f : string) : well_cased (getCleanFileName f) = true.
Proof.
  rewrite getCleanFileName_pass. destruct (f =? "")%string; [reflexivity|].
  cbv zeta. set (t := titlecase true _).
  assert (H : well_cased t = true)
    by (apply (cased_well_cased t true), titlecase_cased).
  unfold trim. apply well_cased_trimEnd, well_cased_trimStart.
  destruct (30 <? _)%nat; [|exact H].
  now apply well_cased_dots, well_cased_prefix.
Qed.

(** *** White space at the ends *)
Lemma trimEnd_cons (c : ascii) (r : string) :
  trimEnd (String c r) =
  match trimEnd r with
  | EmptyString => if is_ws c then EmptyString else String c EmptyString
  | r' => String c r'
  end.
Proof. reflexivity. Qed.

Lemma trimEnd_twice (s : string) : trimEnd (trimEnd s) = trimEnd s.
Proof.
  induction s as [|c r IH]; [reflexivity|]. rewrite trimEnd_cons.
  destruct (trimEnd r) as [|c' r'] eqn:E.
  - destruct (is_ws c) eqn:Ec; [reflexivity|]. cbn [trimEnd]. now rewrite Ec.
  - rewrite trimEnd_cons, IH. reflexivity.
Qed.

Lemma trimStart_head (s : string) :
  match trimStart s with
  | EmptyString => True
  | String c _ => is_ws c = false
  end.
Proof.
  induction s as [|c r IH]; [exact I|]. cbn [trimStart].
  destruct (is_ws c) eqn:E; [exact IH | exact E].
Qed.

Lemma trimEnd_head (c : ascii) (r : string) :
  is_ws c = false -> exists r', trimEnd (String c r) = String c r'.
Proof.
  intros H. cbn [trimEnd]. destruct (trimEnd r); rewrite ?H; eauto.
Qed.

Lemma trim_twice (s : string) : trim (trim s) = trim s.
Proof.
  unfold trim. pose proof (trimStart_head s) as H.
  destruct (trimStart s) as [|c r]; [reflexivity|].
  destruct (trimEnd_head c r H) as (r' & E).
  assert (Es : trimStart (trimEnd (String c r)) = trimEnd (String c r)).
  { rewrite E. cbn [trimStart]. now rewrite H. }
  rewrite Es. apply trimEnd_twice.
Qed.

(** X14: a clean file name has no white space at either end: trimming it
    again changes nothing. *)
Theorem X14_clean_name_trimmed (f : string) :
  trim (getCleanFileName f) = getCleanFileName f.
Proof.
  unfold getCleanFileName. destruct (f =? "")%string; [reflexivity|].
  cbv zeta. apply trim_twice.
Qed.


Lemma last_char_app (p : string) (c : ascii) (q : string) :
  last_char (p ++ String c q) = last_char (String c q).
Proof.
  induction p as [|a p IH]; [reflexivity|].
  cbn [append]. change (last_char (String a (p ++ String c q)))
    with (match last_char (p ++ String c q) with None => Some a | o => o end).
  rewrite IH. cbn [last_char]. destruct (last_char q); reflexivity.
Qed.

Lemma substring_split (s : string) : forall i,
  (i <= String.length s)%nat ->
  s = substring 0 i s ++ substring i (String.length s - i) s.
Proof.
  induction s as [|c r IH]; intros i Hi.
  - cbn in Hi. assert (i = 0%nat) by lia. subst. reflexivity.
  - destruct i as [|i].
    + cbn [substring String.length Nat.sub append]. now rewrite substring_all.
    + cbn [String.length] in Hi. cbn [substring String.length Nat.sub append].
      f_equal. apply IH. lia.
Qed.

Lemma endsWith_split (suffix s : string) :
  endsWith suffix s = true -> exists p, s = p ++ suffix.
Proof.
  unfold endsWith. intros H. apply andb_prop in H. destruct H as [Hk He].
  apply Nat.leb_le in Hk. apply String.eqb_eq in He.
  exists (substring 0 (String.length s - String.length suffix) s).
  pose proof (substring_split s (String.length s - String.length suffix)
                ltac:(lia)) as H.
  replace (String.length s - (String.length s - String.length suffix))%nat
    with (String.length suffix) in H by lia.
  now rewrite He in H.
Qed.

Lemma substring_app_l (p q : string) : substring 0 (String.length p) (p ++ q) = p.
Proof.
  induction p as [|a p IH]; [now destruct q|].
  cbn [String.length append substring]. now rewrite IH.
Qed.

Lemma substring_app_r (p q : string) :
  substring (String.length p) (String.length q) (p ++ q) = q.
Proof.
  induction p as [|a p IH]; [apply substring_all|].
  cbn [String.length append substring]. exact IH.
Qed.

Lemma endsWith_app (p q : string) : endsWith q (p ++ q) = true.
Proof.
  unfold endsWith. rewrite string_length_app.
  replace (String.length p + String.length q - String.length q)%nat
    with (String.length p) by lia.
  rewrite substring_app_r, String.eqb_refl, andb_true_r.
  apply Nat.leb_le. lia.
Qed.

Lemma toLowerCase_app (p q : string) :
  toLowerCase (p ++ q) = toLowerCase p ++ toLowerCase q.
Proof. induction p as [|a p IH]; [reflexivity|]. cbn [append toLowerCase]. now rewrite IH. Qed.

Lemma length_toLowerCase (s : string) :
  String.length (toLowerCase s) = String.length s.
Proof. induction s as [|a s IH]; [reflexivity|]. cbn. now rewrite IH. Qed.

Lemma endsWith_last (p : string) (a : ascii) (suffix : string) (c : ascii)
    (q : string) :
  last_char (String a suffix) <> last_char (String c q) ->
  endsWith (String a suffix) (p ++ String c q) = false.
Proof.
  intros N. destruct (endsWith _ (p ++ String c q)) eqn:E; [|reflexivity].
  exfalso. apply N. apply endsWith_split in E. destruct E as (p' & E).
  now rewrite <- (last_char_app p c q), E, last_char_app.
Qed.

Lemma strip_extension_app (b e : string) :
  is_extension e = true -> strip_extension (b ++ e) = b.
Proof.
  unfold is_extension. intros H.
  assert (Hs : forall n, String.length e = n ->
                 substring 0 (String.length (b ++ e) - n) (b ++ e) = b).
  { intros n <-. rewrite string_length_app.
    replace (String.length b + String.length e - String.length e)%nat
      with (String.length b) by lia.
    apply substring_app_l. }
  assert (Hl : forall t, toLowerCase e = t -> String.length e = String.length t).
  { intros t <-. now rewrite length_toLowerCase. }
  unfold strip_extension. rewrite toLowerCase_app.
  apply orb_prop in H. destruct H as [H | H]; [apply orb_prop in H; destruct H as [H | H]|];
    apply String.eqb_eq in H; rewrite H.
  - rewrite endsWith_app. apply Hs. now rewrite (Hl _ H).
  - rewrite (endsWith_last _ "." "xlsx" "." "xls") by discriminate.
    rewrite endsWith_app. cbn [orb]. apply Hs. now rewrite (Hl _ H).
  - rewrite (endsWith_last _ "." "xlsx" "." "csv") by discriminate.
    rewrite endsWith_app, orb_true_r. apply Hs. now rewrite (Hl _ H).
Qed.

(** X15: the clean name of a file does not depend on which of the
    extensions .xlsx, .xls and .csv its name ends with, nor on the letter
    case of the extension. *)
Theorem X15_clean_name_ignores_extension (b e1 e2 : string) :
  is_extension e1 = true -> is_extension e2 = true ->
  getCleanFileName (b ++ e1) = getCleanFileName (b ++ e2).
Proof.
  intros H1 H2. unfold getCleanFileName.
  rewrite (strip_extension_app b e1 H1), (strip_extension_app b e2 H2).
  assert (N : forall e, is_extension e = true -> (b ++ e =? "")%string = false).
  { intros e He. apply String.eqb_neq. intros E.
    destruct b; [|discriminate E]. cbn [append] in E. subst e. discriminate He. }
  now rewrite (N e1 H1), (N e2 H2).
Qed.

Lemma X15_clean_name_ignores_extension_witness :
  getCleanFileName "q3_market-report.XLSX" = getCleanFileName "q3_market-report.csv".
Proof.
  apply (X15_clean_name_ignores_extension "q3_market-report" ".XLSX" ".csv");
    reflexivity.
Defined.

End NamesFacts.

(** ** Facts about the selection of files *)

Module UploadFacts.
Import Stated Notions JSFacts JSMore Names NamesFacts Upload.

Lemma onDrop_valid (st : selection) (fs : list file) :
  forallb valid (files st) = true -> forallb valid (files (onDrop st fs)) = true.
Proof.
  intros H. unfold onDrop. destruct (0 <? _)%nat; cbn [files]; [|exact H].
  apply forallb_forall. intros f Hf. now apply filter_In in Hf.
Qed.

(** X25: whatever is dropped, and however often, the selection only holds
    files whose names end with an accepted extension and whose sizes are
    within the limit. *)
Theorem X25_selection_is_valid (drops : list (list file)) :
  forallb valid (files (fold_left onDrop drops empty)) = true.
Proof.
  assert (G : forall st, forallb valid (files st) = true ->
              forallb valid (files (fold_left onDrop drops st)) = true).
  { induction drops as [|fs drops IH]; intros st H; [exact H|].
    cbn [fold_left]. apply IH. now apply onDrop_valid. }
  now apply G.
Qed.

Lemma fold_rejection (fs : list file) : forall e,
  fold_left (fun e f => match rejection f with Some m => Some m | None => e end) fs e
  = None <-> e = None /\ forallb valid fs = true.
Proof.
  induction fs as [|f fs IH]; intros e; cbn [fold_left forallb].
  - split; [intros ->; now split | now intros [-> _]].
  - rewrite IH. unfold valid. destruct (rejection f) as [m|].
    + split; [intros [H _]; discriminate H | intros [_ H]; discriminate H].
    + cbn [andb]. reflexivity.
Qed.

Lemma filter_all {A : Type} (p : A -> bool) (l : list A) :
  forallb p l = true -> filter p l = l.
Proof.
  induction l as [|a l IH]; [reflexivity|]. cbn [forallb filter]. intros H.
  apply andb_prop in H. destruct H as [Ha Hl]. now rewrite Ha, IH.
Qed.

(** X26: after a drop an error is set exactly when files were dropped and
    none of them was accepted. *)
Theorem X26_error_when_nothing_accepted (st : selection) (fs : list file) :
  uploadError (onDrop st fs) = None <-> fs = [] \/ existsb valid fs = true.
Proof.
  unfold onDrop. destruct (0 <? _)%nat eqn:E; cbn [uploadError].
  - split; [intros _|reflexivity]. right. apply Nat.ltb_lt in E.
    destruct (filter valid fs) as [|f l] eqn:Ef; [cbn in E; lia|].
    apply existsb_exists. exists f.
    assert (Hf : In f (filter valid fs)) by (rewrite Ef; now left).
    apply filter_In in Hf. exact Hf.
  - apply Nat.ltb_ge in E. rewrite fold_rejection. split.
    + intros [_ H]. left. rewrite (filter_all _ _ H) in E.
      destruct fs; [reflexivity | cbn in E; lia].
    + intros [-> | H]; [now split|]. exfalso.
      apply existsb_exists in H. destruct H as (f & Hf & Hv).
      assert (Hin : In f (filter valid fs)) by (apply filter_In; now split).
      destruct (filter valid fs); [destruct Hin | cbn in E; lia].
Qed.

Lemma toLowerCase_substring (s : string) : forall i k,
  toLowerCase (substring i k s) = substring i k (toLowerCase s).
Proof.
  induction s as [|c r IH]; intros i k.
  - destruct i, k; reflexivity.
  - destruct i as [|i]; [destruct k as [|k]|]; cbn [substring toLowerCase].
    + reflexivity.
    + now rewrite IH.
    + apply IH.
Qed.

Lemma endsWith_parts (suffix s : string) :
  endsWith suffix (toLowerCase s) = true ->
  let b := substring 0 (String.length s - String.length suffix) s in
  let e := substring (String.length s - String.length suffix)
                     (String.length suffix) s in
  s = b ++ e /\ toLowerCase e = suffix.
Proof.
  unfold endsWith. rewrite length_toLowerCase. intros H.
  apply andb_prop in H. destruct H as [Hk He].
  apply Nat.leb_le in Hk. apply String.eqb_eq in He. cbv zeta. split.
  - pose proof (substring_split s (String.length s - String.length suffix)
                  ltac:(lia)) as H.
    replace (String.length s - (String.length s - String.length suffix))%nat
      with (String.length suffix) in H by lia.
    exact H.
  - now rewrite toLowerCase_substring.
Qed.

(** X27: the name of a file that passes the type filter of the uploader
    is a base followed by one of the three extensions, and the clean name
    is made from that base: the pattern of [getCleanFileName] removes
    exactly what the filter looked for. *)
Theorem X27_accepted_name_is_stripped (f : file) :
  isValidType f = true ->
  exists b e : string,
    name f = b ++ e /\ is_extension e = true /\
    strip_extension (name f) = b.
Proof.
  unfold isValidType. cbv zeta. intros H. unfold strip_extension.
  destruct (endsWith ".xlsx" (toLowerCase (name f))) eqn:E5.
  - destruct (endsWith_parts _ _ E5) as [Hs He]. cbn [String.length] in Hs, He.
    eexists _, _. split; [exact Hs|]. split; [|reflexivity].
    unfold is_extension. now rewrite He.
  - rewrite orb_false_r in H. rewrite (orb_comm (endsWith ".xls" _)), H.
    apply orb_prop in H. destruct H as [E | E];
      destruct (endsWith_parts _ _ E) as [Hs He]; cbn [String.length] in Hs, He;
      (eexists _, _; split; [exact Hs|]; split; [|reflexivity]);
      unfold is_extension; rewrite He; reflexivity.
Qed.

Lemma X27_accepted_name_is_stripped_witness :
  exists b e : string,
    "Q3_Report.XLSX" = b ++ e /\ is_extension e = true /\
    strip_extension "Q3_Report.XLSX" = b.
Proof.
  apply (X27_accepted_name_is_stripped {| name := "Q3_Report.XLSX"; size := 1024 |}).
  reflexivity.
Defined.

End UploadFacts.

(** ** Facts about sorting by value *)

Module SortFacts.
Import Stated Notions JSFacts JSMore.

Lemma insert_by_perm {A : Type} (cmp : A -> A -> number) (a : A) (l : list A) :
  Permutation (insert_by cmp a l) (a :: l).
Proof.
  induction l as [|b l IH]; [reflexivity|]. cbn [insert_by].
  destruct (gt _ _); [|reflexivity]. rewrite IH. apply perm_swap.
Qed.

Lemma sort_by_perm {A : Type} (cmp : A -> A -> number) (l : list A) :
  Permutation (sort_by cmp l) l.
Proof.
  induction l as [|a l IH]; [reflexivity|].
  cbn [sort_by fold_right]. rewrite insert_by_perm. now constructor.
Qed.

Lemma lt_false_trans (x y z : number) :
  isNaN y = false -> lt x y = false -> lt y z = false -> lt x z = false.
Proof.
  destruct x as [|[]|m1 k1], y as [|[]|m2 k2], z as [|[]|m3 k3];
    cbn [isNaN lt]; try congruence; try reflexivity.
  intros _ H1 H2. apply Z.ltb_ge in H1, H2. apply Z.ltb_ge.
  pose proof (pow10_pos k1). pose proof (pow10_pos k2). pose proof (pow10_pos k3).
  apply (Z.mul_le_mono_pos_r _ _ (pow10 k2)); [lia|].
  transitivity (m2 * pow10 k3 * pow10 k1); nia.
Qed.

Lemma insert_by_cases {A : Type} (val : A -> value) (a b : A) (l : list A) :
  insert_by (desc val) a (b :: l) =
  if lt (key val a) (key val b)
  then b :: insert_by (desc val) a l else a :: b :: l.
Proof. cbn [insert_by]. unfold desc, minus, key. now rewrite gt_sub_zero. Qed.

(** An array that is in order is left as it is. *)
Lemma sort_by_fixed {A : Type} (val : A -> value) (l : list A) :
  Sorted (no_lt val) l -> sort_by (desc val) l = l.
Proof.
  induction 1 as [|a l Hs IH Hd]; [reflexivity|].
  cbn [sort_by fold_right]. fold (sort_by (desc val) l). rewrite IH.
  destruct Hd as [|b l Hab]; [reflexivity|].
  rewrite insert_by_cases. unfold no_lt in Hab. now rewrite Hab.
Qed.

Lemma insert_by_sorted {A : Type} (val : A -> value) (a : A) (l : list A) :
  Sorted (no_lt val) l -> Sorted (no_lt val) (insert_by (desc val) a l).
Proof.
  induction 1 as [|b l Hs IH Hd]; [repeat constructor|].
  rewrite insert_by_cases. destruct (lt (key val a) (key val b)) eqn:E.
  - constructor; [exact IH|]. destruct Hd as [|c l Hbc].
    + constructor. now apply lt_asym.
    + rewrite insert_by_cases. destruct (lt (key val a) (key val c));
        constructor; [exact Hbc | now apply lt_asym].
  - constructor; [now constructor | now constructor].
Qed.

Lemma sort_by_sorted {A : Type} (val : A -> value) (l : list A) :
  Sorted (no_lt val) (sort_by (desc val) l).
Proof.
  induction l as [|a l IH]; [constructor|]. now apply insert_by_sorted.
Qed.

(** Among numbers the order is transitive, so the head of a sorted array
    is its greatest element. *)
Lemma sorted_head {A : Type} (val : A -> value) (a : A) (l : list A) :
  Forall (numeric val) l -> Sorted (no_lt val) (a :: l) ->
  Forall (no_lt val a) l.
Proof.
  revert a. induction l as [|b l IH]; intros a Hn Hs; [constructor|].
  inversion Hs as [|? ? Hs' Hd]; subst. inversion Hd as [|? ? Hab]; subst.
  inversion Hn as [|? ? Hb Hl]; subst.
  constructor; [exact Hab|].
  specialize (IH b Hl Hs'). eapply Forall_impl; [|exact IH].
  intros c Hbc. unfold no_lt in *. now apply (lt_false_trans _ (key val b)).
Qed.

Lemma sorted_strongly {A : Type} (val : A -> value) (l : list A) :
  Forall (numeric val) l -> Sorted (no_lt val) l -> StronglySorted (no_lt val) l.
Proof.
  induction l as [|a l IH]; intros Hn Hs; [constructor|].
  inversion Hn; subst. pose proof (sorted_head val a l ltac:(assumption) Hs).
  inversion Hs; subst. constructor; auto.
Qed.

Lemma strongly_filter {A : Type} (val : A -> value) (p : A -> bool) (l : list A) :
  StronglySorted (no_lt val) l -> StronglySorted (no_lt val) (filter p l).
Proof.
  induction 1 as [|a l Hs IH Ha]; [constructor|]. cbn [filter].
  destruct (p a); [|exact IH]. constructor; [exact IH|].
  rewrite Forall_forall in *. intros b Hb. apply Ha.
  now apply filter_In in Hb.
Qed.

Lemma sort_by_filter_fixed {A : Type} (val : A -> value) (p : A -> bool)
    (l : list A) :
  Forall (numeric val) l -> Sorted (no_lt val) l ->
  sort_by (desc val) (filter p l) = filter p l.
Proof.
  intros Hn Hs. apply sort_by_fixed, StronglySorted_Sorted, strongly_filter.
  now apply sorted_strongly.
Qed.

Lemma sorted_of_keys {A : Type} (val : A -> value) (l : list A) :
  Sorted (fun x y => lt x y = false) (map (key val) l) -> Sorted (no_lt val) l.
Proof.
  induction l as [|a l IH]; intros H; [constructor|].
  cbn [map] in H. inversion H as [|? ? Hs Hd]; subst.
  constructor; [now apply IH|].
  destruct l as [|b l]; constructor. cbn [map] in Hd. now inversion Hd.
Qed.

Lemma num_ge_no_lt (x y : number) : num_ge x y -> lt x y = false.
Proof.
  unfold num_ge, ge. destruct x, y; try discriminate; intros H;
    now apply negb_true_iff in H.
Qed.

Lemma Sorted_weaken {A : Type} (R S : A -> A -> Prop) (l : list A) :
  (forall a b, R a b -> S a b) -> Sorted R l -> Sorted S l.
Proof.
  intros H. induction 1 as [|a l Hs IH Hd]; constructor; [exact IH|].
  destruct Hd; constructor. now apply H.
Qed.

Lemma Sorted_map {A B : Type} (R : A -> A -> Prop) (S : B -> B -> Prop)
    (f : A -> B) (l : list A) :
  (forall a b, R a b -> S (f a) (f b)) -> Sorted R l -> Sorted S (map f l).
Proof.
  intros H. induction 1 as [|a l Hs IH Hd]; cbn [map]; constructor; [exact IH|].
  destruct Hd; cbn [map]; constructor. now apply H.
Qed.

(** *** Arrays built by index *)
Lemma mapi_from_map {A B C : Type} (f : A -> Z -> B) (g : B -> C) (l : list A) :
  forall i, map g (mapi_from f i l) = mapi_from (fun a j => g (f a j)) i l.
Proof. induction l as [|a l IH]; intros i; cbn; [reflexivity | now rewrite IH]. Qed.

Lemma mapi_from_const {A B : Type} (f : A -> B) (l : list A) :
  forall i, mapi_from (fun a _ => f a) i l = map f l.
Proof. induction l as [|a l IH]; intros i; cbn; [reflexivity | now rewrite IH]. Qed.

Lemma length_mapi_from {A B : Type} (f : A -> Z -> B) (l : list A) :
  forall i, List.length (mapi_from f i l) = List.length l.
Proof. induction l as [|a l IH]; intros i; cbn; [reflexivity | now rewrite IH]. Qed.

Lemma skipn_mapi_from {A B : Type} (f : A -> Z -> B) (n : nat) : forall l i,
  skipn n (mapi_from f i l) = mapi_from f (i + Z.of_nat n) (skipn n l).
Proof.
  induction n as [|n IH]; intros l i.
  - cbn [skipn]. now rewrite Z.add_0_r.
  - destruct l as [|a l]; [reflexivity|]. cbn [skipn mapi_from].
    rewrite IH. f_equal. lia.
Qed.

Lemma Forall_mapi_from {A B : Type} (P : B -> Prop) (f : A -> Z -> B)
    (l : list A) : forall i,
  (forall a j, P (f a j)) -> Forall P (mapi_from f i l).
Proof. induction l as [|a l IH]; intros i H; cbn; constructor; auto. Qed.

Lemma In_mapi_from {A B : Type} (f : A -> Z -> B) (b : B) (l : list A) :
  forall i, In b (mapi_from f i l) ->
  exists (n : nat) (a : A), nth_error l n = Some a /\ b = f a (i + Z.of_nat n).
Proof.
  induction l as [|a l IH]; intros i H; [destruct H|]. cbn [mapi_from] in H.
  destruct H as [<- | H].
  - exists 0%nat, a. split; [reflexivity|]. f_equal. cbn. lia.
  - destruct (IH _ H) as (n & a' & Hn & ->). exists (S n), a'.
    split; [exact Hn|]. f_equal. lia.
Qed.

Lemma mapi_from_In {A B : Type} (f : A -> Z -> B) (a : A) (l : list A) :
  forall i n, nth_error l n = Some a ->
  In (f a (i + Z.of_nat n)) (mapi_from f i l).
Proof.
  induction l as [|a' l IH]; intros i [|n] H; try discriminate.
  - inversion H; subst. left. f_equal. cbn. lia.
  - right. cbn [nth_error] in H.
    replace (i + Z.of_nat (S n)) with (i + 1 + Z.of_nat n) by lia.
    now apply IH.
Qed.

Lemma at_index_app (pre values : list number) (i : Z) :
  i = Z.of_nat (List.length pre) ->
  at_index (pre ++ values) i =
  match values with x :: _ => Num x | [] => Undefined end.
Proof.
  intros ->. unfold at_index. rewrite Nat2Z.id.
  rewrite nth_error_app2 by lia. rewrite Nat.sub_diag. now destruct values.
Qed.

Lemma at_index_inside (values : list number) (n : nat) :
  (n < List.length values)%nat -> is_num (at_index values (Z.of_nat n)).
Proof.
  intros H. unfold at_index. rewrite Nat2Z.id.
  destruct (nth_error values n) as [x|] eqn:E; [now exists x|].
  apply nth_error_None in E. lia.
Qed.

Lemma at_index_outside (values : list number) (n : nat) :
  (List.length values <= n)%nat -> at_index values (Z.of_nat n) = Undefined.
Proof.
  intros H. unfold at_index. rewrite Nat2Z.id.
  now rewrite (proj2 (nth_error_None values n) H).
Qed.

(** Reading [values[i]] along labels that are as many as the values *)
Lemma mapi_from_values {A B : Type} (F : A -> value -> B)
    (names : list A) : forall (values pre : list number),
  List.length names = List.length values ->
  mapi_from (fun l i => F l (at_index (pre ++ values) i))
            (Z.of_nat (List.length pre)) names
  = map (fun p => F (fst p) (Num (snd p))) (combine names values).
Proof.
  induction names as [|l names IH]; intros values pre Hlen; [reflexivity|].
  destruct values as [|x values]; [discriminate Hlen|].
  cbn [mapi_from combine map fst snd]. rewrite at_index_app by reflexivity.
  f_equal. specialize (IH values (pre ++ [x])%list ltac:(cbn in Hlen; lia)).
  rewrite <- app_assoc in IH. cbn [app] in IH. rewrite length_app in IH.
  cbn [List.length] in IH. rewrite Nat2Z.inj_add in IH. exact IH.
Qed.

Lemma combine_map {A B C : Type} (f : A -> B) (g : A -> C) (l : list A) :
  combine (map f l) (map g l) = map (fun a => (f a, g a)) l.
Proof. induction l as [|a l IH]; cbn; [reflexivity | now rewrite IH]. Qed.

Lemma map_snd_combine {A B : Type} (l : list A) : forall (l' : list B),
  List.length l = List.length l' -> map snd (combine l l') = l'.
Proof.
  induction l as [|a l IH]; intros [|b l'] H; try discriminate; [reflexivity|].
  cbn. f_equal. apply IH. cbn in H. lia.
Qed.

Lemma hd_filter {A : Type} (p : A -> bool) (l : list A) :
  hd_error (filter p l) = find p l.
Proof.
  induction l as [|a l IH]; [reflexivity|]. cbn [filter find].
  destruct (p a); [reflexivity | exact IH].
Qed.

Lemma find_map {A B : Type} (p : B -> bool) (f : A -> B) (l : list A) :
  find p (map f l) = option_map f (find (fun a => p (f a)) l).
Proof.
  induction l as [|a l IH]; [reflexivity|]. cbn [map find].
  destruct (p (f a)); [reflexivity | exact IH].
Qed.

Lemma firstn_Forall {A : Type} (P : A -> Prop) (n : nat) (l : list A) :
  Forall P l -> Forall P (firstn n l).
Proof.
  intros H. rewrite Forall_forall in *. intros x Hx. apply H.
  rewrite <- (firstn_skipn n l). apply in_or_app. now left.
Qed.

Lemma skipn_Forall {A : Type} (P : A -> Prop) (n : nat) (l : list A) :
  Forall P l -> Forall P (skipn n l).
Proof.
  intros H. rewrite Forall_forall in *. intros x Hx. apply H.
  rewrite <- (firstn_skipn n l). apply in_or_app. now right.
Qed.

End SortFacts.

(** ** What the templates and the charts are given: the ranker's output *)

Module OutputFacts.
Import Detector Ranker Stated Notions JSFacts DetectorFacts RankerFacts.
Import RankerMore SortFacts.

Lemma rank_in_range (bs : list brokerage) :
  Forall (fun b => in_range (marketShare b)) bs ->
  Forall (fun b => in_range (marketShare b)) (rank bs).
Proof.
  intros H. rewrite Forall_forall in *. intros b Hb.
  apply (Permutation_in _ (rank_perm bs)) in Hb.
  apply in_map_iff in Hb. destruct Hb as (b0 & <- & Hb0).
  rewrite normalize_brand_share. now apply H.
Qed.

Lemma output_ranked (data : sheet) (out : output) :
  extractMarketShareData data = Ok out ->
  exists (st : state) (L : list brokerage),
    out = finish st /\ L = firstn 10 (rank (brokerages st)) /\
    labels out = map brand L /\ dataValues out = map marketShare L /\
    backgroundColor out = colors_from 0 (map brand L) /\
    Sorted share_ge L /\ Forall is_number L /\ (List.length L <= 10)%nat /\
    Forall (fun b => in_range (marketShare b)) L.
Proof.
  unfold extractMarketShareData.
  destruct (process_rows _ _ _) as [st|e] eqn:E; cbn [bind]; intros H; [|discriminate].
  inversion H; subst out. exists st, (firstn 10 (rank (brokerages st))).
  pose proof (process_rows_numbers _ _ _ _ E (Forall_nil _)) as Hn.
  pose proof (process_rows_in_range _ _ _ _ E (Forall_nil _)) as Hr.
  repeat split.
  - apply firstn_sorted. now apply rank_sorted.
  - apply firstn_Forall. now apply rank_numbers.
  - apply firstn_le_length.
  - apply firstn_Forall. now apply rank_in_range.
Qed.

Lemma output_shape (data : sheet) (out : output) :
  extractMarketShareData data = Ok out ->
  List.length (labels out) = List.length (dataValues out) /\
  Sorted num_ge (dataValues out) /\
  backgroundColor out = colors_from 0 (labels out) /\
  (List.length (dataValues out) <= 10)%nat /\
  Forall in_range (dataValues out).
Proof.
  intros H. destruct (output_ranked data out H)
    as (st & L & _ & _ & -> & -> & -> & Hs & Hn & Hlen & Hr).
  rewrite !length_map. repeat split; try assumption.
  - now apply map_share_sorted.
  - now apply Forall_map.
Qed.

End OutputFacts.

(** ** Facts about the analysis templates *)

Module TemplateFacts.
Import Detector Ranker Stated Notions JSFacts DetectorFacts RankerFacts.
Import RankerMore JSMore SortFacts OutputFacts Templates.

(** *** The ranker's records as items *)
Lemma normalizedData_ranked (L : list brokerage) :
  normalizedData (map brand L) (map marketShare L) = map item_of L.
Proof.
  unfold normalizedData.
  pose proof (mapi_from_values (fun l v => {| item_label := l; item_value := v |})
                (map brand L) (map marketShare L) []) as H.
  cbn [app List.length Z.of_nat] in H. rewrite H by now rewrite !length_map.
  rewrite combine_map, map_map. reflexivity.
Qed.

Lemma share_ge_no_lt (a b : brokerage) :
  share_ge a b -> no_lt item_value (item_of a) (item_of b).
Proof.
  unfold share_ge, no_lt, key, ge. cbn [item_of item_value to_number].
  destruct (marketShare a), (marketShare b); try discriminate;
    intros H; now apply negb_true_iff in H.
Qed.

Lemma items_sorted (L : list brokerage) :
  Sorted share_ge L -> Sorted (no_lt item_value) (map item_of L).
Proof. apply Sorted_map, share_ge_no_lt. Qed.

Lemma items_numeric (L : list brokerage) :
  Forall is_number L -> Forall (numeric item_value) (map item_of L).
Proof. intros H. apply Forall_map. exact H. Qed.

Lemma item_desc : by_value_desc = desc item_value.
Proof. reflexivity. Qed.

Lemma sortedData_ranked (L : list brokerage) :
  Sorted share_ge L ->
  sortedData (map brand L) (map marketShare L) = map item_of L.
Proof.
  intros Hs. unfold sortedData. rewrite normalizedData_ranked, item_desc.
  apply sort_by_fixed. now apply items_sorted.
Qed.

(** *** Colours *)
Lemma template_color_plain (tt : template_type) (l : string) (i : Z) :
  tt <> OTHER_INSIGHTS \/ 3 <= i -> template_color tt l i = color l i.
Proof.
  intros H. unfold template_color, color.
  destruct (includes "Sotheby's" l); [reflexivity|].
  destruct tt; try reflexivity.
  destruct H as [H | H]; [congruence|].
  destruct (i <? 3) eqn:E; [apply Z.ltb_lt in E; lia | reflexivity].
Qed.

Lemma template_colors_from (tt : template_type) (names : list string) : forall i,
  tt <> OTHER_INSIGHTS \/ 3 <= i ->
  mapi_from (template_color tt) i names = colors_from i names.
Proof.
  induction names as [|l names IH]; intros i H; [reflexivity|].
  cbn [mapi_from colors_from]. rewrite template_color_plain by exact H.
  f_equal. apply IH. destruct H; [now left | right; lia].
Qed.

Lemma skipn_colors_from (n : nat) : forall names i,
  skipn n (colors_from i names) = colors_from (i + Z.of_nat n) (skipn n names).
Proof.
  induction n as [|n IH]; intros names i.
  - cbn [skipn]. now rewrite Z.add_0_r.
  - destruct names as [|a names]; [reflexivity|]. cbn [skipn colors_from].
    rewrite IH. f_equal. lia.
Qed.

(** X16: the market-share and the combined template colour the labels
    exactly as the ranker does; the insights template differs from the
    ranker only in the first three colours. *)
Theorem X16_template_palette (names : list string) (tt : template_type) :
  generateTemplateColors names tt =
  match tt with
  | OTHER_INSIGHTS =>
      (firstn 3 (generateTemplateColors names tt)
       ++ skipn 3 (colors_from 0 names))%list
  | _ => colors_from 0 names
  end.
Proof.
  unfold generateTemplateColors.
  destruct tt; try (apply template_colors_from; left; discriminate).
  rewrite <- (firstn_skipn 3 (mapi_from _ 0 names)) at 1. f_equal.
  rewrite skipn_mapi_from, skipn_colors_from.
  apply template_colors_from. right. cbn. lia.
Qed.

(** *** The nearest competitor *)

(** X17: among items whose values are numbers, the competitor that the
    insights name is an item of the data that is not Sotheby's and whose
    value is greater than or equal to that of every other such item; there
    is none only when every item is Sotheby's. *)
Theorem X17_topCompetitor_is_greatest (data : list item) :
  Forall (numeric item_value) data ->
  match topCompetitor data with
  | Some c =>
      In c data /\ is_sothebys c = false /\
      forall d, In d data -> is_sothebys d = false ->
        ge (to_number (item_value c)) (to_number (item_value d)) = true
  | None => forall d, In d data -> is_sothebys d = true
  end.
Proof.
  intros Hn. unfold topCompetitor. rewrite item_desc.
  set (others := filter (fun i => negb (is_sothebys i)) data).
  pose proof (sort_by_perm (desc item_value) others) as Hp.
  pose proof (sort_by_sorted item_value others) as Hs.
  assert (Ho : forall d, In d others <-> In d data /\ is_sothebys d = false).
  { intros d. unfold others. rewrite filter_In, negb_true_iff. reflexivity. }
  assert (Hno : Forall (numeric item_value) others).
  { rewrite Forall_forall in *. intros d Hd. apply Hn. now apply Ho. }
  destruct (sort_by (desc item_value) others) as [|c rest] eqn:E; cbn [hd_error].
  - intros d Hd. destruct (is_sothebys d) eqn:Ed; [reflexivity|].
    exfalso.
    assert (Hin : In d others) by now apply Ho.
    apply (Permutation_in _ (Permutation_sym Hp)) in Hin. destruct Hin.
  - assert (Hc : In c others)
      by (apply (Permutation_in _ Hp); now left).
    apply Ho in Hc. destruct Hc as [Hc1 Hc2]. repeat split; try assumption.
    intros d Hd1 Hd2.
    assert (Hnr : Forall (numeric item_value) (c :: rest)).
    { rewrite Forall_forall in *. intros x Hx. apply Hno.
      now apply (Permutation_in _ Hp). }
    inversion Hnr as [|? ? Hcn Hrn]; subst.
    pose proof (sorted_head item_value c rest Hrn Hs) as Hall.
    assert (Hd : In d (c :: rest)).
    { apply (Permutation_in _ (Permutation_sym Hp)). now apply Ho. }
    assert (Hdn : numeric item_value d).
    { rewrite Forall_forall in Hnr. now apply Hnr. }
    apply ge_of_not_lt; [exact Hcn | exact Hdn |].
    destruct Hd as [<- | Hd].
    + destruct (lt (to_number (item_value c)) (to_number (item_value c))) eqn:El;
        [|reflexivity]. pose proof (lt_asym _ _ El). congruence.
    + rewrite Forall_forall in Hall. now apply Hall.
Qed.

Lemma X17_topCompetitor_is_greatest_witness :
  match topCompetitor sample_items with
  | Some c =>
      In c sample_items /\ is_sothebys c = false /\
      forall d, In d sample_items -> is_sothebys d = false ->
        ge (to_number (item_value c)) (to_number (item_value d)) = true
  | None => forall d, In d sample_items -> is_sothebys d = true
  end.
Proof.
  apply (X17_topCompetitor_is_greatest sample_items). repeat constructor.
Defined.

(** *** The gap *)
Lemma first_share_find (p : string -> bool) (L : list brokerage) :
  first_share p (map brand L) (map marketShare L)
  = option_map marketShare (find (fun b => p (brand b)) L).
Proof.
  induction L as [|b L IH]; [reflexivity|]. cbn [map first_share find].
  destruct (p (brand b)); [reflexivity | exact IH].
Qed.

Lemma sothebysItem_ranked (L : list brokerage) :
  sothebysItem (map item_of L)
  = option_map item_of (find (fun b => is_subject (brand b)) L).
Proof. unfold sothebysItem. now rewrite find_map. Qed.

Lemma topCompetitor_ranked (L : list brokerage) :
  Sorted share_ge L -> Forall is_number L ->
  topCompetitor (map item_of L)
  = option_map item_of (find (fun b => negb (is_subject (brand b))) L).
Proof.
  intros Hs Hn. unfold topCompetitor. rewrite item_desc.
  rewrite (sort_by_filter_fixed item_value)
    by (try apply items_numeric; try apply items_sorted; assumption).
  now rewrite hd_filter, find_map.
Qed.

Lemma valueGap_ranked (L : list brokerage) :
  Sorted share_ge L -> Forall is_number L ->
  valueGap (map item_of L)
  = gap_value (spec_gap (map brand L) (map marketShare L)).
Proof.
  intros Hs Hn. unfold valueGap, sothebysValue, spec_gap.
  rewrite (topCompetitor_ranked L Hs Hn), sothebysItem_ranked, !first_share_find.
  destruct (find (fun b => is_subject (brand b)) L) as [s|]; cbn [option_map];
    [|reflexivity].
  destruct (find (fun b => negb (is_subject (brand b))) L) as [c|]; reflexivity.
Qed.

(** X18: on what the ranker returns, the gap that the template computes is
    the gap of the specification: the share of the subject less that of
    the highest-ranked record that is not the subject, to one decimal; it
    is the number 0 when either is missing. *)
Theorem X18_template_gap_is_stated_gap (data : sheet) (out : output) :
  extractMarketShareData data = Ok out ->
  valueGap (sortedData (labels out) (dataValues out))
  = gap_value (spec_gap (labels out) (dataValues out)).
Proof.
  intros H. destruct (output_ranked data out H)
    as (st & L & _ & _ & -> & -> & _ & Hs & Hn & _).
  rewrite (sortedData_ranked L Hs). now apply valueGap_ranked.
Qed.

Lemma X18_template_gap_is_stated_gap_witness :
  exists out : output,
    extractMarketShareData C4_sheet = Ok out /\
    valueGap (sortedData (labels out) (dataValues out)) = Str "3.6" /\
    valueGap (sortedData (labels out) (dataValues out))
    = gap_value (spec_gap (labels out) (dataValues out)).
Proof.
  eexists. split; [vm_compute; reflexivity|]. split; [vm_compute; reflexivity|].
  apply (X18_template_gap_is_stated_gap C4_sheet). vm_compute; reflexivity.
Defined.

(** *** [applyTemplate] on what the ranker returns *)
Lemma sothebysValue_ranked (L : list brokerage) :
  sothebysValue (map item_of L)
  = Num (sothebysShare (map brand L) (map marketShare L)).
Proof.
  unfold sothebysValue, sothebysShare.
  rewrite share_at_findIndex by now rewrite !length_map.
  rewrite sothebysItem_ranked.
  change (includes "Sotheby's") with is_subject. rewrite first_share_find.
  destruct (find _ L); reflexivity.
Qed.

Lemma baseInsights_ranked (divide : number -> number -> number)
    (L : list brokerage) :
  Sorted share_ge L -> Forall is_number L ->
  exists position,
    baseInsights divide (map item_of L) =
    Ok [ "Russ Lyon Sotheby's International Realty has "
           ++ toFixed (sothebysShare (map brand L) (map marketShare L)) 1
           ++ "% market share";
         position;
         "Top 3 brokerages control " ++ top3Percentage divide (map item_of L)
           ++ "% of the market" ].
Proof.
  intros Hs Hn. unfold baseInsights.
  rewrite sothebysValue_ranked. cbn [method_toFixed bind].
  rewrite (topCompetitor_ranked L Hs Hn), sothebysItem_ranked.
  destruct (find (fun b => is_subject (brand b)) L) as [s|]; cbn [option_map];
    [|cbn [bind]; eauto].
  destruct (find (fun b => negb (is_subject (brand b))) L) as [c|];
    cbn [option_map item_of item_value method_toFixed bind]; eauto.
Qed.

(** X19: applied to what the ranker returns, a template returns, whatever
    the division yields: it keeps the labels and the values in the ranker's
    order, its summary opens with the ranker's first line, and it has
    three computed lines before the fixed lines of the template. *)
Theorem X19_template_of_ranking
    (divide : number -> number -> number)
    (data : sheet) (out : output) (tt : template_type) :
  extractMarketShareData data = Ok out ->
  exists t : template,
    applyTemplate divide (labels out) (dataValues out) tt = Ok t /\
    chart_labels (t_processedData t) = labels out /\
    chart_data (t_processedData t) = map Num (dataValues out) /\
    nth_error (t_summary (t_insights t)) 0
      = nth_error (summary (insights out)) 0 /\
    List.length (t_summary (t_insights t))
      = (3 + List.length (template_insights tt))%nat.
Proof.
  intros H. destruct (output_ranked data out H)
    as (st & L & -> & HL & Hl & Hv & _ & Hs & Hn & _).
  rewrite Hl, Hv. unfold applyTemplate, generateTemplateInsights, processedData.
  rewrite (sortedData_ranked L Hs).
  destruct (baseInsights_ranked divide L Hs Hn) as (position & ->).
  cbn [bind]. eexists. split; [reflexivity|].
  cbn [t_processedData chart_labels chart_data t_insights t_summary].
  rewrite !map_map. cbn [item_of item_label item_value].
  split; [reflexivity|]. split; [reflexivity|].
  split; [|reflexivity].
  cbn [app nth_error]. cbn [finish insights make_insights summary nth_error].
  now rewrite <- HL.
Qed.

Lemma X19_template_of_ranking_witness :
  exists out : output,
    extractMarketShareData C4_sheet = Ok out /\
    exists t : template,
      applyTemplate quotient20 (labels out) (dataValues out) MARKET_SHARE = Ok t /\
      chart_labels (t_processedData t) = labels out /\
      chart_data (t_processedData t) = map Num (dataValues out) /\
      nth_error (t_summary (t_insights t)) 0
        = nth_error (summary (insights out)) 0 /\
      List.length (t_summary (t_insights t))
        = (3 + List.length (template_insights MARKET_SHARE))%nat.
Proof.
  eexists. split; [vm_compute; reflexivity|].
  apply (X19_template_of_ranking quotient20 C4_sheet). vm_compute; reflexivity.
Defined.

(** *** [applyTemplate] on any labels and values *)
Lemma In_normalizedData (names : list string) (values : list number) (i : item) :
  In i (normalizedData names values) ->
  exists n, nth_error names n = Some (item_label i) /\
            item_value i = at_index values (Z.of_nat n).
Proof.
  intros H. apply In_mapi_from in H. destruct H as (n & l & Hn & ->).
  exists n. cbn [item_label item_value]. now rewrite Z.add_0_l.
Qed.

Lemma In_sortedData (names : list string) (values : list number) (i : item) :
  In i (sortedData names values) <-> In i (normalizedData names values).
Proof.
  unfold sortedData. split; apply Permutation_in;
    [|apply Permutation_sym]; apply sort_by_perm.
Qed.

Lemma topCompetitor_In (data : list item) (c : item) :
  topCompetitor data = Some c -> In c data.
Proof.
  unfold topCompetitor. intros H.
  assert (Hin : In c (sort_by by_value_desc
                        (filter (fun i => negb (is_sothebys i)) data))).
  { destruct (sort_by _ _); [discriminate H|]. inversion H. now left. }
  apply (Permutation_in _ (sort_by_perm _ _)) in Hin.
  now apply filter_In in Hin.
Qed.

Lemma baseInsights_returns (divide : number -> number -> number)
    (data : list item) :
  Forall (fun i => is_num (item_value i)) data ->
  exists lines, baseInsights divide data = Ok lines /\ List.length lines = 3%nat.
Proof.
  intros H. rewrite Forall_forall in H. unfold baseInsights.
  assert (Hs : exists x, sothebysValue data = Num x).
  { unfold sothebysValue, sothebysItem.
    destruct (find is_sothebys data) as [i|] eqn:E; [|eauto].
    apply find_some in E. now apply H. }
  destruct Hs as (x & ->). cbn [method_toFixed bind].
  destruct (sothebysItem data); [|cbn [bind]; eauto].
  destruct (topCompetitor data) as [c|] eqn:E; [|cbn [bind]; eauto].
  destruct (H c (topCompetitor_In _ _ E)) as (y & ->).
  cbn [method_toFixed bind]. eauto.
Qed.

(** X20: given at least as many values as labels, a template returns,
    whatever the division yields: its labels are a rearrangement of the
    given ones, with a value and a colour for each, and its summary has
    three computed lines before the fixed lines of the template. *)
Theorem X20_applyTemplate_returns
    (divide : number -> number -> number)
    (names : list string) (values : list number) (tt : template_type) :
  (List.length names <= List.length values)%nat ->
  exists t : template,
    applyTemplate divide names values tt = Ok t /\
    Permutation (chart_labels (t_processedData t)) names /\
    List.length (chart_data (t_processedData t)) = List.length names /\
    List.length (chart_backgroundColor (t_processedData t)) = List.length names /\
    List.length (t_summary (t_insights t))
      = (3 + List.length (template_insights tt))%nat.
Proof.
  intros Hlen.
  assert (Hnum : Forall (fun i => is_num (item_value i)) (sortedData names values)).
  { apply Forall_forall. intros i Hi. apply In_sortedData in Hi.
    destruct (In_normalizedData _ _ _ Hi) as (n & Hn & ->).
    apply at_index_inside.
    assert (n < List.length names)%nat; [|lia].
    apply nth_error_Some. congruence. }
  destruct (baseInsights_returns divide _ Hnum) as (lines & Hb & Hl).
  unfold applyTemplate, generateTemplateInsights. rewrite Hb. cbn [bind].
  eexists. split; [reflexivity|].
  cbn [t_processedData t_insights t_summary processedData chart_labels chart_data
       chart_backgroundColor].
  assert (Hp : Permutation (map item_label (sortedData names values)) names).
  { unfold sortedData. rewrite (sort_by_perm by_value_desc).
    unfold normalizedData. rewrite mapi_from_map. cbn [item_label].
    rewrite (mapi_from_const (fun l => l)), map_id. reflexivity. }
  split; [exact Hp|]. unfold generateTemplateColors.
  rewrite length_mapi_from, !length_map, length_app, Hl.
  pose proof (Permutation_length Hp) as Hpl. rewrite length_map in Hpl.
  repeat split; assumption.
Qed.

Lemma X20_applyTemplate_returns_witness :
  exists t : template,
    applyTemplate quotient20 ["Compass"; "HomeSmart"] [Fin 9 0; Fin 12 0]
                  OTHER_INSIGHTS = Ok t /\
    Permutation (chart_labels (t_processedData t)) ["Compass"; "HomeSmart"] /\
    List.length (chart_data (t_processedData t)) = 2%nat /\
    List.length (chart_backgroundColor (t_processedData t)) = 2%nat /\
    List.length (t_summary (t_insights t)) = 8%nat.
Proof.
  apply (X20_applyTemplate_returns quotient20 ["Compass"; "HomeSmart"]
           [Fin 9 0; Fin 12 0] OTHER_INSIGHTS).
  cbn. lia.
Defined.

(** X21: when a label contains "Sotheby's" and no label that does has a
    value, a template throws the [TypeError] of reading [toFixed] of
    [undefined]. *)
Theorem X21_applyTemplate_missing_value
    (divide : number -> number -> number)
    (names : list string) (values : list number) (tt : template_type) :
  existsb is_subject names = true ->
  existsb is_subject (firstn (List.length values) names) = false ->
  applyTemplate divide names values tt = Throw undefined_toFixed.
Proof.
  intros Hex Hout.
  assert (Hv : sothebysValue (sortedData names values) = Undefined).
  { unfold sothebysValue, sothebysItem.
    destruct (find is_sothebys (sortedData names values)) as [i|] eqn:E.
    - apply find_some in E. destruct E as [Hi Hsi]. apply In_sortedData in Hi.
      destruct (In_normalizedData _ _ _ Hi) as (n & Hn & ->).
      apply at_index_outside.
      destruct (Nat.le_gt_cases (List.length values) n) as [Hle | Hgt];
        [exact Hle | exfalso].
      assert (Hin : In (item_label i) (firstn (List.length values) names)).
      { apply (nth_error_In _ n). rewrite nth_error_firstn.
        destruct (Nat.ltb_spec n (List.length values)); [exact Hn | lia]. }
      assert (Ht' : existsb is_subject (firstn (List.length values) names) = true).
      { apply existsb_exists. exists (item_label i). now split. }
      congruence.
    - exfalso. apply existsb_exists in Hex. destruct Hex as (l & Hl & Hs).
      apply In_nth_error in Hl. destruct Hl as (n & Hn).
      assert (Hi : In {| item_label := l;
                         item_value := at_index values (0 + Z.of_nat n) |}
                      (sortedData names values)).
      { apply In_sortedData. unfold normalizedData.
        apply (mapi_from_In
                 (fun label j => {| item_label := label;
                                    item_value := at_index values j |})). exact Hn. }
      apply (find_none _ _ E) in Hi. unfold is_sothebys in Hi.
      cbn [item_label] in Hi. unfold is_subject in Hs. congruence. }
  unfold applyTemplate, generateTemplateInsights, baseInsights.
  rewrite Hv. reflexivity.
Qed.

Lemma X21_applyTemplate_missing_value_witness :
  applyTemplate quotient20 ["Compass"; "Sotheby's Realty"] [Fin 12 0] MARKET_SHARE
  = Throw undefined_toFixed.
Proof.
  apply (X21_applyTemplate_missing_value quotient20
           ["Compass"; "Sotheby's Realty"] [Fin 12 0] MARKET_SHARE); reflexivity.
Defined.

End TemplateFacts.

(** ** Facts about the data of the charts *)

Module ChartFacts.
Import Detector Ranker Stated Notions JSFacts DetectorFacts RankerFacts.
Import RankerMore JSMore SortFacts OutputFacts Charts.

Lemma combined_labels (names : list string) (values : list number) :
  map entry_label (combined names values) = names.
Proof.
  unfold combined. rewrite mapi_from_map. cbn [entry_label].
  rewrite (mapi_from_const (fun l => l)). apply map_id.
Qed.

Lemma combined_values (names : list string) (values : list number) :
  List.length names = List.length values ->
  map entry_value (combined names values) = map Num values.
Proof.
  intros H. unfold combined. rewrite mapi_from_map. cbn [entry_value].
  pose proof (mapi_from_values (fun (_ : string) v => v) names values [] H) as E.
  cbn [app List.length Z.of_nat] in E. rewrite E.
  rewrite <- (map_snd_combine names values H) at 2. now rewrite map_map.
Qed.

Lemma entry_desc : by_value_desc = desc entry_value.
Proof. reflexivity. Qed.

(** An array whose values already descend is left as it is. *)
Lemma sortedData_sorted (names : list string) (values : list number) :
  List.length names = List.length values -> Sorted num_ge values ->
  sortedData names values = combined names values.
Proof.
  intros Hlen Hs. unfold sortedData. rewrite entry_desc.
  apply sort_by_fixed, sorted_of_keys.
  unfold key. rewrite <- (map_map entry_value to_number).
  rewrite (combined_values names values Hlen), map_map. cbn [to_number].
  rewrite map_id. eapply Sorted_weaken; [|exact Hs]. apply num_ge_no_lt.
Qed.

Lemma bar_colors_from (l : list entry) : forall i,
  mapi_from bar_color i l = colors_from i (map entry_label l).
Proof.
  induction l as [|e l IH]; intros i; [reflexivity|].
  cbn [mapi_from map colors_from]. now rewrite IH.
Qed.

(** X22: the bar chart of what the ranker returns shows exactly that: the
    labels and the values in the ranker's order, in the ranker's
    colours. *)
Theorem X22_bar_chart_of_ranking (data : sheet) (out : output) :
  extractMarketShareData data = Ok out ->
  prepareBarChartData (sortedData (labels out) (dataValues out))
  = {| chart_labels := labels out;
       chart_data := map Num (dataValues out);
       chart_backgroundColor := backgroundColor out |}.
Proof.
  intros H. destruct (output_shape data out H) as (Hlen & Hs & Hc & _).
  rewrite (sortedData_sorted _ _ Hlen Hs). unfold prepareBarChartData.
  rewrite bar_colors_from, combined_labels, (combined_values _ _ Hlen).
  now rewrite Hc.
Qed.

Lemma X22_bar_chart_of_ranking_witness :
  exists out : output,
    extractMarketShareData C4_sheet = Ok out /\
    prepareBarChartData (sortedData (labels out) (dataValues out))
    = {| chart_labels := labels out;
         chart_data := map Num (dataValues out);
         chart_backgroundColor := backgroundColor out |}.
Proof.
  eexists. split; [vm_compute; reflexivity|].
  apply (X22_bar_chart_of_ranking C4_sheet). vm_compute; reflexivity.
Defined.

(** *** Sums *)
Lemma plus_number (a : number) (v : value) :
  not_text v -> plus (Num a) v = Num (add a (to_number v)).
Proof. destruct v; cbn; intros H; [reflexivity | destruct H | reflexivity]. Qed.

Lemma fold_plus_number (l : list entry) : forall a,
  Forall (fun e => not_text (entry_value e)) l ->
  exists x, fold_left (fun sum e => plus sum (entry_value e)) l (Num a) = Num x.
Proof.
  induction l as [|e l IH]; intros a H; cbn [fold_left]; [eauto|].
  inversion H; subst. rewrite plus_number by assumption. now apply IH.
Qed.


Lemma combined_not_text (names : list string) (values : list number) :
  Forall (fun e => not_text (entry_value e)) (combined names values).
Proof.
  apply Forall_mapi_from. intros l j. cbn [entry_value]. unfold at_index.
  destruct (nth_error _ _); exact I.
Qed.

Lemma sortedData_perm (names : list string) (values : list number) :
  Permutation (sortedData names values) (combined names values).
Proof. apply sort_by_perm. Qed.

Lemma sortedData_not_text (names : list string) (values : list number) :
  Forall (fun e => not_text (entry_value e)) (sortedData names values).
Proof.
  eapply Permutation_Forall; [|apply combined_not_text].
  apply Permutation_sym, sortedData_perm.
Qed.

Lemma othersValue_number (l : list entry) :
  Forall (fun e => not_text (entry_value e)) l ->
  exists x, othersValue l = Num x.
Proof.
  intros H. unfold othersValue. destruct (5 <? _)%nat; [|eauto].
  apply fold_plus_number. now apply skipn_Forall.
Qed.

(** X23: the pie chart of any labels and values never throws; without
    labels it is the fallback, and else it has at least one and at most
    six slices, each with its value and its colour. *)
Theorem X23_pie_chart_shape
    (displayData : chart) (names : list string) (values : list number) :
  exists c : chart,
    preparePieChartData displayData (sortedData names values) = Ok c /\
    match names with
    | [] => c = displayData
    | _ =>
        List.length (chart_data c) = List.length (chart_labels c) /\
        List.length (chart_backgroundColor c) = List.length (chart_labels c) /\
        (1 <= List.length (chart_labels c) <= 6)%nat
    end.
Proof.
  destruct names as [|n names]; [eexists; split; reflexivity|].
  set (sorted := sortedData (n :: names) values).
  assert (Hlen : List.length sorted = S (List.length names)).
  { unfold sorted. rewrite (Permutation_length (sortedData_perm _ _)).
    unfold combined. now rewrite length_mapi_from. }
  destruct (othersValue_number sorted (sortedData_not_text _ _)) as (x & Hx).
  unfold preparePieChartData.
  destruct sorted as [|e rest] eqn:E; [discriminate Hlen|]. rewrite Hx.
  cbn [to_number method_toFixed bind].
  assert (H5 : (1 <= List.length (firstn 5 (e :: rest)) <= 5)%nat).
  { rewrite length_firstn. cbn [List.length]. lia. }
  destruct (gt x (ofZ 0)); cbn [bind]; eexists; (split; [reflexivity|]);
    cbn [chart_data chart_labels chart_backgroundColor];
    rewrite ?length_mapi_from, ?length_app, ?length_map; cbn [List.length]; lia.
Qed.







End ChartFacts.
